(** * ipnserver: local control server of the daemon

    A shallow embedding of the session tracker, the permission calculator,
    the identity resolvers and the server life cycle of package [ipnserver],
    with the properties of its specification proved about the embedding.

    Go values are modelled as follows.
    - A pointer that may be nil is an [option]; a [(value, err)] result is a
      pair whose second component is [None] for a nil error, or a sum where
      the callee returns exactly one of the two.
    - [*http.Request] and [*ipnlocal.LocalBackend] pointers are natural
      numbers: only their identity is observed.
    - The [LocalBackend] objects live in a heap indexed by pointer; the
      server only holds the pointer.
    - A method body is a computation in the monad [M]: it threads the
      [World] (server fields, backend heap, trace of effects) and may panic.
      Every lock operation, log line and backend call is appended to the
      trace in program order. *)

From stdpp Require Import gmap strings list fin_maps pretty.

From Stdlib Require Import ZArith Lia Ascii.

Open Scope string_scope.

Open Scope list_scope.

(** ** Errors *)

(** Go [error] values built by this package: [errors.New] and [fmt.Errorf]
    without [%w] give a plain message, [%w] keeps the wrapped error, and
    [inUseOtherUserError] embeds an error. *)
Inductive error : Type :=
| errorString (msg : string)
| wrapError (msg : string) (inner : error)
| inUseOtherUserError (inner : error).

#[global] Instance error_eq_dec : EqDecision error.
Proof. solve_decision. Defined.

(** [err.Error()] *)
Fixpoint Error (e : error) : string :=
  match e with
  | errorString msg => msg
  | wrapError msg _ => msg
  | inUseOtherUserError inner => Error inner
  end.

(** [errors.As(err, &inUseOtherUserError{})] at the top of the chain. *)
Definition is_inUseOtherUserError (e : error) : bool :=
  match e with inUseOtherUserError _ => true | _ => false end.

(** ** Identities *)

(** [os/user.User] *)
Record user_User : Type := {
  Uid : string;
  Gid : string;
  Username : string;
  Name : string;
  HomeDir : string
}.

#[global] Instance user_User_eq_dec : EqDecision user_User.
Proof. solve_decision. Defined.

(** [peercred.Creds] of the external package inet.af/peercred: the pid and
    the user id of the peer, each with its zero value when unknown. *)
Record peercred_Creds : Type := {
  creds_pid : Z;
  creds_uid : string
}.

#[global] Instance peercred_Creds_eq_dec : EqDecision peercred_Creds.
Proof. solve_decision. Defined.

(** [Creds.UserID() (uid string, ok bool)]: known iff not empty. *)
Definition Creds_UserID (c : peercred_Creds) : string * bool :=
  (creds_uid c, negb (String.eqb (creds_uid c) "")).

(** [net.Conn] as far as the resolvers look at it: whether its dynamic type is
    [*net.UnixConn], the name of that type, and the pipe handle when the
    connection has a [Handle()] method. *)
Record net_Conn : Type := {
  conn_id : nat;
  conn_type : string;
  conn_is_unix : bool;
  conn_handle : option Z
}.

#[global] Instance net_Conn_eq_dec : EqDecision net_Conn.
Proof. solve_decision. Defined.

(** The identity record [connIdentity] of server_windows.go. [UserID] is an
    [ipn.WindowsUserID], a string; [User] is a [*user.User]. *)
Record ConnIdentity : Type := {
  Conn : net_Conn;
  NotWindows : bool;
  IsUnixSock : bool;
  Creds : option peercred_Creds;
  Pid : Z;
  UserID : string;
  User : option user_User
}.

#[global] Instance ConnIdentity_eq_dec : EqDecision ConnIdentity.
Proof. solve_decision. Defined.

(** Modelled from the spec: the accessor [WindowsUserID] of package ipnauth
    is not under src/; it returns the resolved user id attribute of the
    identity (the empty string where the resolver never sets one). *)
Definition WindowsUserID (ci : ConnIdentity) : string := UserID ci.

Arguments WindowsUserID : simpl never.

(** The composite literal [connIdentity{Conn: c}]: every other field has its
    zero value. *)
Definition connIdentity_of (c : net_Conn) : ConnIdentity :=
  {| Conn := c; NotWindows := false; IsUnixSock := false; Creds := None; Pid := 0%Z;
     UserID := ""; User := None |}.

Definition set_Pid (pid : Z) (ci : ConnIdentity) : ConnIdentity :=
  {| Conn := Conn ci; NotWindows := NotWindows ci; IsUnixSock := IsUnixSock ci; Creds := Creds ci;
     Pid := pid; UserID := UserID ci; User := User ci |}.

Definition set_UserID (uid : string) (ci : ConnIdentity) : ConnIdentity :=
  {| Conn := Conn ci; NotWindows := NotWindows ci; IsUnixSock := IsUnixSock ci; Creds := Creds ci;
     Pid := Pid ci; UserID := uid; User := User ci |}.

Definition set_User (u : option user_User) (ci : ConnIdentity) : ConnIdentity :=
  {| Conn := Conn ci; NotWindows := NotWindows ci; IsUnixSock := IsUnixSock ci; Creds := Creds ci;
     Pid := Pid ci; UserID := UserID ci; User := u |}.

Definition set_NotWindows (b : bool) (ci : ConnIdentity) : ConnIdentity :=
  {| Conn := Conn ci; NotWindows := b; IsUnixSock := IsUnixSock ci; Creds := Creds ci;
     Pid := Pid ci; UserID := UserID ci; User := User ci |}.

Definition set_IsUnixSock (b : bool) (ci : ConnIdentity) : ConnIdentity :=
  {| Conn := Conn ci; NotWindows := NotWindows ci; IsUnixSock := b; Creds := Creds ci;
     Pid := Pid ci; UserID := UserID ci; User := User ci |}.

Definition set_Creds (c : option peercred_Creds) (ci : ConnIdentity) : ConnIdentity :=
  {| Conn := Conn ci; NotWindows := NotWindows ci; IsUnixSock := IsUnixSock ci; Creds := c;
     Pid := Pid ci; UserID := UserID ci; User := User ci |}.

(** ** The host: operating system and process environment

    Everything the package asks of the machine it runs on. [build_windows]
    is the build target (which resolver file is compiled in); [GOOS] is
    [envknob.GOOS()], which a debug knob may override at run time. *)
Class Host : Type := {
  build_windows : bool;
  GOOS : string;
  (** [envknob.String(name)] *)
  envknob_String : string -> string;
  (** [user.Lookup(name)]; [None] is a failed lookup *)
  user_Lookup : string -> option user_User;
  (** [peercred.Get(c)] of inet.af/peercred: the credentials, or an error
      with nil credentials *)
  peercred_Get : net_Conn -> peercred_Creds + error;
  (** the raw [GetNamedPipeClientProcessId] call on a handle: [r1] (a
      [uintptr]), the pid written through the out pointer, and the error
      of the call *)
  procGetNamedPipeClientProcessId : Z -> N * Z * error;
  (** [pidowner.OwnerOfPID(pid)] *)
  OwnerOfPID : Z -> string * option error;
  (** Modelled from the spec: [lookupUserFromID] is not under src/; it maps
      a user id to its display user record or fails. *)
  lookupUserFromID : string -> user_User + error;
  (** [ConnIdentity.IsReadonlyConn(operatorUID, logf)] of package
      ipnauth, which is not under src/: taken as a parameter. *)
  IsReadonlyConn : ConnIdentity -> string -> bool
}.

(** Modelled from the spec: [IsReadonlyConn] of package ipnauth is not under
    src/. The spec grants write only when "the credential's user id differ
    from none and not match a configured operator id - i.e. the operator id
    gets read-only": a connection is read-only when its credential carries
    no user id or when that id is the configured operator id. *)
Definition IsReadonlyConn_spec (ci : ConnIdentity) (operatorUID : string) : bool :=
  match Creds ci with
  | None => true
  | Some creds =>
      let '(uid, ok) := Creds_UserID creds in
      if ok then negb (String.eqb operatorUID "") && String.eqb uid operatorUID
      else true
  end.

(** ** Identity resolvers (server_windows.go and its non-Windows sibling) *)

Section Resolvers.

Context `{Host}.

Definition getNamedPipeClientProcessId (h : Z) : Z * option error :=
  let '(r1, pid, err) := procGetNamedPipeClientProcessId h in
  if (0 <? r1)%N then (pid, None) else (0%Z, Some err).

(** Windows: the owner of the other end of the named pipe. *)
Definition getConnIdentity_windows (c : net_Conn) : ConnIdentity * option error :=
  let ci := connIdentity_of c in
  match conn_handle c with
  | None => (ci, Some (errorString ("not a windows handle: " +:+ conn_type c)))
  | Some h =>
      match getNamedPipeClientProcessId h with
      | (_, Some err) =>
          (ci, Some (errorString ("getNamedPipeClientProcessId: " +:+ Error err)))
      | (pid, None) =>
          let ci := set_Pid pid ci in
          match OwnerOfPID (Pid ci) with
          | (_, Some err) =>
              (ci, Some (wrapError ("failed to map connection's pid to a user (WSL?): "
                                    +:+ Error err) err))
          | (uid, None) =>
              let ci := set_UserID uid ci in
              match lookupUserFromID uid with
              | inr err =>
                  (ci, Some (wrapError ("failed to look up user from userid: "
                                        +:+ Error err) err))
              | inl u => (set_User (Some u) ci, None)
              end
          end
      end
  end.

(** Not Windows: peer credentials of the socket, when there are any. *)
Definition getConnIdentity_notwindows (c : net_Conn) : ConnIdentity * option error :=
  let ci := set_NotWindows true (connIdentity_of c) in
  let ci := set_NotWindows true ci in
  let ci := set_IsUnixSock (conn_is_unix c) ci in
  let ci := set_Creds (match peercred_Get c with
                       | inl creds => Some creds
                       | inr _ => None
                       end) ci in
  (ci, None).

(** The resolver the build selects. *)
Definition getConnIdentity (c : net_Conn) : ConnIdentity * option error :=
  if build_windows then getConnIdentity_windows c else getConnIdentity_notwindows c.

(** An identity a request can carry: the resolver returned it without error. *)
Definition resolved (ci : ConnIdentity) : Prop :=
  exists c, getConnIdentity c = (ci, None).

End Resolvers.

(** ** Pure helpers of the permission calculator *)

(** The bytes ['0'] and ['9'] are 48 and 57. *)
Fixpoint isAllDigit (s : string) : bool :=
  match s with
  | EmptyString => true
  | String b rest =>
      if (N_of_ascii b <? 48)%N || (57 <? N_of_ascii b)%N then false
      else isAllDigit rest
  end.

Section UserID.

Context `{Host}.

Definition userIDFromString (v : string) : string :=
  if String.eqb v "" || isAllDigit v then v
  else match user_Lookup v with
       | None => ""
       | Some u => Uid u
       end.

Definition connCanFetchCerts (ci : ConnIdentity) : bool :=
  if IsUnixSock ci then
    match Creds ci with
    | Some creds =>
        let '(connUID, ok) := Creds_UserID creds in
        if ok && String.eqb connUID (userIDFromString (envknob_String "TS_PERMIT_CERT_UID"))
        then true else false
    | None => false
    end
  else false.

End UserID.

(** ** The backend collaborator *)

(** What the server calls on [*ipnlocal.LocalBackend], whose package is not
    under src/: taken as parameters over an abstract backend state [LB].
    Queries read the state, commands change it. *)
Class LocalBackend (LB : Type) : Type := {
  lb_CheckIPNConnectionAllowed : LB -> ConnIdentity -> option error;
  lb_OperatorUserID : LB -> string;
  lb_InServerMode : LB -> bool;
  (** [lb.Prefs().Valid()] *)
  lb_PrefsValid : LB -> bool;
  lb_SetCurrentUserID : string -> LB -> LB;
  lb_ResetForClientDisconnect : LB -> LB;
  lb_Start : LB -> LB;
  lb_Shutdown : LB -> LB
}.

(** A non-nil [*ipnlocal.LocalBackend]. *)
Abbreviation LBptr := nat.

(** A non-nil [*http.Request]. *)
Abbreviation Req := nat.

(** The methods of the backend the server calls. *)
Inductive Call : Type :=
| CheckIPNConnectionAllowed (ci : ConnIdentity)
| OperatorUserID
| InServerMode
| Prefs
| SetCurrentUserID (uid : string)
| ResetForClientDisconnect
| Start
| Shutdown.

(** Observable effects, recorded in program order. *)
Inductive Event : Type :=
| EvLock
| EvUnlock
| EvLogf (msg : string)
| EvCall (p : LBptr) (c : Call)
| EvSystemdReady.

#[global] Instance Call_eq_dec : EqDecision Call.
Proof. solve_decision. Defined.

#[global] Instance Event_eq_dec : EqDecision Event.
Proof. solve_decision. Defined.

(** ** Server state *)

(** The fields of [Server]. [startBackendOnce] is the done flag of the
    [sync.Once]; the mutex [mu] appears in the trace as [EvLock]/[EvUnlock].
    A nil [activeReqs] map and an empty one behave alike under [len],
    [range], [delete] and [mak.Set], so both are the empty map. *)
Record Server : Type := mkServer {
  lb : option LBptr;
  resetOnZero : bool;
  startBackendOnce : bool;
  runCalled : bool;
  lastUserID : string;
  activeReqs : gmap nat ConnIdentity
}.

Definition set_lb (v : option LBptr) (s : Server) : Server :=
  mkServer v (resetOnZero s) (startBackendOnce s) (runCalled s) (lastUserID s) (activeReqs s).

Definition set_startBackendOnce (v : bool) (s : Server) : Server :=
  mkServer (lb s) (resetOnZero s) v (runCalled s) (lastUserID s) (activeReqs s).

Definition set_runCalled (v : bool) (s : Server) : Server :=
  mkServer (lb s) (resetOnZero s) (startBackendOnce s) v (lastUserID s) (activeReqs s).

Definition set_lastUserID (v : string) (s : Server) : Server :=
  mkServer (lb s) (resetOnZero s) (startBackendOnce s) (runCalled s) v (activeReqs s).

Definition set_activeReqs (v : gmap nat ConnIdentity) (s : Server) : Server :=
  mkServer (lb s) (resetOnZero s) (startBackendOnce s) (runCalled s) (lastUserID s) v.

(** The whole state a method runs in. *)
Record World (LB : Type) : Type := mkWorld {
  srv : Server;
  heap : LBptr -> LB;
  trace : list Event
}.

Arguments mkWorld {LB} _ _ _.

Arguments srv {LB} _.

Arguments heap {LB} _.

Arguments trace {LB} _.

(** How a call ends: it returns, or it panics with a message. *)
Inductive Result (A : Type) : Type :=
| Ok (a : A)
| Panic (msg : string).

Arguments Ok {A} _.

Arguments Panic {A} _.

Definition M (LB A : Type) : Type := World LB -> Result A * World LB.

Definition ret {LB A : Type} (a : A) : M LB A := fun w => (Ok a, w).

Definition bind {LB A B : Type} (m : M LB A) (k : A -> M LB B) : M LB B :=
  fun w => match m w with
           | (Ok a, w') => k a w'
           | (Panic msg, w') => (Panic msg, w')
           end.

Notation "x <- m ;; k" := (bind m (fun x => k))
  (at level 100, m at next level, right associativity).

Notation "m ;;; k" := (bind m (fun _ => k))
  (at level 100, right associativity).

Definition panic {LB A : Type} (msg : string) : M LB A := fun w => (Panic msg, w).

(** [defer cleanup] before [body]: the cleanup runs when the body returns and
    when it panics; the outcome is the body's. *)
Definition defer {LB A : Type} (body : M LB A) (cleanup : M LB unit) : M LB A :=
  fun w => let '(r, w1) := body w in
           let '(_, w2) := cleanup w1 in (r, w2).

Definition emit {LB : Type} (e : Event) : M LB unit :=
  fun w => (Ok tt, mkWorld (srv w) (heap w) (trace w ++ [e])).

Definition get_srv {LB : Type} : M LB Server := fun w => (Ok (srv w), w).

Definition modify_srv {LB : Type} (f : Server -> Server) : M LB unit :=
  fun w => (Ok tt, mkWorld (f (srv w)) (heap w) (trace w)).

Definition heap_update {LB : Type} (p : LBptr) (f : LB -> LB) (h : LBptr -> LB) : LBptr -> LB :=
  fun q => if Nat.eqb q p then f (h q) else h q.

(** A backend method that only reads. *)
Definition lb_query {LB A : Type} (p : LBptr) (c : Call) (q : LB -> A) : M LB A :=
  fun w => (Ok (q (heap w p)), mkWorld (srv w) (heap w) (trace w ++ [EvCall p c])).

(** A backend method that changes the backend. *)
Definition lb_command {LB : Type} (p : LBptr) (c : Call) (f : LB -> LB) : M LB unit :=
  fun w => (Ok tt, mkWorld (srv w) (heap_update p f (heap w)) (trace w ++ [EvCall p c])).

Definition logf {LB : Type} (msg : string) : M LB unit := emit (EvLogf msg).

Definition mu_Lock {LB : Type} : M LB unit := emit EvLock.

Definition mu_Unlock {LB : Type} : M LB unit := emit EvUnlock.

(** [for _, active = range m { break }]: Go starts a map iteration at an
    entry of its choice; [pick] is that choice. [None] on the empty map. *)
Definition range_first (pick : nat) (m : gmap nat ConnIdentity) : option ConnIdentity :=
  snd <$> (map_to_list m !! (pick mod size m)%nat).

(** ** Methods of [Server] *)

Section Methods.

Context `{Host} {LB : Type} `{LocalBackend LB}.

Definition mustBackend : M LB LBptr :=
  s <- get_srv ;;
  match lb s with
  | None => panic "unexpected: call to mustBackend in path where SetLocalBackend should've been called"
  | Some p => ret p
  end.

(** [fmt.Errorf("Tailscale already in use by %s, pid %d", username, pid)] *)
Definition inUseMessage (username : string) (pid : Z) : string :=
  "Tailscale already in use by " +:+ username +:+ ", pid " +:+ pretty pid.

(** [s.mu] must be held. [early] is the error of the first [return], if it
    is taken; [active.User().Username] dereferences the user record of the
    entry the iteration produced. *)
Definition checkConnIdentityLocked (pick : nat) (ci : ConnIdentity) : M LB (option error) :=
  s <- get_srv ;;
  early <-
    (if (0 <? size (activeReqs s))%nat then
       match range_first pick (activeReqs s) with
       | Some active =>
           if negb (String.eqb (WindowsUserID ci) (WindowsUserID active)) then
             match User active with
             | None => panic "runtime error: invalid memory address or nil pointer dereference"
             | Some u => ret (Some (inUseOtherUserError
                                      (errorString (inUseMessage (Username u) (Pid active)))))
             end
           else ret None
       | None => ret None
       end
     else ret None) ;;
  match early with
  | Some e => ret (Some e)
  | None =>
      p <- mustBackend ;;
      err <- lb_query p (CheckIPNConnectionAllowed ci)
                      (fun b => lb_CheckIPNConnectionAllowed b ci) ;;
      match err with
      | Some e => ret (Some (inUseOtherUserError e))
      | None => ret None
      end
  end.

(** [s.mu] must not be held. *)
Definition localAPIPermissions (pick : nat) (ci : ConnIdentity) : M LB (bool * bool) :=
  if String.eqb GOOS "windows" then
    defer (mu_Lock ;;;
           err <- checkConnIdentityLocked pick ci ;;
           match err with
           | None => ret (true, true)
           | Some _ => ret (false, false)
           end)
          mu_Unlock
  else if String.eqb GOOS "js" then ret (true, true)
  else if IsUnixSock ci then
    p <- mustBackend ;;
    operatorUID <- lb_query p OperatorUserID lb_OperatorUserID ;;
    ret (true, negb (IsReadonlyConn ci operatorUID))
  else ret (false, false).

(** The closure [onDone] returned by [addActiveHTTPRequest]; it captures the
    backend pointer [p] and the request. *)
Definition onDone (p : LBptr) (req : Req) : M LB unit :=
  mu_Lock ;;;
  modify_srv (fun s => set_activeReqs (delete req (activeReqs s)) s) ;;;
  s <- get_srv ;;
  let remain := size (activeReqs s) in
  mu_Unlock ;;;
  if (remain =? 0)%nat && resetOnZero s then
    inServerMode <- lb_query p InServerMode lb_InServerMode ;;
    if inServerMode then
      logf "client disconnected; staying alive in server mode"
    else
      logf "client disconnected; stopping server" ;;;
      lb_command p ResetForClientDisconnect lb_ResetForClientDisconnect
  else ret tt.

(** The part of [addActiveHTTPRequest] that runs between [s.mu.Lock()] and
    the [return]: the value of [doReset] and the results. *)
Definition addActiveHTTPRequest_locked (p : LBptr) (pick : nat) (req : Req)
    (ci : ConnIdentity) : M LB (bool * (option (M LB unit) * option error)) :=
  err <- checkConnIdentityLocked pick ci ;;
  match err with
  | Some e => ret (false, (None, Some e))
  | None =>
      modify_srv (fun s => set_activeReqs (<[req := ci]> (activeReqs s)) s) ;;;
      s <- get_srv ;;
      let uid := WindowsUserID ci in
      doReset <-
        (if negb (String.eqb uid "") && (size (activeReqs s) =? 1)%nat then
           lb_command p (SetCurrentUserID uid) (lb_SetCurrentUserID uid) ;;;
           if negb (String.eqb (lastUserID s) uid) then
             modify_srv (set_lastUserID uid) ;;;
             ret (negb (String.eqb (lastUserID s) ""))
           else ret false
         else ret false) ;;
      ret (doReset, (Some (onDone p req), None))
  end.

(** The critical section of [addActiveHTTPRequest]: [s.mu.Lock()], the
    statements up to the [return], and the deferred [s.mu.Unlock()]. *)
Definition addActiveHTTPRequest_critical (p : LBptr) (pick : nat) (req : Req)
    (ci : ConnIdentity) : M LB (bool * (option (M LB unit) * option error)) :=
  defer (mu_Lock ;;; addActiveHTTPRequest_locked p pick req ci) mu_Unlock.

(** The closure [addActiveHTTPRequest] defers first, which therefore runs
    last, after the unlock: it resets the backend when [doReset] is set. *)
Definition addActiveHTTPRequest_deferred (p : LBptr) (doReset : bool) : M LB unit :=
  if doReset then
    logf "identity changed; resetting server" ;;;
    lb_command p ResetForClientDisconnect lb_ResetForClientDisconnect
  else ret tt.

(** [addActiveHTTPRequest]. Its two deferred calls run in reverse order of
    their [defer] statements: first [s.mu.Unlock()], then the closure that
    resets the backend when [doReset] is set. No statement after
    [doReset = true] can panic, so the closure finds [doReset] false whenever
    the body panics. *)
Definition addActiveHTTPRequest (pick : nat) (req : Req) (ci : option ConnIdentity)
    : M LB (option (M LB unit) * option error) :=
  match ci with
  | None => ret (None, Some (errorString "internal error: nil connIdentity"))
  | Some ci =>
      p <- mustBackend ;;
      r <- addActiveHTTPRequest_critical p pick req ci ;;
      addActiveHTTPRequest_deferred p (fst r) ;;;
      ret (snd r)
  end.

(** [New]: a server with no backend, not yet running. *)
Definition New : Server :=
  mkServer None (String.eqb GOOS "windows") false false "" ∅.

(** [b.startBackendOnce.Do(f)] *)
Definition startBackendOnce_Do (f : M LB unit) : M LB unit :=
  s <- get_srv ;;
  if startBackendOnce s then ret tt
  else f ;;; modify_srv (set_startBackendOnce true).

Definition startBackendIfNeeded : M LB unit :=
  s <- get_srv ;;
  if negb (runCalled s) then ret tt
  else match lb s with
       | None => ret tt
       | Some p =>
           valid <- lb_query p Prefs lb_PrefsValid ;;
           if valid then startBackendOnce_Do (lb_command p Start lb_Start)
           else ret tt
       end.

(** [s.lb.CompareAndSwap(nil, lb)] *)
Definition lb_CompareAndSwap_nil (new : option LBptr) : M LB bool :=
  s <- get_srv ;;
  match lb s with
  | None => modify_srv (set_lb new) ;;; ret true
  | Some _ => ret false
  end.

Definition SetLocalBackend (p : option LBptr) : M LB unit :=
  match p with
  | None => panic "nil LocalBackend"
  | Some _ =>
      swapped <- lb_CompareAndSwap_nil p ;;
      if negb swapped then panic "already set"
      else startBackendIfNeeded
  end.

(** [Run] up to the call of [hs.Serve]. *)
Definition Run_prologue : M LB unit :=
  modify_srv (set_runCalled true) ;;;
  startBackendIfNeeded ;;;
  emit EvSystemdReady.

(** The function [Run] defers: shut the backend down if there is one. *)
Definition Run_deferred : M LB unit :=
  s <- get_srv ;;
  match lb s with
  | Some p => lb_command p Shutdown lb_Shutdown
  | None => ret tt
  end.

(** [Run]: [serve] is what happens during [hs.Serve(ln)] together with the
    error it returns, [ctxErr] is [ctx.Err()] afterwards. *)
Definition Run (serve : M LB (option error)) (ctxErr : option error) : M LB (option error) :=
  defer (Run_prologue ;;;
         err <- serve ;;
         match err with
         | Some _ => match ctxErr with
                     | Some e => ret (Some e)
                     | None => ret None
                     end
         | None => ret None
         end)
        Run_deferred.

End Methods.

(** ** Sample hosts and a sample backend, for concrete runs *)

Module Sample.

(** A backend whose answers are its fields and which counts the commands it
    receives. *)
Record Backend : Type := mkBackend {
  deny : option error;
  operator : string;
  serverMode : bool;
  prefsValid : bool;
  currentUser : string;
  resets : nat;
  starts : nat
}.

#[global] Instance backend : LocalBackend Backend := {|
  lb_CheckIPNConnectionAllowed := fun b _ => deny b;
  lb_OperatorUserID := operator;
  lb_InServerMode := serverMode;
  lb_PrefsValid := prefsValid;
  lb_SetCurrentUserID := fun uid b =>
    mkBackend (deny b) (operator b) (serverMode b) (prefsValid b) uid (resets b) (starts b);
  lb_ResetForClientDisconnect := fun b =>
    mkBackend (deny b) (operator b) (serverMode b) (prefsValid b) (currentUser b)
              (S (resets b)) (starts b);
  lb_Start := fun b =>
    mkBackend (deny b) (operator b) (serverMode b) (prefsValid b) (currentUser b)
              (resets b) (S (starts b));
  lb_Shutdown := fun b => b
|}.

Definition idle (op : string) : Backend := mkBackend None op false true "" 0 0.

(** The backend starts refusing connections. *)
Definition refuse (b : Backend) : Backend :=
  mkBackend (Some (errorString "access denied")) (operator b) (serverMode b) (prefsValid b)
            (currentUser b) (resets b) (starts b).

Definition alice : user_User := {| Uid := "S-1-5-21-1001"; Gid := ""; Username := "alice"; Name := "Alice"; HomeDir := "" |}.

Definition bob : user_User := {| Uid := "S-1-5-21-1002"; Gid := ""; Username := "bob"; Name := "Bob"; HomeDir := "" |}.

(** A Windows machine: pipe handle [h] belongs to process [h], processes
    below 200 belong to alice and the others to bob. *)
Definition windows : Host := {|
  build_windows := true;
  GOOS := "windows";
  envknob_String := fun _ => "";
  user_Lookup := fun _ => None;
  peercred_Get := fun _ => inr (errorString "not implemented");
  procGetNamedPipeClientProcessId := fun h => (1%N, h, errorString "");
  OwnerOfPID := fun pid => (if (pid <? 200)%Z then Uid alice else Uid bob, None);
  lookupUserFromID := fun uid => if String.eqb uid (Uid alice) then inl alice else inl bob;
  IsReadonlyConn := fun _ _ => false
|}.

(** A Linux machine: connection [n] is a unix socket whose peer has uid
    [1000 + n]; [certUID] is the value of TS_PERMIT_CERT_UID; the only
    account the user database knows by name is caddy, uid 998. *)
Definition linux (certUID : string) : Host := {|
  build_windows := false;
  GOOS := "linux";
  envknob_String := fun name => if String.eqb name "TS_PERMIT_CERT_UID" then certUID else "";
  user_Lookup := fun name =>
    if String.eqb name "caddy"
    then Some {| Uid := "998"; Gid := "998"; Username := "caddy"; Name := ""; HomeDir := "" |}
    else None;
  peercred_Get := fun c =>
    if conn_is_unix c
    then inl {| creds_pid := 1; creds_uid := pretty (1000 + Z.of_nat (conn_id c))%Z |}
    else inr (errorString "not a unix socket");
  procGetNamedPipeClientProcessId := fun _ => (0%N, 0%Z, errorString "not windows");
  OwnerOfPID := fun _ => ("", Some (errorString "not windows"));
  lookupUserFromID := fun _ => inr (errorString "not windows");
  IsReadonlyConn := IsReadonlyConn_spec
|}.

Definition pipe (h : Z) : net_Conn :=
  {| conn_id := 0; conn_type := "*namedpipe.file"; conn_is_unix := false; conn_handle := Some h |}.

Definition unixConn (n : nat) : net_Conn :=
  {| conn_id := n; conn_type := "*net.UnixConn"; conn_is_unix := true; conn_handle := None |}.

Definition world0 (h : Host) (b : Backend) : World Backend :=
  mkWorld (@New h) (fun _ => b) [].

End Sample.

Import Sample.

(** ** Traces and runs *)

(** The number of calls of backend method [c] in a trace. *)
Definition is_call (c : Call) (e : Event) : bool :=
  match e with
  | EvCall _ c' => bool_decide (c' = c)
  | _ => false
  end.

Definition count_calls (c : Call) (tr : list Event) : nat :=
  length (List.filter (is_call c) tr).

(** Whether [s.mu] is held after the events of [tr], given whether it was
    held before. *)
Fixpoint mu_held (held : bool) (tr : list Event) : bool :=
  match tr with
  | [] => held
  | EvLock :: rest => mu_held true rest
  | EvUnlock :: rest => mu_held false rest
  | _ :: rest => mu_held held rest
  end.

(** What can happen to a server, one call at a time: the exported methods,
    the two ends of [Run], the registration of a request and its completion,
    a permission computation, and a change the backend makes on its own. *)
Inductive Op (LB : Type) : Type :=
| OpSetLocalBackend (p : option LBptr)
| OpRunPrologue
| OpRunDeferred
| OpAdd (pick : nat) (req : Req) (ci : option ConnIdentity)
| OpDone (p : LBptr) (req : Req)
| OpPermissions (pick : nat) (ci : ConnIdentity)
| OpBackend (p : LBptr) (f : LB -> LB).

Arguments OpSetLocalBackend {LB} _.

Arguments OpRunPrologue {LB}.

Arguments OpRunDeferred {LB}.

Arguments OpAdd {LB} _ _ _.

Arguments OpDone {LB} _ _.

Arguments OpPermissions {LB} _ _.

Arguments OpBackend {LB} _ _.

(** The five ways a registration ends. *)
Inductive Verdict : Type :=
| NoBackend
| NilUser (active : ConnIdentity)
| Conflict (active : ConnIdentity) (u : user_User)
| Denied (p : LBptr) (e : error)
| Accepted (p : LBptr).

Section Runs.

Context `{Host} {LB : Type} `{LocalBackend LB}.

(** The world after [op]; a panic leaves the world as it was when the panic
    was raised (net/http recovers a panicking handler). *)
Definition exec (op : Op LB) (w : World LB) : World LB :=
  match op with
  | OpSetLocalBackend p => snd (SetLocalBackend p w)
  | OpRunPrologue => snd (Run_prologue w)
  | OpRunDeferred => snd (Run_deferred w)
  | OpAdd pick req ci => snd (addActiveHTTPRequest pick req ci w)
  | OpDone p req => snd (onDone p req w)
  | OpPermissions pick ci => snd (localAPIPermissions pick ci w)
  | OpBackend p f => mkWorld (srv w) (heap_update p f (heap w)) (trace w)
  end.

Definition exec_all (ops : list (Op LB)) (w : World LB) : World LB :=
  fold_left (fun w op => exec op w) ops w.

(** Requests carry identities the resolver produced (or nil). *)
Definition admissible (op : Op LB) : Prop :=
  match op with
  | OpAdd _ _ (Some ci) => resolved ci
  | _ => True
  end.

Inductive reachable : World LB -> Prop :=
| reachable_New (h : LBptr -> LB) : reachable (mkWorld New h [])
| reachable_step (w : World LB) (op : Op LB) :
    reachable w -> admissible op -> reachable (exec op w).

(** The entry the identity comparison objects to, if there is one. *)
Definition conflicting (pick : nat) (ci : ConnIdentity) (s : Server) : option ConnIdentity :=
  if (0 <? size (activeReqs s))%nat then
    match range_first pick (activeReqs s) with
    | Some active =>
        if negb (String.eqb (WindowsUserID ci) (WindowsUserID active)) then Some active
        else None
    | None => None
    end
  else None.

Definition with_events (w : World LB) (tr : list Event) : World LB :=
  mkWorld (srv w) (heap w) (trace w ++ tr).

(** The conditions the registration branches on, read off the server before
    the call: the request is the first of a user with a non-empty id, that
    id is not the recorded one, and the recorded one was not empty. *)
Definition first_request (req : Req) (ci : ConnIdentity) (s : Server) : bool :=
  negb (String.eqb (WindowsUserID ci) "")
  && (size (<[req := ci]> (activeReqs s)) =? 1)%nat.

Definition user_changed (req : Req) (ci : ConnIdentity) (s : Server) : bool :=
  first_request req ci s && negb (String.eqb (lastUserID s) (WindowsUserID ci)).

Definition user_switch (req : Req) (ci : ConnIdentity) (s : Server) : bool :=
  user_changed req ci s && negb (String.eqb (lastUserID s) "").

(** The server after a successful registration. *)
Definition register (req : Req) (ci : ConnIdentity) (s : Server) : Server :=
  let s1 := set_activeReqs (<[req := ci]> (activeReqs s)) s in
  if user_changed req ci s then set_lastUserID (WindowsUserID ci) s1 else s1.

(** The world when the registration releases the lock: the request is in
    the map and the backend knows the user. *)
Definition at_unlock (p : LBptr) (req : Req) (ci : ConnIdentity) (w : World LB) : World LB :=
  mkWorld (register req ci (srv w))
          (if first_request req ci (srv w)
           then heap_update p (lb_SetCurrentUserID (WindowsUserID ci)) (heap w)
           else heap w)
          (trace w
             ++ (if first_request req ci (srv w)
                 then [EvCall p (SetCurrentUserID (WindowsUserID ci))] else [])
             ++ [EvUnlock]).

(** The deferred closure of [addActiveHTTPRequest], run on the world the
    lock was released in. *)
Definition reset_if (doReset : bool) (p : LBptr) (w : World LB) : World LB :=
  if doReset
  then mkWorld (srv w) (heap_update p lb_ResetForClientDisconnect (heap w))
               (trace w ++ [EvLogf "identity changed; resetting server";
                            EvCall p ResetForClientDisconnect])
  else w.

(** Whether [onDone] resets the backend: nothing is left in flight, the
    server resets on idle and the backend is not in server mode. *)
Definition idle_reset (p : LBptr) (req : Req) (w : World LB) : bool :=
  (size (delete req (activeReqs (srv w))) =? 0)%nat
  && resetOnZero (srv w)
  && negb (lb_InServerMode (heap w p)).

(** Whether [startBackendIfNeeded] calls [Start]. *)
Definition starts_backend (s : Server) (h : LBptr -> LB) : bool :=
  runCalled s
  && match lb s with
     | Some p => lb_PrefsValid (h p) && negb (startBackendOnce s)
     | None => false
     end.

Definition verdict (pick : nat) (ci : ConnIdentity) (w : World LB) : Verdict :=
  match lb (srv w) with
  | None => NoBackend
  | Some p =>
      match conflicting pick ci (srv w) with
      | Some active =>
          match User active with
          | None => NilUser active
          | Some u => Conflict active u
          end
      | None =>
          match lb_CheckIPNConnectionAllowed (heap w p) ci with
          | Some e => Denied p e
          | None => Accepted p
          end
      end
  end.

(** What holds of the session fields in every reachable state: the
    identities in flight came from the resolver, they all have one user id,
    a non-empty one is the recorded last user id, and requests are in flight
    only once a backend is bound. *)
Record session_inv (s : Server) : Prop := {
  inv_resolved : forall r a, activeReqs s !! r = Some a -> resolved a;
  inv_same_user : forall r1 a1 r2 a2,
    activeReqs s !! r1 = Some a1 -> activeReqs s !! r2 = Some a2 ->
    WindowsUserID a1 = WindowsUserID a2;
  inv_last_user : forall r a,
    activeReqs s !! r = Some a -> WindowsUserID a <> "" ->
    lastUserID s = WindowsUserID a;
  inv_bound : forall r a, activeReqs s !! r = Some a -> is_Some (lb s)
}.

(** The events a step appended. *)
Definition new_events (w w' : World LB) : list Event :=
  drop (length (trace w)) (trace w').

(** A change of user in the spec's words: the new user id and the recorded
    one are both present (non-empty) and differ. *)
Definition user_transition (ci : ConnIdentity) (s : Server) : bool :=
  bool_decide (WindowsUserID ci <> "" /\ lastUserID s <> ""
               /\ WindowsUserID ci <> lastUserID s).

(** Resets issued by the registrations of a run, and the transitions among
    its accepted registrations. *)
Fixpoint switch_resets (ops : list (Op LB)) (w : World LB) : nat :=
  match ops with
  | [] => 0
  | op :: rest =>
      (match op with
       | OpAdd _ _ _ => count_calls ResetForClientDisconnect (new_events w (exec op w))
       | _ => 0
       end + switch_resets rest (exec op w))%nat
  end.

Definition accepted_transition (op : Op LB) (w : World LB) : bool :=
  match op with
  | OpAdd pick req (Some ci) =>
      match fst (addActiveHTTPRequest pick req (Some ci) w) with
      | Ok (_, None) => user_transition ci (srv w)
      | _ => false
      end
  | _ => false
  end.

Fixpoint user_transitions (ops : list (Op LB)) (w : World LB) : nat :=
  match ops with
  | [] => 0
  | op :: rest =>
      ((if accepted_transition op w then 1 else 0) + user_transitions rest (exec op w))%nat
  end.

(** Whether a step calls [Start]. *)
Definition op_starts (op : Op LB) (w : World LB) : bool :=
  match op with
  | OpSetLocalBackend (Some q) =>
      match lb (srv w) with
      | None => starts_backend (set_lb (Some q) (srv w)) (heap w)
      | Some _ => false
      end
  | OpRunPrologue => starts_backend (set_runCalled true (srv w)) (heap w)
  | _ => false
  end.

(** [Start] has been called once if the once-flag is set and never
    otherwise. *)
Definition start_inv (w : World LB) : Prop :=
  count_calls Start (trace w) = if startBackendOnce (srv w) then 1%nat else 0%nat.

End Runs.

(** ** The spec's words for the permission calculator *)

(** Every byte of [s] is an ASCII digit: the spec's "all digits". *)
Definition all_digits (s : string) : Prop :=
  Forall (fun b => (48 <= N_of_ascii b <= 57)%N) (String.list_ascii_of_string s).

(** ** Concrete states on the sample hosts *)

(** Scenario A: a unix-socket peer with uid 1000 on a Linux host where the
    operator id is 1000 and TS_PERMIT_CERT_UID is unset. *)
Definition scenarioA_world : World Backend :=
  snd (SetLocalBackend (Some 7%nat) (world0 (linux "") (idle "1000"))).

Definition scenarioA_ci : ConnIdentity := fst (@getConnIdentity (linux "") (unixConn 0)).

(** A Windows server with a backend bound and nothing in flight, and the
    same server while a request of alice is in flight. *)
Definition windows_idle : World Backend :=
  snd (SetLocalBackend (Some 7%nat) (world0 windows (idle ""))).

Definition alice_ci : ConnIdentity := fst (@getConnIdentity windows (pipe 100)).

Definition bob_ci : ConnIdentity := fst (@getConnIdentity windows (pipe 300)).

Definition windows_alice_active : World Backend :=
  mkWorld (set_activeReqs {[ 1%nat := alice_ci ]} (srv windows_idle))
          (heap windows_idle) (trace windows_idle).

(** Backend 7 is bound, the run loop has begun, and request 1 of alice is in
    flight. *)
Definition alice_session : World Backend :=
  @exec_all windows _ _
    [OpSetLocalBackend (Some 7%nat); OpRunPrologue; OpAdd 0 1%nat (Some alice_ci)]
    (world0 windows (idle "")).

(** The same server after that request has completed. *)
Definition after_alice : World Backend :=
  @exec_all windows _ _ [OpDone 7%nat 1%nat] alice_session.

(** Request 2 of bob is in flight instead, and then the backend changes its
    policy while the request is still in flight. *)
Definition bob_session : World Backend :=
  @exec_all windows _ _
    [OpSetLocalBackend (Some 7%nat); OpRunPrologue; OpAdd 0 2%nat (Some bob_ci)]
    (world0 windows (idle "")).

Definition bob_session_refused : World Backend :=
  @exec_all windows _ _ [OpBackend 7%nat refuse] bob_session.

(** A second connection of alice, from process 150, and the Windows server
    while requests 1 and 3 of alice are in flight, one from each process. *)
Definition alice2_ci : ConnIdentity := fst (@getConnIdentity windows (pipe 150)).

Definition alice_two_requests : World Backend :=
  @exec_all windows _ _ [OpAdd 0 3%nat (Some alice2_ci)] alice_session.

(** The Windows server once backend 7 is bound and the run loop has begun,
    with nothing in flight yet. *)
Definition windows_running : World Backend :=
  @exec_all windows _ _ [OpSetLocalBackend (Some 7%nat); OpRunPrologue]
    (world0 windows (idle "")).

(** A Linux server: backend 7 is bound, the run loop has begun, and request
    1 of the peer of unix connection 0 is in flight. *)
Definition linux_session : World Backend :=
  @exec_all (linux "") _ _
    [OpSetLocalBackend (Some 7%nat); OpRunPrologue; OpAdd 0 1%nat (Some scenarioA_ci)]
    (world0 (linux "") (idle "1000")).

(** ** HTTP requests *)

(** What [r.Context().Value(connIdentityContextKey{})] holds: an identity
    pointer (which may be nil), an error, nothing, or a value of another
    type. *)
Inductive CtxValue : Type :=
| CtxConnIdentity (ci : option ConnIdentity)
| CtxError (err : error)
| CtxNil
| CtxOther.

(** [*http.Request] as far as [serveHTTP] reads it. *)
Record http_Request : Type := {
  req_ptr : Req;
  Method : string;
  URL_Path : string;
  req_Host : string;
  ctx_connIdentity : CtxValue
}.

(** What a handler did with its [http.ResponseWriter]: [http.Error] with a
    message and a status code (which [http.NotFound] is too), a body written
    with [io.WriteString], or the hand-over to a collaborator: the CONNECT proxy,
    the LocalAPI handler with the permissions it was given, or the HTML
    status page with the headers set before it. *)
Inductive Response : Type :=
| http_Error (msg : string) (code : nat)
| ProxyConnect
| LocalAPI (PermitRead PermitWrite PermitCert : bool)
| HTMLStatus (headers : list (string * string))
| WriteString (body : string).

Definition StatusUnauthorized : nat := 401.
Definition StatusForbidden : nat := 403.
Definition StatusNotFound : nat := 404.
Definition StatusMethodNotAllowed : nat := 405.
Definition StatusInternalServerError : nat := 500.
Definition StatusServiceUnavailable : nat := 503.

(** [http.NotFound(w, r)], which in net/http is
    [Error(w, "404 page not found", StatusNotFound)]. *)
Definition http_NotFound : Response := http_Error "404 page not found" StatusNotFound.

(** The collaborators of [serveHTTP] that are not under src/, taken as
    parameters: [handleProxyConnectConn] is any computation; the LocalAPI
    handler and the status page work on the backend they were built with
    and may panic; [host_has_letter h] is
    [strings.IndexFunc(h, unicode.IsLetter) != -1]. *)
Class Handlers (LB : Type) : Type := {
  handleProxyConnectConn : http_Request -> M LB unit;
  localapi_ServeHTTP : bool -> bool -> bool -> http_Request -> LB -> Result unit * LB;
  Status_WriteHTML : http_Request -> LB -> Result unit * LB;
  host_has_letter : string -> bool
}.

(** Run a collaborator on backend [p]. *)
Definition on_backend {LB : Type} (p : LBptr) (h : LB -> Result unit * LB) : M LB unit :=
  fun w => let '(r, b) := h (heap w p) in
           (r, mkWorld (srv w) (heap_update p (fun _ => b) (heap w)) (trace w)).

Section HTTP.

Context `{Host} {LB : Type} `{LocalBackend LB} `{Handlers LB}.

(** [ConnContext] of the [http.Server] that [Run] builds: the identity of
    the connection, or the error of resolving it. *)
Definition ConnContext (c : net_Conn) : CtxValue :=
  match getConnIdentity c with
  | (_, Some err) => CtxError err
  | (ci, None) => CtxConnIdentity (Some ci)
  end.

Definition ServeHTMLStatus (r : http_Request) : M LB Response :=
  s <- get_srv ;;
  match lb s with
  | None => ret (http_Error "no LocalBackend" StatusServiceUnavailable)
  | Some p =>
      if negb (String.prefix "localhost:" (req_Host r)) && host_has_letter (req_Host r)
      then ret (http_Error "invalid host" StatusForbidden)
      else
        on_backend p (Status_WriteHTML r) ;;;
        ret (HTMLStatus
               [("Content-Security-Policy",
                 "default-src 'none'; frame-ancestors 'none'; script-src 'none'; script-src-elem 'none'; script-src-attr 'none'");
                ("X-Frame-Options", "DENY");
                ("X-Content-Type-Options", "nosniff");
                ("Content-Type", "text/html; charset=utf-8")])
  end.

(** The part of [serveHTTP] that runs once the request is registered, up to
    its [return]; [onDone] is deferred around it. *)
Definition serveHTTP_registered (p : LBptr) (pick : nat) (r : http_Request)
    (ci : ConnIdentity) : M LB Response :=
  if String.prefix "/localapi/" (URL_Path r) then
    perms <- localAPIPermissions pick ci ;;
    let cert := connCanFetchCerts ci in
    on_backend p (localapi_ServeHTTP (fst perms) (snd perms) cert r) ;;;
    ret (LocalAPI (fst perms) (snd perms) cert)
  else if negb (String.eqb (URL_Path r) "/") then ret http_NotFound
  else if String.eqb GOOS "windows" then ServeHTMLStatus r
  else ret (WriteString "<html><title>Tailscale</title><body><h1>Tailscale</h1>This is the local Tailscale daemon.
").

(** [serveHTTP]. [pick] and [pick'] are the choices of the two map
    iterations the request can cause. [ci] stays nil when the context value
    is of another type. The last branch stands for the calls through a nil
    [onDone] or a nil [ci]; [addActiveHTTPRequest] returns an error for a
    nil identity and an [onDone] otherwise, so it is never taken. *)
Definition serveHTTP (pick pick' : nat) (r : http_Request) : M LB Response :=
  if String.eqb (Method r) "CONNECT" then
    if String.eqb GOOS "windows" then
      handleProxyConnectConn r ;;; ret ProxyConnect
    else ret (http_Error "bad method for platform" StatusMethodNotAllowed)
  else
    s <- get_srv ;;
    match lb s with
    | None => ret (http_Error "no backend" StatusServiceUnavailable)
    | Some p =>
        match ctx_connIdentity r with
        | CtxError v => ret (http_Error (Error v) StatusUnauthorized)
        | CtxNil => ret (http_Error "internal error: no connIdentityContextKey"
                                    StatusInternalServerError)
        | ctx =>
            let ci := match ctx with CtxConnIdentity v => v | _ => None end in
            res <- addActiveHTTPRequest pick (req_ptr r) ci ;;
            match snd res with
            | Some err => ret (http_Error (Error err) StatusUnauthorized)
            | None =>
                match fst res, ci with
                | Some onDone, Some ci => defer (serveHTTP_registered p pick' r ci) onDone
                | _, _ => panic "runtime error: invalid memory address or nil pointer dereference"
                end
            end
        end
    end.

End HTTP.

(** The world in which an accepted request is served: the request is in
    the map, the backend has been told the user and, on a change of user,
    reset. *)
Definition registered {LB : Type} `{LocalBackend LB} (p : LBptr) (req : Req)
    (ci : ConnIdentity) (w : World LB) : World LB :=
  reset_if (user_switch req ci (srv w)) p
    (at_unlock p req ci (with_events w [EvLock; EvCall p (CheckIPNConnectionAllowed ci)])).

(** Sample collaborators: handlers that answer without touching the backend.
    The sample [host_has_letter] knows the ASCII letters only; it agrees
    with [unicode.IsLetter] on ASCII host names, and the sample requests use
    no others. *)
Definition is_ascii_letter (a : ascii) : bool :=
  let n := nat_of_ascii a in
  ((65 <=? n)%nat && (n <=? 90)%nat) || ((97 <=? n)%nat && (n <=? 122)%nat).

#[global] Instance sample_handlers : Handlers Backend := {|
  handleProxyConnectConn := fun _ => ret tt;
  localapi_ServeHTTP := fun _ _ _ _ b => (Ok tt, b);
  Status_WriteHTML := fun _ b => (Ok tt, b);
  host_has_letter := fun h => existsb is_ascii_letter (String.list_ascii_of_string h)
|}.

(** Sample requests: a LocalAPI call, a request for a page that does not
    exist and a request for the status page, on connection [c] of the
    Windows host, and a LocalAPI call on unix connection [n] of the Linux
    host. *)
Definition localapi_request (req : Req) (c : net_Conn) : http_Request :=
  {| req_ptr := req; Method := "GET"; URL_Path := "/localapi/v0/status";
     req_Host := "local-tailscaled.sock"; ctx_connIdentity := @ConnContext windows c |}.

Definition favicon_request (req : Req) (c : net_Conn) : http_Request :=
  {| req_ptr := req; Method := "GET"; URL_Path := "/favicon.ico";
     req_Host := "localhost:41112"; ctx_connIdentity := @ConnContext windows c |}.

Definition status_page_request (req : Req) (c : net_Conn) (host : string) : http_Request :=
  {| req_ptr := req; Method := "GET"; URL_Path := "/";
     req_Host := host; ctx_connIdentity := @ConnContext windows c |}.

Definition linux_request (req : Req) (n : nat) : http_Request :=
  {| req_ptr := req; Method := "GET"; URL_Path := "/localapi/v0/status";
     req_Host := "local-tailscaled.sock";
     ctx_connIdentity := @ConnContext (linux "") (unixConn n) |}.

(** The Linux server after its backend has begun to refuse connections. *)
Definition linux_session_refused : World Backend :=
  @exec_all (linux "") _ _ [OpBackend 7%nat refuse] linux_session.

(** An event that neither changes the server nor commands the backend. *)
Definition read_only_event (ev : Event) : Prop :=
  ev = EvLock \/ ev = EvUnlock
  \/ (exists p c, ev = EvCall p (CheckIPNConnectionAllowed c))
  \/ (exists p, ev = EvCall p OperatorUserID).

(** The backend methods called while [s.mu] is held, given whether it was
    held before the events of [tr]. *)
Fixpoint calls_under_lock (held : bool) (tr : list Event) : list Call :=
  match tr with
  | [] => []
  | EvLock :: rest => calls_under_lock true rest
  | EvUnlock :: rest => calls_under_lock false rest
  | EvCall _ c :: rest =>
      if held then c :: calls_under_lock held rest else calls_under_lock held rest
  | _ :: rest => calls_under_lock held rest
  end.

(** The two backend methods the server calls with [s.mu] held. *)
Definition allowed_under_lock (c : Call) : Prop :=
  (exists ci, c = CheckIPNConnectionAllowed ci) \/ (exists uid, c = SetCurrentUserID uid).

(** [inUseOtherUserError.Unwrap], and the unwrapping of a [%w] error. *)
Definition Unwrap (e : error) : option error :=
  match e with
  | inUseOtherUserError inner => Some inner
  | wrapError _ inner => Some inner
  | errorString _ => None
  end.

(** The events of every step end with [s.mu] released, and the only backend
    methods called while it is held are the two of the registration. *)
Definition lock_disciplined (tr : list Event) : Prop :=
  mu_held false tr = false
  /\ Forall allowed_under_lock (calls_under_lock false tr).

(** ** Proof automation *)

Ltac no_events := exists []; cbn; rewrite ?app_nil_r, ?orb_false_r; done.

Ltac frame_done := simpl; repeat split; intros; first [congruence | discriminate | done].

(** Unfold the primitives of [M] and compute. *)
Ltac msimpl :=
  cbv beta iota zeta delta [bind ret panic defer emit get_srv modify_srv lb_query
    lb_command logf mu_Lock mu_Unlock mustBackend] in *; simpl in *.

(** Discharge [lock_disciplined] on an explicit list of events. *)
Ltac disciplined :=
  split; [reflexivity|];
  cbn [calls_under_lock];
  repeat (apply List.Forall_cons;
          [first [left; eexists; reflexivity | right; eexists; reflexivity]|]);
  apply List.Forall_nil.

(** ** The resolvers *)

Section ResolverFacts.

Context `{Host}.

Lemma getConnIdentity_windows_user (c : net_Conn) (ci : ConnIdentity) :
  getConnIdentity_windows c = (ci, None) -> is_Some (User ci).
Proof.
  unfold getConnIdentity_windows.
  destruct (conn_handle c) as [h|]; [|discriminate].
  destruct (getNamedPipeClientProcessId h) as [pid [e|]]; [discriminate|].
  destruct (OwnerOfPID _) as [uid [e|]]; [discriminate|].
  destruct (lookupUserFromID uid) as [u|e]; [|discriminate].
  intros [= <-]. simpl. eauto.
Qed.

Lemma getConnIdentity_notwindows_UserID (c : net_Conn) (ci : ConnIdentity) :
  getConnIdentity_notwindows c = (ci, None) -> WindowsUserID ci = "".
Proof. unfold getConnIdentity_notwindows. intros [= <-]. reflexivity. Qed.

(** Identities of one build either all carry a user record or all have the
    empty user id. *)
Lemma resolved_uniform :
  (forall ci, resolved ci -> is_Some (User ci)) \/
  (forall ci, resolved ci -> WindowsUserID ci = "").
Proof.
  unfold resolved, getConnIdentity.
  destruct build_windows.
  - left. intros ci [c Hc]. eauto using getConnIdentity_windows_user.
  - right. intros ci [c Hc]. eauto using getConnIdentity_notwindows_UserID.
Qed.

(** C9. On a build that is not Windows, [getConnIdentity] returns a nil
    error for every connection. The identity it returns is marked
    [NotWindows], has [IsUnixSock] set exactly when the connection is a
    [*net.UnixConn], and carries the peer credentials when [peercred.Get]
    produced them; when [peercred.Get] fails, the error is dropped and the
    credentials are absent. *)
Theorem getConnIdentity_notwindows_never_fails (c : net_Conn) :
  build_windows = false ->
  exists ci,
    getConnIdentity c = (ci, None)
    /\ NotWindows ci = true
    /\ (IsUnixSock ci = true <-> conn_is_unix c = true)
    /\ (forall creds, peercred_Get c = inl creds -> Creds ci = Some creds)
    /\ (forall err, peercred_Get c = inr err -> Creds ci = None).
Proof.
  intros Hb. unfold getConnIdentity. rewrite Hb.
  eexists. split; [reflexivity|]. simpl.
  repeat split; try tauto.
  - intros creds ->. reflexivity.
  - intros err ->. reflexivity.
Qed.

End ResolverFacts.

Lemma getConnIdentity_notwindows_never_fails_witness :
  @build_windows (linux "") = false
  /\ exists ci,
       @getConnIdentity (linux "") (pipe 5) = (ci, None)
       /\ NotWindows ci = true
       /\ (IsUnixSock ci = true <-> conn_is_unix (pipe 5) = true)
       /\ (forall creds, @peercred_Get (linux "") (pipe 5) = inl creds -> Creds ci = Some creds)
       /\ (forall err, @peercred_Get (linux "") (pipe 5) = inr err -> Creds ci = None).
Proof.
  split; [reflexivity|].
  apply (@getConnIdentity_notwindows_never_fails (linux "") (pipe 5)).
  reflexivity.
Defined.

(** ** The permission calculator *)

Lemma isAllDigit_all_digits (s : string) : isAllDigit s = true <-> all_digits s.
Proof.
  unfold all_digits. induction s as [|b s IH]; simpl.
  - split; [constructor|reflexivity].
  - destruct (N.ltb_spec (N_of_ascii b) 48), (N.ltb_spec 57 (N_of_ascii b)); simpl;
      rewrite ?Forall_cons; first [ rewrite IH; intuition lia | split; [discriminate | lia] ].
Qed.

Section PermissionFacts.

Context `{Host}.

Lemma userIDFromString_literal (v : string) :
  v = "" \/ all_digits v -> userIDFromString v = v.
Proof.
  intros Hv. unfold userIDFromString.
  destruct Hv as [->|Hd]; [reflexivity|].
  apply isAllDigit_all_digits in Hd. rewrite Hd, orb_true_r. reflexivity.
Qed.

Lemma userIDFromString_name (v : string) :
  v <> "" -> ~ all_digits v ->
  userIDFromString v = match user_Lookup v with Some u => Uid u | None => "" end.
Proof.
  intros Hne Hnd. unfold userIDFromString.
  destruct (String.eqb_spec v ""); [contradiction|].
  destruct (isAllDigit v) eqn:Hd; [|reflexivity].
  apply isAllDigit_all_digits in Hd. contradiction.
Qed.

Lemma connCanFetchCerts_true_iff (ci : ConnIdentity) :
  connCanFetchCerts ci = true <->
  IsUnixSock ci = true /\
  exists creds, Creds ci = Some creds /\
    Creds_UserID creds = (userIDFromString (envknob_String "TS_PERMIT_CERT_UID"), true).
Proof.
  unfold connCanFetchCerts, Creds_UserID.
  destruct (IsUnixSock ci); [|split; [discriminate|intros [? _]; discriminate]].
  destruct (Creds ci) as [creds|]; [|split; [discriminate|intros [_ (?&?&_)]; discriminate]].
  destruct (negb (String.eqb (creds_uid creds) "")) eqn:Hok; simpl.
  - destruct (String.eqb_spec (creds_uid creds)
                (userIDFromString (envknob_String "TS_PERMIT_CERT_UID"))) as [Heq|Hne].
    + split; [|reflexivity]. intros _. split; [reflexivity|].
      exists creds. rewrite Hok, <- Heq. done.
    + split; [discriminate|]. intros [_ (c & [= <-] & [= Hu _])]. contradiction.
  - split; [discriminate|]. intros [_ (c & [= <-] & [= _ Hk])]. congruence.
Qed.

(** C8. [connCanFetchCerts] is true exactly when the connection is a unix
    socket whose peer credentials are present and report a user id equal to
    the value of TS_PERMIT_CERT_UID mapped through [userIDFromString].
    [userIDFromString] returns an empty or all-digit value unchanged, returns
    the uid of the account a name resolves to, and returns the empty string
    when the lookup fails; an empty comparator matches no credential. *)
Theorem connCanFetchCerts_rule (ci : ConnIdentity) :
  (connCanFetchCerts ci = true <->
     IsUnixSock ci = true /\
     exists creds, Creds ci = Some creds /\
       Creds_UserID creds = (userIDFromString (envknob_String "TS_PERMIT_CERT_UID"), true))
  /\ (forall v, v = "" \/ all_digits v -> userIDFromString v = v)
  /\ (forall v u, v <> "" -> ~ all_digits v -> user_Lookup v = Some u ->
        userIDFromString v = Uid u)
  /\ (forall v, v <> "" -> ~ all_digits v -> user_Lookup v = None ->
        userIDFromString v = "")
  /\ (userIDFromString (envknob_String "TS_PERMIT_CERT_UID") = "" ->
        connCanFetchCerts ci = false).
Proof.
  split; [apply connCanFetchCerts_true_iff|].
  split; [apply userIDFromString_literal|].
  split; [intros v u Hne Hnd Hl; rewrite userIDFromString_name, Hl; done|].
  split; [intros v Hne Hnd Hl; rewrite userIDFromString_name, Hl; done|].
  intros Hempty. destruct (connCanFetchCerts ci) eqn:Hc; [|reflexivity].
  apply connCanFetchCerts_true_iff in Hc as [_ (creds & _ & Hu)].
  rewrite Hempty in Hu. unfold Creds_UserID in Hu.
  injection Hu as Hu Hk. rewrite Hu in Hk. discriminate.
Qed.

End PermissionFacts.

Section LocalAPIPermissions.

Context `{Host} {LB : Type} `{LocalBackend LB}.

(** Off Windows and js the permissions are read off the identity and the
    operator id of the bound backend; the server and the backend are left as
    they were. *)
Lemma localAPIPermissions_unix (pick : nat) (ci : ConnIdentity) (w : World LB) (p : LBptr) :
  GOOS <> "windows" -> GOOS <> "js" -> lb (srv w) = Some p ->
  localAPIPermissions pick ci w =
    (Ok (IsUnixSock ci,
         IsUnixSock ci && negb (IsReadonlyConn ci (lb_OperatorUserID (heap w p)))),
     mkWorld (srv w) (heap w)
             (trace w ++ if IsUnixSock ci then [EvCall p OperatorUserID] else [])).
Proof.
  intros Hw Hj Hp. unfold localAPIPermissions.
  apply String.eqb_neq in Hw, Hj. rewrite Hw, Hj.
  destruct (IsUnixSock ci); simpl.
  - msimpl. rewrite Hp. reflexivity.
  - msimpl. rewrite app_nil_r. destruct w; reflexivity.
Qed.

Lemma localAPIPermissions_js (pick : nat) (ci : ConnIdentity) (w : World LB) :
  GOOS = "js" -> localAPIPermissions pick ci w = (Ok (true, true), w).
Proof. intros Hj. unfold localAPIPermissions. rewrite Hj. reflexivity. Qed.

(** C7. On a platform that is neither Windows nor js, with a backend bound,
    [localAPIPermissions] grants read exactly when the connection is a unix
    socket, and write exactly when in addition [IsReadonlyConn] for the
    backend's operator user id is false. With [IsReadonlyConn] as the spec
    describes it, a unix-socket peer with uid 1000, operator id 1000 and a
    permitted-cert setting that does not resolve to 1000 gets read without
    write and without certificate fetching. *)
Theorem localAPIPermissions_domain_socket (pick : nat) (ci : ConnIdentity)
    (w : World LB) (p : LBptr) :
  GOOS <> "windows" -> GOOS <> "js" -> lb (srv w) = Some p ->
  exists read write w',
    localAPIPermissions pick ci w = (Ok (read, write), w')
    /\ srv w' = srv w /\ heap w' = heap w
    /\ (read = true <-> IsUnixSock ci = true)
    /\ (write = true <->
          IsUnixSock ci = true /\
          IsReadonlyConn ci (lb_OperatorUserID (heap w p)) = false)
    /\ ((forall c op, IsReadonlyConn c op = IsReadonlyConn_spec c op) ->
        IsUnixSock ci = true ->
        (exists creds, Creds ci = Some creds /\ creds_uid creds = "1000") ->
        lb_OperatorUserID (heap w p) = "1000" ->
        userIDFromString (envknob_String "TS_PERMIT_CERT_UID") <> "1000" ->
        read = true /\ write = false /\ connCanFetchCerts ci = false).
Proof.
  intros Hw Hj Hp. do 3 eexists.
  split; [apply localAPIPermissions_unix; eassumption|].
  simpl. split; [reflexivity|]. split; [reflexivity|]. split; [tauto|].
  split. { rewrite andb_true_iff, negb_true_iff. tauto. }
  intros Hspec Hunix (creds & Hc & Hu) Hop Hcert.
  split; [assumption|]. split.
  - rewrite Hunix, Hspec, Hop. unfold IsReadonlyConn_spec, Creds_UserID.
    rewrite Hc, Hu. reflexivity.
  - destruct (connCanFetchCerts ci) eqn:Hcan; [|reflexivity].
    apply connCanFetchCerts_true_iff in Hcan as [_ (c & Hc' & Hu')].
    rewrite Hc in Hc'. injection Hc' as <-.
    unfold Creds_UserID in Hu'. rewrite Hu in Hu'. injection Hu'. congruence.
Qed.

End LocalAPIPermissions.

Lemma localAPIPermissions_domain_socket_witness :
  @GOOS (linux "") = "linux"
  /\ lb (srv scenarioA_world) = Some 7%nat
  /\ IsUnixSock scenarioA_ci = true
  /\ Creds scenarioA_ci = Some {| creds_pid := 1; creds_uid := "1000" |}
  /\ lb_OperatorUserID (heap scenarioA_world 7%nat) = "1000"
  /\ fst (@localAPIPermissions (linux "") _ _ 0 scenarioA_ci scenarioA_world) = Ok (true, false)
  /\ @connCanFetchCerts (linux "") scenarioA_ci = false.
Proof.
  do 5 (split; [reflexivity|]).
  destruct (@localAPIPermissions_domain_socket (linux "") _ _ 0 scenarioA_ci scenarioA_world 7%nat)
    as (read & write & w' & Hrun & _ & _ & _ & _ & Hscenario);
    [discriminate | discriminate | reflexivity |].
  destruct Hscenario as (Hr & Hw & Hc);
    [reflexivity | reflexivity | eexists; split; reflexivity | reflexivity | discriminate |].
  rewrite Hrun, Hr, Hw. split; [reflexivity | exact Hc].
Defined.

Section PermissionPurity.

Context `{Host} {LB : Type} `{LocalBackend LB}.

Lemma connCanFetchCerts_pure (ci1 ci2 : ConnIdentity) :
  IsUnixSock ci1 = IsUnixSock ci2 -> Creds ci1 = Creds ci2 ->
  connCanFetchCerts ci1 = connCanFetchCerts ci2.
Proof. unfold connCanFetchCerts. intros -> ->. reflexivity. Qed.

Lemma localAPIPermissions_windows (pick : nat) (ci : ConnIdentity) (w : World LB) :
  GOOS = "windows" ->
  fst (localAPIPermissions pick ci w) =
    match fst (checkConnIdentityLocked pick ci (mkWorld (srv w) (heap w) (trace w ++ [EvLock]))) with
    | Ok None => Ok (true, true)
    | Ok (Some _) => Ok (false, false)
    | Panic msg => Panic msg
    end.
Proof.
  intros Hg. unfold localAPIPermissions. rewrite Hg. simpl.
  unfold defer, bind at 1, mu_Lock, emit. unfold bind at 1.
  destruct (checkConnIdentityLocked pick ci _) as [[[e|]|msg] w1]; reflexivity.
Qed.

(** C6, amended. [connCanFetchCerts] depends on nothing but the connection
    kind, the credential and the permitted-cert setting. Off Windows, with a
    backend bound and an [IsReadonlyConn] that reads only the credential,
    [localAPIPermissions] depends on nothing but the platform, the connection
    kind, the credential and the operator id, whatever the requests in
    flight, and it changes neither the server nor the backend. On Windows
    [localAPIPermissions] is the outcome of the single-user check. *)
Theorem permissions_pure_off_windows (pick1 pick2 : nat) (ci1 ci2 : ConnIdentity)
    (w1 w2 : World LB) (p1 p2 : LBptr) :
  IsUnixSock ci1 = IsUnixSock ci2 -> Creds ci1 = Creds ci2 ->
  connCanFetchCerts ci1 = connCanFetchCerts ci2
  /\ (GOOS <> "windows" ->
      (forall a b op, Creds a = Creds b -> IsReadonlyConn a op = IsReadonlyConn b op) ->
      lb (srv w1) = Some p1 -> lb (srv w2) = Some p2 ->
      lb_OperatorUserID (heap w1 p1) = lb_OperatorUserID (heap w2 p2) ->
      fst (localAPIPermissions pick1 ci1 w1) = fst (localAPIPermissions pick2 ci2 w2)
      /\ srv (snd (localAPIPermissions pick1 ci1 w1)) = srv w1
      /\ heap (snd (localAPIPermissions pick1 ci1 w1)) = heap w1)
  /\ (GOOS = "windows" ->
      fst (localAPIPermissions pick1 ci1 w1) =
        match fst (checkConnIdentityLocked pick1 ci1
                     (mkWorld (srv w1) (heap w1) (trace w1 ++ [EvLock]))) with
        | Ok None => Ok (true, true)
        | Ok (Some _) => Ok (false, false)
        | Panic msg => Panic msg
        end).
Proof.
  intros Hu Hc. split; [apply connCanFetchCerts_pure; assumption|].
  split; [|apply localAPIPermissions_windows].
  intros Hw Hro Hp1 Hp2 Hop.
  destruct (String.eqb_spec GOOS "js") as [Hj|Hj].
  - rewrite !localAPIPermissions_js by assumption. done.
  - rewrite (localAPIPermissions_unix pick1 ci1 w1 p1) by assumption.
    rewrite (localAPIPermissions_unix pick2 ci2 w2 p2) by assumption.
    simpl. rewrite Hu, Hop, (Hro ci1 ci2) by assumption. done.
Qed.

End PermissionPurity.

(** C6, as stated, fails on Windows. The same identity on the same platform
    with the same operator id and permitted-cert setting gets read and write
    while nothing is in flight and neither while a request of another user
    is. And while its own request is in flight, as when [serveHTTP] asks, it
    gets both or neither according to the backend's connection policy of the
    moment. *)
Lemma permissions_depend_on_active_requests_on_windows :
  (lb (srv windows_idle) = lb (srv windows_alice_active)
   /\ heap windows_idle = heap windows_alice_active
   /\ fst (@localAPIPermissions windows _ _ 0 bob_ci windows_idle) = Ok (true, true)
   /\ fst (@localAPIPermissions windows _ _ 0 bob_ci windows_alice_active) = Ok (false, false))
  /\ (activeReqs (srv bob_session) !! 2%nat = Some bob_ci
      /\ srv bob_session = srv bob_session_refused
      /\ lb_OperatorUserID (heap bob_session 7%nat)
         = lb_OperatorUserID (heap bob_session_refused 7%nat)
      /\ fst (@localAPIPermissions windows _ _ 0 bob_ci bob_session) = Ok (true, true)
      /\ fst (@localAPIPermissions windows _ _ 0 bob_ci bob_session_refused) = Ok (false, false)).
Proof. repeat split; vm_compute; reflexivity. Qed.

Lemma permissions_pure_off_windows_witness :
  @GOOS (linux "") = "linux"
  /\ fst (@localAPIPermissions (linux "") _ _ 0 scenarioA_ci scenarioA_world)
     = fst (@localAPIPermissions (linux "") _ _ 3 (set_Pid 42 scenarioA_ci)
              (mkWorld (set_activeReqs {[ 1%nat := scenarioA_ci ]} (srv scenarioA_world))
                       (heap scenarioA_world) [])).
Proof.
  split; [reflexivity|].
  apply (@permissions_pure_off_windows (linux "") _ _ 0 3 scenarioA_ci (set_Pid 42 scenarioA_ci)
           scenarioA_world
           (mkWorld (set_activeReqs {[ 1%nat := scenarioA_ci ]} (srv scenarioA_world))
                    (heap scenarioA_world) [])
           7%nat 7%nat);
    try reflexivity; try discriminate.
  intros a b op Hab. unfold IsReadonlyConn. simpl. unfold IsReadonlyConn_spec.
  rewrite Hab. reflexivity.
Defined.

(** ** Runs of the server *)

Section RunFacts.

Context `{Host} {LB : Type} `{LocalBackend LB}.

Lemma reachable_exec_all (ops : list (Op LB)) (w : World LB) :
  reachable w -> Forall admissible ops -> reachable (exec_all ops w).
Proof.
  revert w. induction ops as [|op ops IH]; intros w Hw Hops; [assumption|].
  apply Forall_cons in Hops as [Hop Hops]. simpl.
  apply IH; [apply reachable_step|]; assumption.
Qed.

(** *** [checkConnIdentityLocked] *)

Lemma range_first_lookup (pick : nat) (m : gmap nat ConnIdentity) (a : ConnIdentity) :
  range_first pick m = Some a -> exists r, m !! r = Some a.
Proof.
  unfold range_first. intros Hr.
  destruct (map_to_list m !! _) as [[r a']|] eqn:Hl; [|discriminate].
  injection Hr as ->. exists r.
  apply elem_of_map_to_list, list_elem_of_lookup. eauto.
Qed.

Lemma range_first_nonempty (pick : nat) (m : gmap nat ConnIdentity) :
  (0 < size m)%nat -> is_Some (range_first pick m).
Proof.
  intros Hs. unfold range_first.
  destruct (lookup_lt_is_Some_2 (map_to_list m) (pick mod size m)) as [x Hx].
  - rewrite length_map_to_list. apply Nat.mod_upper_bound. lia.
  - rewrite Hx. eauto.
Qed.

Lemma with_events_app (w : World LB) (tr1 tr2 : list Event) :
  with_events (with_events w tr1) tr2 = with_events w (tr1 ++ tr2).
Proof. unfold with_events. simpl. rewrite <- app_assoc. reflexivity. Qed.

Lemma checkConnIdentityLocked_eq (pick : nat) (ci : ConnIdentity) (w : World LB) :
  checkConnIdentityLocked pick ci w =
    match conflicting pick ci (srv w) with
    | Some active =>
        match User active with
        | None => (Panic "runtime error: invalid memory address or nil pointer dereference", w)
        | Some u => (Ok (Some (inUseOtherUserError
                                 (errorString (inUseMessage (Username u) (Pid active))))), w)
        end
    | None =>
        match lb (srv w) with
        | None => (Panic "unexpected: call to mustBackend in path where SetLocalBackend should've been called", w)
        | Some p => (Ok (inUseOtherUserError <$> lb_CheckIPNConnectionAllowed (heap w p) ci),
                     with_events w [EvCall p (CheckIPNConnectionAllowed ci)])
        end
    end.
Proof.
  unfold checkConnIdentityLocked, conflicting, with_events. msimpl.
  destruct (0 <? size (activeReqs (srv w)))%nat;
    [destruct (range_first pick (activeReqs (srv w))) as [active|];
       [destruct (negb (WindowsUserID ci =? WindowsUserID active));
          [destruct (User active); reflexivity|]|]|];
    destruct (lb (srv w)); try reflexivity;
    destruct (lb_CheckIPNConnectionAllowed _ ci); reflexivity.
Qed.

(** *** [addActiveHTTPRequest] *)

Lemma addActiveHTTPRequest_eq (pick : nat) (req : Req) (ci : ConnIdentity) (w : World LB) :
  addActiveHTTPRequest pick req (Some ci) w =
    match lb (srv w) with
    | None => (Panic "unexpected: call to mustBackend in path where SetLocalBackend should've been called", w)
    | Some p =>
        match checkConnIdentityLocked pick ci (with_events w [EvLock]) with
        | (Panic msg, w1) => (Panic msg, with_events w1 [EvUnlock])
        | (Ok (Some e), w1) => (Ok (None, Some e), with_events w1 [EvUnlock])
        | (Ok None, w1) =>
            (Ok (Some (onDone p req), None),
             reset_if (user_switch req ci (srv w1)) p (at_unlock p req ci w1))
        end
    end.
Proof.
  unfold addActiveHTTPRequest, addActiveHTTPRequest_critical, addActiveHTTPRequest_deferred.
  cbv beta iota delta [bind mustBackend get_srv ret panic].
  destruct (lb (srv w)) as [p|]; [|reflexivity].
  unfold defer, addActiveHTTPRequest_locked.
  cbv beta iota delta [bind mu_Lock emit]. fold (with_events w [EvLock]).
  destruct (checkConnIdentityLocked pick ci (with_events w [EvLock])) as [[[e|]|msg] w1];
    [reflexivity| |reflexivity].
  unfold reset_if, at_unlock, user_switch, user_changed, first_request, register,
    user_changed, first_request.
  msimpl.
  destruct (negb (WindowsUserID ci =? "")); simpl;
    [destruct (size (<[req:=ci]> (activeReqs (srv w1))) =? 1)%nat; simpl;
       [destruct (negb (lastUserID (srv w1) =? WindowsUserID ci)); simpl;
          [destruct (negb (lastUserID (srv w1) =? "")); simpl|]|]|];
    rewrite <- ?app_assoc; reflexivity.
Qed.

(** *** [onDone], [startBackendIfNeeded], [SetLocalBackend], [Run] *)

Lemma onDone_eq (p : LBptr) (req : Req) (w : World LB) :
  onDone p req w =
    (Ok tt,
     mkWorld (set_activeReqs (delete req (activeReqs (srv w))) (srv w))
             (if idle_reset p req w
              then heap_update p lb_ResetForClientDisconnect (heap w) else heap w)
             (trace w ++ [EvLock; EvUnlock]
                ++ (if (size (delete req (activeReqs (srv w))) =? 0)%nat && resetOnZero (srv w)
                    then EvCall p InServerMode ::
                         (if lb_InServerMode (heap w p)
                          then [EvLogf "client disconnected; staying alive in server mode"]
                          else [EvLogf "client disconnected; stopping server";
                                EvCall p ResetForClientDisconnect])
                    else []))).
Proof.
  unfold onDone, idle_reset. msimpl.
  destruct (size (delete req (activeReqs (srv w))) =? 0)%nat; simpl;
    [destruct (resetOnZero (srv w)); simpl;
       [destruct (lb_InServerMode (heap w p)); simpl|]|];
    rewrite <- ?app_assoc; reflexivity.
Qed.

Lemma startBackendIfNeeded_eq (w : World LB) :
  startBackendIfNeeded w =
    (Ok tt,
     match lb (srv w) with
     | Some p =>
         if runCalled (srv w) then
           if starts_backend (srv w) (heap w)
           then mkWorld (set_startBackendOnce true (srv w))
                        (heap_update p lb_Start (heap w))
                        (trace w ++ [EvCall p Prefs; EvCall p Start])
           else with_events w [EvCall p Prefs]
         else w
     | None => w
     end).
Proof.
  unfold startBackendIfNeeded, startBackendOnce_Do, starts_backend, with_events. msimpl.
  destruct (runCalled (srv w)); simpl; [|destruct (lb (srv w)); reflexivity].
  destruct (lb (srv w)) as [p|]; [|reflexivity].
  destruct (lb_PrefsValid (heap w p)); simpl; [|reflexivity].
  destruct (startBackendOnce (srv w)); simpl; rewrite <- ?app_assoc; reflexivity.
Qed.

Lemma SetLocalBackend_eq (p : option LBptr) (w : World LB) :
  SetLocalBackend p w =
    match p with
    | None => (Panic "nil LocalBackend", w)
    | Some q =>
        match lb (srv w) with
        | Some _ => (Panic "already set", w)
        | None => startBackendIfNeeded (mkWorld (set_lb (Some q) (srv w)) (heap w) (trace w))
        end
    end.
Proof.
  unfold SetLocalBackend, lb_CompareAndSwap_nil. destruct p as [q|]; [|reflexivity].
  cbv beta iota delta [bind get_srv modify_srv ret panic].
  destruct (lb (srv w)); reflexivity.
Qed.

Lemma Run_prologue_eq (w : World LB) :
  Run_prologue w =
    (Ok tt,
     with_events (snd (startBackendIfNeeded
                         (mkWorld (set_runCalled true (srv w)) (heap w) (trace w))))
                 [EvSystemdReady]).
Proof.
  unfold Run_prologue. cbv beta iota delta [bind modify_srv emit].
  rewrite startBackendIfNeeded_eq. reflexivity.
Qed.

Lemma Run_deferred_eq (w : World LB) :
  Run_deferred w =
    (Ok tt,
     match lb (srv w) with
     | Some p => mkWorld (srv w) (heap_update p lb_Shutdown (heap w))
                         (trace w ++ [EvCall p Shutdown])
     | None => w
     end).
Proof. unfold Run_deferred. msimpl. destruct (lb (srv w)); reflexivity. Qed.

(** *** The five ways a registration ends *)

Lemma addActiveHTTPRequest_verdict (pick : nat) (req : Req) (ci : ConnIdentity) (w : World LB) :
  addActiveHTTPRequest pick req (Some ci) w =
    match verdict pick ci w with
    | NoBackend =>
        (Panic "unexpected: call to mustBackend in path where SetLocalBackend should've been called", w)
    | NilUser _ =>
        (Panic "runtime error: invalid memory address or nil pointer dereference",
         with_events w [EvLock; EvUnlock])
    | Conflict active u =>
        (Ok (None, Some (inUseOtherUserError
                           (errorString (inUseMessage (Username u) (Pid active))))),
         with_events w [EvLock; EvUnlock])
    | Denied p e =>
        (Ok (None, Some (inUseOtherUserError e)),
         with_events w [EvLock; EvCall p (CheckIPNConnectionAllowed ci); EvUnlock])
    | Accepted p =>
        (Ok (Some (onDone p req), None),
         reset_if (user_switch req ci (srv w)) p
           (at_unlock p req ci
              (with_events w [EvLock; EvCall p (CheckIPNConnectionAllowed ci)])))
    end.
Proof.
  rewrite addActiveHTTPRequest_eq, checkConnIdentityLocked_eq. unfold verdict. simpl.
  destruct (lb (srv w)) as [p|]; [|reflexivity].
  destruct (conflicting pick ci (srv w)) as [active|].
  - destruct (User active); rewrite !with_events_app; reflexivity.
  - destruct (lb_CheckIPNConnectionAllowed (heap w p) ci); simpl;
      rewrite !with_events_app; reflexivity.
Qed.

Lemma count_calls_app (c : Call) (tr1 tr2 : list Event) :
  count_calls c (tr1 ++ tr2) = (count_calls c tr1 + count_calls c tr2)%nat.
Proof. unfold count_calls. rewrite List.filter_app, length_app. reflexivity. Qed.

(** C10. Whenever [addActiveHTTPRequest] returns an error - for a nil
    identity, for a conflict with the active user, or because the backend
    refuses the identity - it returns no [onDone], the server fields
    (active requests and last user id among them) and the backend are as
    before the call, and the call has invoked neither [SetCurrentUserID] nor
    [ResetForClientDisconnect]: besides locking and unlocking it has at most
    asked the backend whether the identity may connect. *)
Theorem addActiveHTTPRequest_rejection_atomic (pick : nat) (req : Req)
    (ci : option ConnIdentity) (w w' : World LB) (od : option (M LB unit)) (e : error) :
  addActiveHTTPRequest pick req ci w = (Ok (od, Some e), w') ->
  od = None
  /\ srv w' = srv w
  /\ heap w' = heap w
  /\ exists tr,
       trace w' = trace w ++ tr
       /\ count_calls ResetForClientDisconnect tr = 0%nat
       /\ (forall uid, count_calls (SetCurrentUserID uid) tr = 0%nat)
       /\ Forall (fun ev => ev = EvLock \/ ev = EvUnlock \/
                            exists p c, ev = EvCall p (CheckIPNConnectionAllowed c)) tr.
Proof.
  destruct ci as [ci|].
  - rewrite addActiveHTTPRequest_verdict.
    destruct (verdict pick ci w) as [|active|active u|p e'|p]; intros Heq;
      simplify_eq; simpl.
    + do 3 (split; [reflexivity|]). eexists. split; [reflexivity|].
      split; [reflexivity|]. split; [intros uid; reflexivity|].
      apply List.Forall_cons; [tauto|]. apply List.Forall_cons; [tauto|]. apply List.Forall_nil.
    + do 3 (split; [reflexivity|]). eexists. split; [reflexivity|].
      split; [reflexivity|]. split; [intros uid; reflexivity|].
      apply List.Forall_cons; [tauto|]. apply List.Forall_cons; [eauto|].
      apply List.Forall_cons; [tauto|]. apply List.Forall_nil.
  - intros [= <- <- <-]. do 3 (split; [reflexivity|]).
    exists []. rewrite app_nil_r. repeat split; constructor.
Qed.

(** C3. [onDone] removes the request and returns. When that leaves no
    request in flight, it resets the backend exactly once if [resetOnZero]
    is set and the backend is not in server mode, and not at all if the
    backend is in server mode or [resetOnZero] is false; when requests
    remain it does not reset. *)
Theorem onDone_idle_reset (p : LBptr) (req : Req) (w : World LB) :
  fst (onDone p req w) = Ok tt
  /\ activeReqs (srv (snd (onDone p req w))) = delete req (activeReqs (srv w))
  /\ exists tr,
       trace (snd (onDone p req w)) = trace w ++ tr
       /\ count_calls ResetForClientDisconnect tr =
            if (size (delete req (activeReqs (srv w))) =? 0)%nat
               && resetOnZero (srv w) && negb (lb_InServerMode (heap w p))
            then 1%nat else 0%nat.
Proof.
  rewrite onDone_eq. simpl. do 2 (split; [reflexivity|]).
  eexists. split; [reflexivity|].
  destruct (size (delete req (activeReqs (srv w))) =? 0)%nat; simpl;
    [destruct (resetOnZero (srv w)); simpl;
       [destruct (lb_InServerMode (heap w p)); simpl|]|];
    reflexivity.
Qed.

(** *** What one step does to the server *)

Lemma localAPIPermissions_frame (pick : nat) (ci : ConnIdentity) (w : World LB) :
  exists tr,
    snd (localAPIPermissions pick ci w) = with_events w tr
    /\ count_calls Start tr = 0%nat.
Proof.
  unfold localAPIPermissions.
  destruct (String.eqb GOOS "windows").
  - unfold defer. cbv beta iota delta [bind mu_Lock mu_Unlock emit].
    fold (with_events w [EvLock]). rewrite checkConnIdentityLocked_eq. simpl.
    destruct (conflicting pick ci (srv w)) as [active|].
    + destruct (User active); simpl; (eexists; split;
        [unfold with_events; simpl; rewrite <- app_assoc; reflexivity | reflexivity]).
    + destruct (lb (srv w)) as [p|]; simpl.
      * destruct (lb_CheckIPNConnectionAllowed (heap w p) ci); simpl; (eexists; split;
          [unfold with_events; simpl; rewrite <- !app_assoc; reflexivity | reflexivity]).
      * eexists; split;
          [unfold with_events; simpl; rewrite <- !app_assoc; reflexivity | reflexivity].
  - destruct (String.eqb GOOS "js").
    + exists []. unfold with_events. msimpl. rewrite app_nil_r. destruct w; done.
    + destruct (IsUnixSock ci).
      * msimpl. destruct (lb (srv w)) as [p|]; simpl.
        -- eexists; split; [reflexivity|reflexivity].
        -- exists []. unfold with_events. rewrite app_nil_r. destruct w; done.
      * exists []. unfold with_events. msimpl. rewrite app_nil_r. destruct w; done.
Qed.

Lemma srv_reset_if (b : bool) (p : LBptr) (w : World LB) : srv (reset_if b p w) = srv w.
Proof. destruct b; reflexivity. Qed.

(** A step either leaves the session fields alone and keeps a bound backend
    bound, or is an accepted registration, or is a completion. *)
Lemma exec_session (op : Op LB) (w : World LB) :
  (activeReqs (srv (exec op w)) = activeReqs (srv w)
   /\ lastUserID (srv (exec op w)) = lastUserID (srv w)
   /\ (forall p, lb (srv w) = Some p -> lb (srv (exec op w)) = Some p))
  \/ (exists pick req ci p,
        op = OpAdd pick req (Some ci) /\ verdict pick ci w = Accepted p
        /\ srv (exec op w) = register req ci (srv w))
  \/ (exists p req,
        op = OpDone p req
        /\ srv (exec op w) = set_activeReqs (delete req (activeReqs (srv w))) (srv w)).
Proof.
  destruct op as [q| | |pick req [ci|]|p req|pick ci|p f]; cbn [exec].
  - left. rewrite SetLocalBackend_eq. destruct q as [q|]; [|frame_done].
    destruct (lb (srv w)) eqn:Hlb; [frame_done|].
    rewrite startBackendIfNeeded_eq. simpl.
    destruct (runCalled (srv w)); [|frame_done].
    destruct (starts_backend _ _); frame_done.
  - left. rewrite Run_prologue_eq, startBackendIfNeeded_eq. simpl.
    destruct (lb (srv w)) eqn:Hlb; [|frame_done].
    destruct (starts_backend _ _); frame_done.
  - left. rewrite Run_deferred_eq. simpl. destruct (lb (srv w)) eqn:Hlb; frame_done.
  - rewrite addActiveHTTPRequest_verdict.
    destruct (verdict pick ci w) eqn:Hv; simpl; try (left; frame_done).
    right. left. exists pick, req, ci, p. rewrite srv_reset_if. done.
  - left. frame_done.
  - right. right. exists p, req. rewrite onDone_eq. done.
  - left. destruct (localAPIPermissions_frame pick ci w) as (tr & -> & _). frame_done.
  - left. frame_done.
Qed.

(** *** The session invariant *)

Lemma lookup_size_pos (m : gmap nat ConnIdentity) (r : nat) (a : ConnIdentity) :
  m !! r = Some a -> (0 < size m)%nat.
Proof.
  intros Hr. destruct (size m) eqn:Hs; [|lia].
  apply map_size_empty_inv in Hs. subst m. rewrite lookup_empty in Hr. discriminate.
Qed.

Lemma insert_size_not_1 (m : gmap nat ConnIdentity) (req : nat) (ci : ConnIdentity) :
  size (<[req := ci]> m) <> 1%nat -> exists r a, r <> req /\ m !! r = Some a.
Proof.
  intros Hs. rewrite <- insert_delete_eq in Hs.
  rewrite map_size_insert_None in Hs by apply lookup_delete_eq.
  destruct (map_choose (delete req m)) as (r & a & Hr).
  - intros He. rewrite He, map_size_empty in Hs. lia.
  - apply lookup_delete_Some in Hr as [Hne Hr]. eauto.
Qed.

Lemma conflicting_Some (pick : nat) (ci active : ConnIdentity) (s : Server) :
  conflicting pick ci s = Some active ->
  (exists r, activeReqs s !! r = Some active)
  /\ WindowsUserID ci <> WindowsUserID active.
Proof.
  unfold conflicting. destruct (0 <? size (activeReqs s))%nat; [|discriminate].
  destruct (range_first pick (activeReqs s)) as [a|] eqn:Hr; [|discriminate].
  destruct (String.eqb_spec (WindowsUserID ci) (WindowsUserID a)); [discriminate|].
  simpl. intros [= <-]. split; [eapply range_first_lookup; eassumption | assumption].
Qed.

Lemma conflicting_None (pick : nat) (ci : ConnIdentity) (s : Server) (r : nat) (a : ConnIdentity) :
  session_inv s -> conflicting pick ci s = None -> activeReqs s !! r = Some a ->
  WindowsUserID ci = WindowsUserID a.
Proof.
  intros Hinv Hc Hr. unfold conflicting in Hc.
  pose proof (lookup_size_pos _ _ _ Hr) as Hpos.
  destruct (Nat.ltb_spec 0 (size (activeReqs s))); [|lia].
  destruct (range_first_nonempty pick _ Hpos) as [active Ha]. rewrite Ha in Hc.
  destruct (String.eqb_spec (WindowsUserID ci) (WindowsUserID active)) as [Heq|];
    [|discriminate].
  apply range_first_lookup in Ha as [r' Hr']. rewrite Heq.
  eapply inv_same_user; eassumption.
Qed.

Lemma conflicting_differs (pick : nat) (ci : ConnIdentity) (s : Server) (r : nat) (a : ConnIdentity) :
  session_inv s -> activeReqs s !! r = Some a -> WindowsUserID ci <> WindowsUserID a ->
  exists active r',
    conflicting pick ci s = Some active
    /\ activeReqs s !! r' = Some active
    /\ WindowsUserID active = WindowsUserID a.
Proof.
  intros Hinv Hr Hne.
  destruct (conflicting pick ci s) as [active|] eqn:Hc.
  - destruct (conflicting_Some _ _ _ _ Hc) as [[r' Hr'] _].
    exists active, r'. split; [reflexivity|]. split; [assumption|].
    eapply inv_same_user; eassumption.
  - exfalso. apply Hne. eapply conflicting_None; eassumption.
Qed.

Lemma verdict_Accepted (pick : nat) (ci : ConnIdentity) (w : World LB) (p : LBptr) :
  verdict pick ci w = Accepted p ->
  lb (srv w) = Some p
  /\ conflicting pick ci (srv w) = None
  /\ lb_CheckIPNConnectionAllowed (heap w p) ci = None.
Proof.
  unfold verdict. destruct (lb (srv w)) as [q|]; [|discriminate].
  destruct (conflicting pick ci (srv w)) as [active|]; [destruct (User active); discriminate|].
  destruct (lb_CheckIPNConnectionAllowed (heap w q) ci) eqn:Hc; [discriminate|].
  intros [= <-]. done.
Qed.

Lemma New_inv : session_inv New.
Proof. split; simpl; intros *; rewrite lookup_empty; discriminate. Qed.

Lemma frame_inv (s s' : Server) :
  session_inv s ->
  activeReqs s' = activeReqs s -> lastUserID s' = lastUserID s ->
  (forall p, lb s = Some p -> lb s' = Some p) ->
  session_inv s'.
Proof.
  intros [Hres Hsame Hlast Hbound] Ha Hl Hlb.
  split; rewrite ?Ha, ?Hl; try assumption.
  intros r a Hr. destruct (Hbound r a Hr) as [p Hp]. rewrite (Hlb p Hp). eauto.
Qed.

Lemma delete_inv (req : nat) (s : Server) :
  session_inv s -> session_inv (set_activeReqs (delete req (activeReqs s)) s).
Proof.
  intros [Hres Hsame Hlast Hbound]. split; simpl.
  - intros r a [_ Hr]%lookup_delete_Some. eauto.
  - intros r1 a1 r2 a2 [_ Hr1]%lookup_delete_Some [_ Hr2]%lookup_delete_Some. eauto.
  - intros r a [_ Hr]%lookup_delete_Some. eauto.
  - intros r a [_ Hr]%lookup_delete_Some. eauto.
Qed.

Lemma register_fields (req : nat) (ci : ConnIdentity) (s : Server) :
  activeReqs (register req ci s) = <[req := ci]> (activeReqs s)
  /\ lb (register req ci s) = lb s
  /\ startBackendOnce (register req ci s) = startBackendOnce s
  /\ runCalled (register req ci s) = runCalled s
  /\ resetOnZero (register req ci s) = resetOnZero s
  /\ lastUserID (register req ci s) =
       if user_changed req ci s then WindowsUserID ci else lastUserID s.
Proof. unfold register. destruct (user_changed req ci s); done. Qed.

Lemma register_inv (pick : nat) (req : nat) (ci : ConnIdentity) (s : Server) :
  session_inv s -> resolved ci -> is_Some (lb s) -> conflicting pick ci s = None ->
  session_inv (register req ci s).
Proof.
  intros Hinv Hci Hlb Hc.
  destruct (register_fields req ci s) as (Ha & Hb & _ & _ & _ & Hl).
  assert (Huid : forall r a, <[req := ci]> (activeReqs s) !! r = Some a ->
                             WindowsUserID a = WindowsUserID ci).
  { intros r a [[_ <-]|[_ Hr]]%lookup_insert_Some; [reflexivity|].
    symmetry. eapply conflicting_None; eassumption. }
  split; rewrite ?Ha, ?Hb, ?Hl.
  - intros r a [[_ <-]|[_ Hr]]%lookup_insert_Some; [assumption|].
    eapply inv_resolved; eassumption.
  - intros r1 a1 r2 a2 H1%Huid H2%Huid. congruence.
  - intros r a Hr Hne. rewrite (Huid _ _ Hr) in *. clear r a Hr.
    unfold user_changed, first_request.
    destruct (String.eqb_spec (WindowsUserID ci) ""); [contradiction|]. simpl.
    destruct (size (<[req := ci]> (activeReqs s)) =? 1)%nat eqn:Hsz; simpl.
    + destruct (String.eqb_spec (lastUserID s) (WindowsUserID ci)); simpl; congruence.
    + apply Nat.eqb_neq, insert_size_not_1 in Hsz as (r & a & _ & Hr).
      rewrite (inv_last_user s Hinv r a Hr);
        erewrite <- (conflicting_None pick ci s r a); eauto.
  - intros r a _. assumption.
Qed.

Lemma exec_inv (op : Op LB) (w : World LB) :
  admissible op -> session_inv (srv w) -> session_inv (srv (exec op w)).
Proof.
  intros Hop Hinv.
  destruct (exec_session op w) as [(Ha & Hl & Hlb)|[(pick & req & ci & p & -> & Hv & ->)|(p & req & -> & ->)]].
  - eapply frame_inv; eassumption.
  - apply verdict_Accepted in Hv as (Hp & Hc & _).
    eapply register_inv; eauto.
  - apply delete_inv. assumption.
Qed.

Lemma reachable_inv (w : World LB) : reachable w -> session_inv (srv w).
Proof.
  induction 1 as [h|w op Hw IH Hop]; [apply New_inv | apply exec_inv; assumption].
Qed.

(** *** The single active user *)

(** C1. In every reachable state in which a request of user U1 is in
    flight, [addActiveHTTPRequest] for a resolved identity whose user id
    differs from U1 returns an [inUseOtherUserError] whose message names the
    user and the process id of a request in flight under U1, and leaves the
    server as it was: the request is not registered. The text of the error
    is written out: "Tailscale already in use by", the username of that
    request's user record, ", pid" and the decimal process id of that
    request. Nothing else is assumed of the state, so this holds for as long
    as a request of U1 is in flight. *)
Theorem single_active_user (w : World LB) (pick : nat) (req : Req) (ci : ConnIdentity)
    (r : Req) (a : ConnIdentity) :
  reachable w -> resolved ci ->
  activeReqs (srv w) !! r = Some a ->
  WindowsUserID ci <> WindowsUserID a ->
  exists r' a' u e,
    activeReqs (srv w) !! r' = Some a'
    /\ WindowsUserID a' = WindowsUserID a
    /\ User a' = Some u
    /\ addActiveHTTPRequest pick req (Some ci) w =
         (Ok (None, Some e), with_events w [EvLock; EvUnlock])
    /\ is_inUseOtherUserError e = true
    /\ Error e = "Tailscale already in use by " +:+ Username u +:+ ", pid " +:+ pretty (Pid a')
    /\ e = inUseOtherUserError
             (errorString ("Tailscale already in use by " +:+ Username u +:+ ", pid "
                           +:+ pretty (Pid a')))
    /\ srv (snd (addActiveHTTPRequest pick req (Some ci) w)) = srv w
    /\ heap (snd (addActiveHTTPRequest pick req (Some ci) w)) = heap w.
Proof.
  intros Hw Hci Hr Hne.
  pose proof (reachable_inv w Hw) as Hinv.
  destruct (conflicting_differs pick ci (srv w) r a Hinv Hr Hne)
    as (active & r' & Hc & Hr' & Hsame).
  destruct (inv_bound _ Hinv r a Hr) as [p Hp].
  assert (Huser : is_Some (User active)).
  { destruct resolved_uniform as [Hall|Hall].
    - apply Hall. eapply inv_resolved; eassumption.
    - exfalso. apply Hne. rewrite (Hall ci Hci). symmetry. apply Hall.
      eapply inv_resolved; eassumption. }
  destruct Huser as [u Hu].
  exists r', active, u,
    (inUseOtherUserError
       (errorString ("Tailscale already in use by " +:+ Username u +:+ ", pid "
                     +:+ pretty (Pid active)))).
  do 3 (split; [assumption|]).
  rewrite addActiveHTTPRequest_verdict. unfold verdict. rewrite Hp, Hc, Hu.
  repeat split; reflexivity.
Qed.

(** Once nothing is in flight the same identity is accepted, if the backend
    allows it. *)
Lemma accepted_when_idle (w : World LB) (pick : nat) (req : Req) (ci : ConnIdentity) (p : LBptr) :
  activeReqs (srv w) = ∅ -> lb (srv w) = Some p ->
  lb_CheckIPNConnectionAllowed (heap w p) ci = None ->
  fst (addActiveHTTPRequest pick req (Some ci) w) = Ok (Some (onDone p req), None).
Proof.
  intros He Hp Hallow. rewrite addActiveHTTPRequest_verdict. unfold verdict, conflicting.
  rewrite Hp, He, map_size_empty, Hallow. reflexivity.
Qed.

(** *** Resets on a change of user *)

Lemma new_events_app (w w' : World LB) (tr : list Event) :
  trace w' = trace w ++ tr -> new_events w w' = tr.
Proof. unfold new_events. intros ->. apply drop_app_length. Qed.

(** In a state that satisfies the invariant, an accepted request sets
    [doReset] exactly on a change of user: it is then the only request in
    flight. *)
Lemma user_switch_transition (pick : nat) (req : Req) (ci : ConnIdentity) (s : Server) :
  session_inv s -> conflicting pick ci s = None ->
  user_switch req ci s = user_transition ci s.
Proof.
  intros Hinv Hc. unfold user_switch, user_changed, first_request, user_transition.
  destruct (String.eqb_spec (WindowsUserID ci) "") as [He|Hne]; simpl.
  { rewrite bool_decide_eq_false_2; [reflexivity|tauto]. }
  destruct (String.eqb_spec (lastUserID s) (WindowsUserID ci)) as [Hl|Hl]; simpl.
  { rewrite andb_false_r. rewrite bool_decide_eq_false_2; [reflexivity|]. intuition congruence. }
  destruct (String.eqb_spec (lastUserID s) "") as [Hl0|Hl0]; simpl.
  { rewrite andb_false_r. rewrite bool_decide_eq_false_2; [reflexivity|tauto]. }
  rewrite bool_decide_eq_true_2 by (intuition congruence).
  destruct (size (<[req := ci]> (activeReqs s)) =? 1)%nat eqn:Hsz; [reflexivity|].
  apply Nat.eqb_neq, insert_size_not_1 in Hsz as (r & a & _ & Hr).
  exfalso. apply Hl.
  rewrite (conflicting_None pick ci s r a Hinv Hc Hr).
  apply (inv_last_user s Hinv r a Hr).
  rewrite <- (conflicting_None pick ci s r a Hinv Hc Hr). assumption.
Qed.

Lemma reset_if_trace (b : bool) (p : LBptr) (w : World LB) :
  trace (reset_if b p w) =
    trace w ++ (if b then [EvLogf "identity changed; resetting server";
                           EvCall p ResetForClientDisconnect]
                else []).
Proof. destruct b; simpl; [reflexivity | rewrite app_nil_r; reflexivity]. Qed.

Lemma addActiveHTTPRequest_accepted (pick : nat) (req : Req) (ci : ConnIdentity)
    (w w' : World LB) (od : M LB unit) :
  session_inv (srv w) ->
  addActiveHTTPRequest pick req (Some ci) w = (Ok (Some od, None), w') ->
  exists p,
    verdict pick ci w = Accepted p
    /\ od = onDone p req
    /\ w' = reset_if (user_transition ci (srv w)) p
              (at_unlock p req ci
                 (with_events w [EvLock; EvCall p (CheckIPNConnectionAllowed ci)])).
Proof.
  intros Hinv. rewrite addActiveHTTPRequest_verdict.
  destruct (verdict pick ci w) as [|active|active u|p e|p] eqn:Hv; try discriminate.
  intros [= <- <-]. exists p. split; [reflexivity|]. split; [reflexivity|].
  apply verdict_Accepted in Hv as (_ & Hc & _).
  rewrite (user_switch_transition pick req ci (srv w) Hinv Hc). reflexivity.
Qed.

Lemma at_unlock_trace (p : LBptr) (req : Req) (ci : ConnIdentity) (w : World LB) :
  exists tr,
    trace (at_unlock p req ci
             (with_events w [EvLock; EvCall p (CheckIPNConnectionAllowed ci)])) = trace w ++ tr
    /\ mu_held false tr = false
    /\ count_calls ResetForClientDisconnect tr = 0%nat.
Proof.
  unfold at_unlock. simpl.
  destruct (first_request req ci (srv w)); simpl;
    (eexists; split; [rewrite <- !app_assoc; reflexivity | split; reflexivity]).
Qed.

Lemma add_step_resets (pick : nat) (req : Req) (ci : option ConnIdentity) (w : World LB) :
  session_inv (srv w) ->
  count_calls ResetForClientDisconnect (new_events w (exec (OpAdd pick req ci) w)) =
    if accepted_transition (OpAdd pick req ci) w then 1%nat else 0%nat.
Proof.
  intros Hinv. cbn [exec accepted_transition].
  destruct ci as [ci|].
  2:{ simpl. unfold new_events. simpl. rewrite drop_all. reflexivity. }
  destruct (addActiveHTTPRequest pick req (Some ci) w) as [[[[od|] [e|]]|msg] w'] eqn:Hadd; simpl.
  - rewrite addActiveHTTPRequest_verdict in Hadd.
    destruct (verdict pick ci w); discriminate.
  - destruct (addActiveHTTPRequest_accepted _ _ _ _ _ _ Hinv Hadd) as (p & _ & _ & ->).
    destruct (at_unlock_trace p req ci w) as (tr & Htr & _ & Hcount).
    erewrite new_events_app
      by (rewrite reset_if_trace, Htr, <- app_assoc; reflexivity).
    rewrite count_calls_app, Hcount.
    destruct (user_transition ci (srv w)); reflexivity.
  - rewrite addActiveHTTPRequest_verdict in Hadd.
    destruct (verdict pick ci w); try discriminate; injection Hadd as _ <-;
      (erewrite new_events_app by reflexivity; reflexivity).
  - rewrite addActiveHTTPRequest_verdict in Hadd.
    destruct (verdict pick ci w); discriminate.
  - rewrite addActiveHTTPRequest_verdict in Hadd.
    destruct (verdict pick ci w); try discriminate; injection Hadd as _ <-.
    + unfold new_events. rewrite drop_all. reflexivity.
    + erewrite new_events_app by reflexivity. reflexivity.
Qed.

Lemma switch_resets_transitions (ops : list (Op LB)) (w : World LB) :
  session_inv (srv w) -> Forall admissible ops ->
  switch_resets ops w = user_transitions ops w.
Proof.
  revert w. induction ops as [|op ops IH]; intros w Hinv Hops; [reflexivity|].
  apply Forall_cons in Hops as [Hop Hops]. cbn [switch_resets user_transitions].
  rewrite (IH (exec op w)) by (try apply exec_inv; assumption).
  f_equal. destruct op; try reflexivity.
  apply add_step_resets. assumption.
Qed.

(** What the critical section and the deferred closure of
    [addActiveHTTPRequest] do. *)
Lemma addActiveHTTPRequest_critical_eq (p : LBptr) (pick : nat) (req : Req)
    (ci : ConnIdentity) (w : World LB) :
  addActiveHTTPRequest_critical p pick req ci w =
    match checkConnIdentityLocked pick ci (with_events w [EvLock]) with
    | (Panic msg, w1) => (Panic msg, with_events w1 [EvUnlock])
    | (Ok (Some e), w1) => (Ok (false, (None, Some e)), with_events w1 [EvUnlock])
    | (Ok None, w1) =>
        (Ok (user_switch req ci (srv w1), (Some (onDone p req), None)),
         at_unlock p req ci w1)
    end.
Proof.
  unfold addActiveHTTPRequest_critical, defer, addActiveHTTPRequest_locked.
  cbv beta iota delta [bind mu_Lock emit]. fold (with_events w [EvLock]).
  destruct (checkConnIdentityLocked pick ci (with_events w [EvLock])) as [[[e|]|msg] w1];
    [reflexivity| |reflexivity].
  unfold at_unlock, user_switch, user_changed, first_request, register,
    user_changed, first_request.
  msimpl.
  destruct (negb (WindowsUserID ci =? "")); simpl;
    [destruct (size (<[req:=ci]> (activeReqs (srv w1))) =? 1)%nat; simpl;
       [destruct (negb (lastUserID (srv w1) =? WindowsUserID ci)); simpl;
          [destruct (negb (lastUserID (srv w1) =? "")); simpl|]|]|];
    rewrite <- ?app_assoc; reflexivity.
Qed.

Lemma addActiveHTTPRequest_deferred_eq (p : LBptr) (doReset : bool) (w : World LB) :
  addActiveHTTPRequest_deferred p doReset w = (Ok tt, reset_if doReset p w).
Proof.
  unfold addActiveHTTPRequest_deferred, reset_if. destruct doReset; [|reflexivity].
  msimpl. rewrite <- app_assoc. reflexivity.
Qed.

(** The critical section of an accepted registration. *)
Lemma addActiveHTTPRequest_critical_accepted (p : LBptr) (pick : nat) (req : Req)
    (ci : ConnIdentity) (w : World LB) :
  verdict pick ci w = Accepted p ->
  addActiveHTTPRequest_critical p pick req ci w =
    (Ok (user_switch req ci (srv w), (Some (onDone p req), None)),
     at_unlock p req ci (with_events w [EvLock; EvCall p (CheckIPNConnectionAllowed ci)])).
Proof.
  intros Hv. apply verdict_Accepted in Hv as (Hp & Hc & Ha).
  rewrite addActiveHTTPRequest_critical_eq, checkConnIdentityLocked_eq.
  cbn [srv heap with_events]. rewrite Hc, Hp, Ha. cbn [fmap option_fmap option_map].
  rewrite with_events_app. reflexivity.
Qed.

(** C2. In a reachable state, a registration that succeeds resets the
    backend exactly when the new user id and the recorded last user id are
    both non-empty and differ. The call is its critical section followed by
    the deferred closure. The critical section - from [s.mu.Lock()] to the
    deferred [s.mu.Unlock()] - ends in a state in which the request is in
    the active map; its events are the lock, the backend's policy check, the
    [SetCurrentUserID] of a first request, and the unlock as the last of
    them; none is a reset. The deferred closure runs on that very state: it
    is there that the backend is reset, with the lock released and the
    request registered, and the closure changes no server field. Over any
    run, the resets issued by registrations are as many as such transitions
    among its accepted registrations - not as many as its requests. *)
Theorem user_switch_reset (w : World LB) :
  reachable w ->
  (forall pick req ci od w',
     addActiveHTTPRequest pick req (Some ci) w = (Ok (Some od, None), w') ->
     exists p tr,
       lb (srv w) = Some p
       /\ fst (addActiveHTTPRequest_critical p pick req ci w)
          = Ok (user_transition ci (srv w), (Some od, None))
       /\ trace (snd (addActiveHTTPRequest_critical p pick req ci w)) = trace w ++ tr
       /\ tr = [EvLock; EvCall p (CheckIPNConnectionAllowed ci)]
                ++ (if first_request req ci (srv w)
                    then [EvCall p (SetCurrentUserID (WindowsUserID ci))] else [])
                ++ [EvUnlock]
       /\ mu_held false tr = false
       /\ count_calls ResetForClientDisconnect tr = 0%nat
       /\ activeReqs (srv (snd (addActiveHTTPRequest_critical p pick req ci w))) !! req
          = Some ci
       /\ addActiveHTTPRequest_deferred p (user_transition ci (srv w))
            (snd (addActiveHTTPRequest_critical p pick req ci w)) = (Ok tt, w')
       /\ w' = reset_if (user_transition ci (srv w)) p
                  (snd (addActiveHTTPRequest_critical p pick req ci w))
       /\ srv w' = srv (snd (addActiveHTTPRequest_critical p pick req ci w))
       /\ heap w' =
            (if user_transition ci (srv w)
             then heap_update p lb_ResetForClientDisconnect
                    (heap (snd (addActiveHTTPRequest_critical p pick req ci w)))
             else heap (snd (addActiveHTTPRequest_critical p pick req ci w)))
       /\ trace w' =
            trace w ++ tr ++
              (if user_transition ci (srv w)
               then [EvLogf "identity changed; resetting server";
                     EvCall p ResetForClientDisconnect]
               else [])
       /\ activeReqs (srv w') !! req = Some ci)
  /\ (forall ops, Forall admissible ops ->
        switch_resets ops w = user_transitions ops w).
Proof.
  intros Hw. pose proof (reachable_inv w Hw) as Hinv. split.
  - intros pick req ci od w' Hadd.
    destruct (addActiveHTTPRequest_accepted _ _ _ _ _ _ Hinv Hadd) as (p & Hv & -> & ->).
    pose proof (verdict_Accepted _ _ _ _ Hv) as (Hp & Hc & _).
    exists p,
      ([EvLock; EvCall p (CheckIPNConnectionAllowed ci)]
         ++ (if first_request req ci (srv w)
             then [EvCall p (SetCurrentUserID (WindowsUserID ci))] else [])
         ++ [EvUnlock]).
    rewrite (addActiveHTTPRequest_critical_accepted p pick req ci w Hv).
    rewrite (user_switch_transition pick req ci (srv w) Hinv Hc).
    rewrite addActiveHTTPRequest_deferred_eq. cbn [fst snd].
    assert (Hreg : activeReqs (srv (at_unlock p req ci (with_events w
                     [EvLock; EvCall p (CheckIPNConnectionAllowed ci)]))) !! req = Some ci).
    { unfold at_unlock. cbn [srv]. destruct (register_fields req ci (srv (with_events w
        [EvLock; EvCall p (CheckIPNConnectionAllowed ci)]))) as (-> & _).
      apply lookup_insert_eq. }
    split; [assumption|]. split; [reflexivity|].
    split; [unfold at_unlock; cbn [trace with_events srv]; rewrite <- !app_assoc; reflexivity|].
    split; [reflexivity|].
    split; [destruct (first_request req ci (srv w)); reflexivity|].
    split; [destruct (first_request req ci (srv w)); reflexivity|].
    split; [assumption|]. split; [reflexivity|]. split; [reflexivity|].
    rewrite srv_reset_if. split; [reflexivity|].
    split; [destruct (user_transition ci (srv w)); reflexivity|].
    split; [|assumption].
    rewrite reset_if_trace. unfold at_unlock. cbn [trace with_events srv].
    rewrite <- !app_assoc. reflexivity.
  - intros ops Hops. apply switch_resets_transitions; assumption.
Qed.

(** *** Binding and starting the backend *)

Lemma exec_lb_stable (op : Op LB) (w : World LB) (p : LBptr) :
  lb (srv w) = Some p -> lb (srv (exec op w)) = Some p.
Proof.
  intros Hp.
  destruct (exec_session op w) as [(_ & _ & Hlb)|[(pick & req & ci & q & _ & _ & ->)|(q & req & _ & ->)]].
  - apply Hlb. assumption.
  - destruct (register_fields req ci (srv w)) as (_ & -> & _). assumption.
  - assumption.
Qed.

Lemma exec_all_lb_stable (ops : list (Op LB)) (w : World LB) (p : LBptr) :
  lb (srv w) = Some p -> lb (srv (exec_all ops w)) = Some p.
Proof.
  revert w. induction ops as [|op ops IH]; intros w Hp; [assumption|].
  simpl. apply IH, exec_lb_stable, Hp.
Qed.

(** C4. On a server without a backend, [SetLocalBackend] with a non-nil
    backend returns and leaves that backend bound. Whatever happens next -
    starting the run loop included - the backend stays bound, and any further
    call of [SetLocalBackend] panics and changes nothing. The server [w] is
    arbitrary, so the run loop may also have started before the first call.
    A call with nil panics on every server. *)
Theorem SetLocalBackend_exactly_once (w w1 : World LB) (p : LBptr)
    (ops : list (Op LB)) (q : option LBptr) :
  lb (srv w) = None ->
  w1 = exec_all ops (snd (SetLocalBackend (Some p) w)) ->
  fst (SetLocalBackend (Some p) w) = Ok tt
  /\ lb (srv (snd (SetLocalBackend (Some p) w))) = Some p
  /\ lb (srv w1) = Some p
  /\ SetLocalBackend q w1 =
       (Panic (match q with Some _ => "already set" | None => "nil LocalBackend" end), w1)
  /\ (forall w0 : World LB, SetLocalBackend None w0 = (Panic "nil LocalBackend", w0)).
Proof.
  intros Hnone ->.
  assert (Hfirst : fst (SetLocalBackend (Some p) w) = Ok tt
                   /\ lb (srv (snd (SetLocalBackend (Some p) w))) = Some p).
  { rewrite SetLocalBackend_eq, Hnone, startBackendIfNeeded_eq. cbn [fst snd srv lb set_lb].
    split; [reflexivity|].
    destruct (runCalled _); [destruct (starts_backend _ _)|]; reflexivity. }
  destruct Hfirst as [Hok Hbound].
  pose proof (exec_all_lb_stable ops _ p Hbound) as Hstill.
  do 3 (split; [assumption|]). split.
  - rewrite SetLocalBackend_eq, Hstill. destruct q; reflexivity.
  - intros w0. apply SetLocalBackend_eq.
Qed.

Lemma at_unlock_no_start (p : LBptr) (req : Req) (ci : ConnIdentity) (w : World LB) (tr0 : list Event) :
  count_calls Start tr0 = 0%nat ->
  exists tr,
    trace (at_unlock p req ci (with_events w tr0)) = trace w ++ tr
    /\ count_calls Start tr = 0%nat.
Proof.
  intros Hnone. unfold at_unlock. cbn [trace with_events srv].
  exists (tr0 ++ (if first_request req ci (srv w)
                  then [EvCall p (SetCurrentUserID (WindowsUserID ci))] else [])
              ++ [EvUnlock]).
  split; [rewrite <- !app_assoc; reflexivity|].
  rewrite !count_calls_app, Hnone. destruct (first_request req ci (srv w)); reflexivity.
Qed.

(** The events of a step: [Start] is among them once if the step starts the
    backend and not at all otherwise, and the once-flag follows. *)
Lemma exec_starts (op : Op LB) (w : World LB) :
  exists tr,
    trace (exec op w) = trace w ++ tr
    /\ count_calls Start tr = (if op_starts op w then 1%nat else 0%nat)
    /\ startBackendOnce (srv (exec op w)) = startBackendOnce (srv w) || op_starts op w.
Proof.
  destruct op as [q| | |pick req [ci|]|p req|pick ci|p f]; cbn [exec op_starts].
  - rewrite SetLocalBackend_eq. destruct q as [q|]; [|no_events].
    destruct (lb (srv w)) eqn:Hlb; [no_events|].
    rewrite startBackendIfNeeded_eq. cbn [snd srv lb set_lb heap trace runCalled].
    destruct (runCalled (srv w)) eqn:Hrun.
    2:{ assert (Hs : starts_backend (set_lb (Some q) (srv w)) (heap w) = false)
          by (unfold starts_backend; cbn [runCalled set_lb]; rewrite Hrun; reflexivity).
        rewrite Hs. no_events. }
    destruct (starts_backend (set_lb (Some q) (srv w)) (heap w)) eqn:Hs.
    + eexists. split; [reflexivity|]. split; [reflexivity|].
      simpl. rewrite orb_true_r. reflexivity.
    + eexists. split; [reflexivity|]. split; [reflexivity|].
      simpl. rewrite orb_false_r. reflexivity.
  - rewrite Run_prologue_eq, startBackendIfNeeded_eq.
    cbn [snd srv lb runCalled set_runCalled heap trace with_events].
    destruct (lb (srv w)) eqn:Hlb; cbn [lb set_runCalled].
    2:{ unfold starts_backend. cbn [lb set_runCalled]. rewrite Hlb, andb_false_r.
        eexists. split; [reflexivity|]. rewrite orb_false_r. done. }
    destruct (starts_backend (set_runCalled true (srv w)) (heap w)) eqn:Hs.
    + eexists. split; [simpl; rewrite <- ?app_assoc; reflexivity|].
      split; [reflexivity|]. simpl. rewrite orb_true_r. reflexivity.
    + eexists. split; [simpl; rewrite <- ?app_assoc; reflexivity|].
      split; [reflexivity|]. simpl. rewrite orb_false_r. reflexivity.
  - rewrite Run_deferred_eq. cbn [snd]. rewrite orb_false_r.
    destruct (lb (srv w)); [eexists; done|exists []; rewrite app_nil_r; done].
  - rewrite orb_false_r, addActiveHTTPRequest_verdict.
    destruct (verdict pick ci w) as [|active|active u|p e|p]; cbn [snd];
      try (eexists; done).
    + exists []. rewrite app_nil_r. done.
    + destruct (at_unlock_no_start p req ci w
                  [EvLock; EvCall p (CheckIPNConnectionAllowed ci)] eq_refl)
        as (tr & Htr & Hcount).
      eexists. split; [rewrite reset_if_trace, Htr, <- app_assoc; reflexivity|].
      rewrite count_calls_app, Hcount, srv_reset_if. unfold at_unlock. cbn [srv with_events].
      destruct (register_fields req ci (srv w)) as (_ & _ & -> & _).
      split; [|reflexivity]. destruct (user_switch req ci (srv w)); reflexivity.
  - exists []. rewrite app_nil_r, orb_false_r. done.
  - rewrite onDone_eq, orb_false_r. cbn [snd trace srv]. eexists. split; [reflexivity|].
    split; [|reflexivity].
    destruct (size (delete req (activeReqs (srv w))) =? 0)%nat; simpl;
      [destruct (resetOnZero (srv w)); simpl;
         [destruct (lb_InServerMode (heap w p)); simpl|]|]; reflexivity.
  - destruct (localAPIPermissions_frame pick ci w) as (tr & -> & Hcount).
    exists tr. rewrite orb_false_r. done.
  - exists []. rewrite app_nil_r, orb_false_r. done.
Qed.

Lemma starts_backend_true (s : Server) (h : LBptr -> LB) :
  starts_backend s h = true ->
  runCalled s = true /\ startBackendOnce s = false
  /\ exists p, lb s = Some p /\ lb_PrefsValid (h p) = true.
Proof.
  unfold starts_backend. destruct (runCalled s); [|discriminate].
  destruct (lb s) as [p|]; [|discriminate].
  destruct (lb_PrefsValid (h p)) eqn:Hvalid; [|discriminate].
  destruct (startBackendOnce s); [discriminate|]. eauto.
Qed.

(** A step that starts the backend is one of the two transition points, and
    it starts the bound backend of a running server with valid prefs. *)
Lemma op_starts_true (op : Op LB) (w : World LB) :
  op_starts op w = true ->
  startBackendOnce (srv w) = false
  /\ exists p,
       lb (srv (exec op w)) = Some p
       /\ runCalled (srv (exec op w)) = true
       /\ lb_PrefsValid (heap w p) = true
       /\ In (EvCall p Start) (new_events w (exec op w))
       /\ (op = OpSetLocalBackend (Some p) \/ op = OpRunPrologue).
Proof.
  destruct op as [[q|]| | |pick req ci|p req|pick ci|p f]; cbn [op_starts exec];
    try discriminate.
  - destruct (lb (srv w)) eqn:Hlb; [discriminate|]. intros Hs.
    rewrite SetLocalBackend_eq, Hlb, startBackendIfNeeded_eq.
    cbn [snd srv lb set_lb heap trace runCalled]. rewrite Hs.
    apply starts_backend_true in Hs as (Hrun & Honce & p & [= <-] & Hvalid).
    cbn [runCalled set_lb startBackendOnce] in Hrun, Honce. rewrite Hrun.
    split; [assumption|]. exists q. do 3 (split; [done|]).
    split; [|left; reflexivity].
    erewrite new_events_app by reflexivity. simpl. tauto.
  - intros Hs. rewrite Run_prologue_eq, startBackendIfNeeded_eq.
    cbn [snd srv lb set_runCalled heap trace runCalled]. rewrite Hs.
    apply starts_backend_true in Hs as (_ & Honce & p & Hp & Hvalid).
    cbn [lb set_runCalled startBackendOnce] in Hp, Honce. rewrite Hp.
    split; [assumption|]. exists p. do 3 (split; [done|]).
    split; [|right; reflexivity].
    erewrite new_events_app by (simpl; rewrite <- app_assoc; reflexivity). simpl. tauto.
Qed.

Lemma exec_start_inv (op : Op LB) (w : World LB) : start_inv w -> start_inv (exec op w).
Proof.
  unfold start_inv. intros Hinv.
  destruct (exec_starts op w) as (tr & -> & Hcount & ->).
  rewrite count_calls_app, Hinv, Hcount.
  destruct (op_starts op w) eqn:Hs.
  - apply op_starts_true in Hs as [-> _]. reflexivity.
  - rewrite orb_false_r. destruct (startBackendOnce (srv w)); reflexivity.
Qed.

Lemma exec_all_start_inv (ops : list (Op LB)) (w : World LB) :
  start_inv w -> start_inv (exec_all ops w).
Proof.
  revert w. induction ops as [|op ops IH]; intros w Hinv; [assumption|].
  simpl. apply IH, exec_start_inv, Hinv.
Qed.

Lemma exec_all_once (ops : list (Op LB)) (w : World LB) :
  startBackendOnce (srv w) = true -> startBackendOnce (srv (exec_all ops w)) = true.
Proof.
  revert w. induction ops as [|op ops IH]; intros w Ho; [assumption|].
  simpl. apply IH. destruct (exec_starts op w) as (_ & _ & _ & ->). rewrite Ho. reflexivity.
Qed.

Lemma reachable_start_inv (w : World LB) : reachable w -> start_inv w.
Proof.
  induction 1 as [h|w op Hw IH Hop]; [reflexivity | apply exec_start_inv; assumption].
Qed.

Lemma bind_then_run_once (h : LBptr -> LB) (p : LBptr) :
  lb_PrefsValid (h p) = true ->
  startBackendOnce
    (srv (exec OpRunPrologue (exec (OpSetLocalBackend (Some p)) (mkWorld New h [])))) = true.
Proof.
  intros Hvalid. cbn [exec].
  rewrite SetLocalBackend_eq, Run_prologue_eq, !startBackendIfNeeded_eq.
  unfold starts_backend. simpl. rewrite Hvalid. reflexivity.
Qed.

Lemma run_then_bind_once (h : LBptr -> LB) (p : LBptr) :
  lb_PrefsValid (h p) = true ->
  startBackendOnce
    (srv (exec (OpSetLocalBackend (Some p)) (exec OpRunPrologue (mkWorld New h [])))) = true.
Proof.
  intros Hvalid. cbn [exec].
  rewrite SetLocalBackend_eq, Run_prologue_eq, !startBackendIfNeeded_eq.
  unfold starts_backend. simpl. rewrite Hvalid. reflexivity.
Qed.

(** C5. On a new server whose backend [p] has valid prefs, binding [p] and
    beginning [Run], in either order, calls [Start] exactly once, whatever
    follows. In every reachable state [Start] has been called at most once.
    A step calls [Start] only if it is [SetLocalBackend] or the beginning of
    [Run] - the two callers of [startBackendIfNeeded] - and leaves the
    started backend bound and the run loop begun, and only if the prefs of
    that backend were valid and [Start] had not been called before. *)
Theorem backend_started_exactly_once (h : LBptr -> LB) (p : LBptr) (ops : list (Op LB)) :
  lb_PrefsValid (h p) = true ->
  count_calls Start
    (trace (exec_all (OpSetLocalBackend (Some p) :: OpRunPrologue :: ops)
                     (mkWorld New h []))) = 1%nat
  /\ count_calls Start
       (trace (exec_all (OpRunPrologue :: OpSetLocalBackend (Some p) :: ops)
                        (mkWorld New h []))) = 1%nat
  /\ (forall w, reachable w -> (count_calls Start (trace w) <= 1)%nat)
  /\ (forall w op,
        count_calls Start (new_events w (exec op w)) =
          (if op_starts op w then 1%nat else 0%nat)
        /\ (op_starts op w = true ->
            startBackendOnce (srv w) = false
            /\ exists q,
                 lb (srv (exec op w)) = Some q
                 /\ runCalled (srv (exec op w)) = true
                 /\ lb_PrefsValid (heap w q) = true
                 /\ In (EvCall q Start) (new_events w (exec op w))
                 /\ (op = OpSetLocalBackend (Some q) \/ op = OpRunPrologue))).
Proof.
  intros Hvalid.
  assert (Hcount : forall w : World LB,
             start_inv w -> startBackendOnce (srv w) = true ->
             count_calls Start (trace (exec_all ops w)) = 1%nat).
  { intros w Hinv Ho. rewrite (exec_all_start_inv ops w Hinv), exec_all_once; done. }
  split; [|split; [|split]].
  - cbn [exec_all fold_left]. apply Hcount.
    + do 2 apply exec_start_inv. reflexivity.
    + apply bind_then_run_once, Hvalid.
  - cbn [exec_all fold_left]. apply Hcount.
    + do 2 apply exec_start_inv. reflexivity.
    + apply run_then_bind_once, Hvalid.
  - intros w Hw. rewrite (reachable_start_inv w Hw).
    destruct (startBackendOnce (srv w)); lia.
  - intros w op. split; [|apply op_starts_true].
    destruct (exec_starts op w) as (tr & Htr & Hc & _).
    erewrite new_events_app by eassumption. assumption.
Qed.

End RunFacts.

(** ** Concrete runs on the sample Windows host *)

Lemma resolved_alice : @resolved windows alice_ci.
Proof. exists (pipe 100). reflexivity. Qed.

Lemma resolved_bob : @resolved windows bob_ci.
Proof. exists (pipe 300). reflexivity. Qed.

Lemma reachable_alice_session : @reachable windows _ _ alice_session.
Proof.
  apply reachable_exec_all; [apply reachable_New|].
  repeat (apply List.Forall_cons; [first [exact I | exact resolved_alice]|]).
  apply List.Forall_nil.
Qed.

Lemma reachable_after_alice : @reachable windows _ _ after_alice.
Proof.
  apply reachable_exec_all; [apply reachable_alice_session|].
  apply List.Forall_cons; [exact I | apply List.Forall_nil].
Qed.

Lemma single_active_user_witness :
  activeReqs (srv alice_session) !! 1%nat = Some alice_ci
  /\ WindowsUserID bob_ci <> WindowsUserID alice_ci
  /\ Username alice = "alice" /\ Pid alice_ci = 100%Z
  /\ addActiveHTTPRequest 0 2%nat (Some bob_ci) alice_session =
       (Ok (None, Some (inUseOtherUserError
                          (errorString "Tailscale already in use by alice, pid 100"))),
        with_events alice_session [EvLock; EvUnlock])
  /\ exists r' a' u e,
       activeReqs (srv alice_session) !! r' = Some a'
       /\ WindowsUserID a' = WindowsUserID alice_ci
       /\ User a' = Some u
       /\ addActiveHTTPRequest 0 2%nat (Some bob_ci) alice_session =
            (Ok (None, Some e), with_events alice_session [EvLock; EvUnlock])
       /\ is_inUseOtherUserError e = true
       /\ Error e = "Tailscale already in use by " +:+ Username u +:+ ", pid "
                    +:+ pretty (Pid a')
       /\ e = inUseOtherUserError
                (errorString ("Tailscale already in use by " +:+ Username u +:+ ", pid "
                              +:+ pretty (Pid a')))
       /\ srv (snd (addActiveHTTPRequest 0 2%nat (Some bob_ci) alice_session))
          = srv alice_session
       /\ heap (snd (addActiveHTTPRequest 0 2%nat (Some bob_ci) alice_session))
          = heap alice_session.
Proof.
  split; [reflexivity|]. split; [discriminate|].
  split; [reflexivity|]. split; [reflexivity|]. split; [reflexivity|].
  apply (@single_active_user windows _ _ alice_session 0 2%nat bob_ci 1%nat alice_ci).
  - exact reachable_alice_session.
  - exact resolved_bob.
  - reflexivity.
  - discriminate.
Defined.

Lemma addActiveHTTPRequest_rejection_atomic_witness :
  addActiveHTTPRequest 0 2%nat (Some bob_ci) alice_session =
    (Ok (None, Some (inUseOtherUserError
                       (errorString "Tailscale already in use by alice, pid 100"))),
     with_events alice_session [EvLock; EvUnlock])
  /\ srv (with_events alice_session [EvLock; EvUnlock]) = srv alice_session
  /\ heap (with_events alice_session [EvLock; EvUnlock]) = heap alice_session.
Proof.
  split; [reflexivity|].
  destruct (@addActiveHTTPRequest_rejection_atomic _ _ 0 2%nat (Some bob_ci) alice_session
              (with_events alice_session [EvLock; EvUnlock]) None
              (inUseOtherUserError (errorString "Tailscale already in use by alice, pid 100")))
    as (_ & Hsrv & Hheap & _); [reflexivity|].
  split; assumption.
Defined.

Lemma user_switch_reset_witness :
  lastUserID (srv after_alice) = WindowsUserID alice_ci
  /\ @switch_resets windows _ _
       [OpAdd 0 2%nat (Some bob_ci); OpAdd 0 3%nat (Some bob_ci);
        OpDone 7%nat 2%nat; OpDone 7%nat 3%nat; OpAdd 0 4%nat (Some alice_ci)]
       after_alice = 2%nat
  /\ activeReqs (srv after_alice) !! 2%nat = None
  /\ activeReqs (srv (snd (addActiveHTTPRequest_critical 7%nat 0 2%nat bob_ci after_alice)))
       !! 2%nat = Some bob_ci
  /\ count_calls ResetForClientDisconnect
       (trace (snd (addActiveHTTPRequest_critical 7%nat 0 2%nat bob_ci after_alice)))
     = count_calls ResetForClientDisconnect (trace after_alice)
  /\ addActiveHTTPRequest_deferred 7%nat true
       (snd (addActiveHTTPRequest_critical 7%nat 0 2%nat bob_ci after_alice))
     = (Ok tt, snd (addActiveHTTPRequest 0 2%nat (Some bob_ci) after_alice))
  /\ count_calls ResetForClientDisconnect
       (trace (snd (addActiveHTTPRequest 0 2%nat (Some bob_ci) after_alice)))
     = S (count_calls ResetForClientDisconnect (trace after_alice)).
Proof.
  split; [reflexivity|].
  destruct (@user_switch_reset windows _ _ after_alice reachable_after_alice) as [Hone Hseq].
  split.
  { rewrite Hseq; [reflexivity|].
    repeat (apply List.Forall_cons; [first [exact I | exact resolved_alice | exact resolved_bob]|]).
    apply List.Forall_nil. }
  split; [reflexivity|].
  destruct (Hone 0 2%nat bob_ci (onDone 7%nat 2%nat)
              (snd (addActiveHTTPRequest 0 2%nat (Some bob_ci) after_alice)))
    as (p & tr & Hp & _ & Htr & _ & _ & Hcount & Hreg & Hdef & _ & _ & _ & Htr' & _);
    [reflexivity|].
  assert (Hp7 : p = 7%nat).
  { assert (Hl : lb (srv after_alice) = Some 7%nat) by reflexivity. congruence. }
  subst p.
  split; [exact Hreg|].
  split; [rewrite Htr, count_calls_app, Hcount; apply Nat.add_0_r|].
  split; [exact Hdef|].
  rewrite Htr', !count_calls_app, Hcount. reflexivity.
Defined.

Lemma SetLocalBackend_exactly_once_witness :
  lb (srv (world0 windows (idle ""))) = None
  /\ fst (SetLocalBackend (Some 7%nat) (world0 windows (idle ""))) = Ok tt
  /\ lb (srv alice_session) = Some 7%nat
  /\ SetLocalBackend (Some 8%nat) alice_session = (Panic "already set", alice_session).
Proof.
  split; [reflexivity|].
  destruct (@SetLocalBackend_exactly_once windows _ _ (world0 windows (idle "")) alice_session
              7%nat [OpRunPrologue; OpAdd 0 1%nat (Some alice_ci)] (Some 8%nat))
    as (Hok & _ & Hbound & Hpanic & _); [reflexivity | reflexivity |].
  do 2 (split; [assumption|]). exact Hpanic.
Defined.

Lemma backend_started_exactly_once_witness :
  lb_PrefsValid (idle "") = true
  /\ count_calls Start
       (trace (@exec_all windows _ _
                 [OpSetLocalBackend (Some 7%nat); OpRunPrologue; OpRunPrologue;
                  OpAdd 0 1%nat (Some alice_ci)]
                 (mkWorld (@New windows) (fun _ => idle "") []))) = 1%nat
  /\ count_calls Start
       (trace (@exec_all windows _ _
                 [OpRunPrologue; OpSetLocalBackend (Some 7%nat); OpRunPrologue;
                  OpAdd 0 1%nat (Some alice_ci)]
                 (mkWorld (@New windows) (fun _ => idle "") []))) = 1%nat.
Proof.
  split; [reflexivity|].
  destruct (@backend_started_exactly_once windows _ _ (fun _ => idle "") 7%nat
              [OpRunPrologue; OpAdd 0 1%nat (Some alice_ci)])
    as (H1 & H2 & _); [reflexivity|].
  split; assumption.
Defined.

(** ** Further properties of the resolvers and the permission calculator *)

Section MoreResolverFacts.

Context `{Host}.

(** X1. The Windows resolver succeeds exactly when the connection has a pipe
    handle, the process-id query returns a non-zero [r1], the owner of that
    process is found and its user record is found; the identity then carries
    that pid, user id and user record, and none of the unix fields. *)
Theorem getConnIdentity_windows_success (c : net_Conn) (ci : ConnIdentity) :
  getConnIdentity_windows c = (ci, None) <->
  exists h r1 pid e uid u,
    conn_handle c = Some h
    /\ procGetNamedPipeClientProcessId h = (r1, pid, e)
    /\ (0 < r1)%N
    /\ OwnerOfPID pid = (uid, None)
    /\ lookupUserFromID uid = inl u
    /\ ci = {| Conn := c; NotWindows := false; IsUnixSock := false; Creds := None;
               Pid := pid; UserID := uid; User := Some u |}.
Proof.
  unfold getConnIdentity_windows, getNamedPipeClientProcessId. split.
  - destruct (conn_handle c) as [h|]; [|discriminate].
    destruct (procGetNamedPipeClientProcessId h) as [[r1 pid] e] eqn:Hq.
    destruct (N.ltb_spec 0 r1) as [Hr|]; [|discriminate]. simpl.
    destruct (OwnerOfPID pid) as [uid [e'|]] eqn:Ho; [discriminate|].
    destruct (lookupUserFromID uid) as [u|e'] eqn:Hl; [|discriminate].
    intros [= <-]. exists h, r1, pid, e, uid, u.
    repeat split; first [assumption | reflexivity].
  - intros (h & r1 & pid & e & uid & u & -> & -> & Hr & Ho & Hl & ->).
    apply N.ltb_lt in Hr. rewrite Hr. simpl. rewrite Ho, Hl. reflexivity.
Qed.

(** X2. On a Windows build no identity the resolver produces may fetch
    certificates, whatever TS_PERMIT_CERT_UID says: the resolver never marks
    a connection as a unix socket. *)
Theorem windows_identity_cannot_fetch_certs (ci : ConnIdentity) :
  build_windows = true -> resolved ci -> connCanFetchCerts ci = false.
Proof.
  intros Hb [c Hc]. unfold getConnIdentity in Hc. rewrite Hb in Hc.
  unfold getConnIdentity_windows, getNamedPipeClientProcessId in Hc.
  destruct (conn_handle c) as [h|]; [|discriminate].
  destruct (procGetNamedPipeClientProcessId h) as [[r1 pid] e].
  destruct (0 <? r1)%N; [|discriminate]. simpl in Hc.
  destruct (OwnerOfPID pid) as [uid [e'|]]; [discriminate|].
  destruct (lookupUserFromID uid) as [u|e']; [|discriminate].
  injection Hc as <-. reflexivity.
Qed.

(** X3. Off Windows, resolving a connection and asking whether it may fetch
    certificates comes to this: the connection is a unix socket, its peer
    credentials were obtained with a known user id, and that id is the
    permitted one. *)
Theorem notwindows_cert_fetch_of_conn (c : net_Conn) :
  build_windows = false ->
  (connCanFetchCerts (fst (getConnIdentity c)) = true <->
   conn_is_unix c = true
   /\ exists creds,
        peercred_Get c = inl creds
        /\ creds_uid creds <> ""
        /\ creds_uid creds = userIDFromString (envknob_String "TS_PERMIT_CERT_UID")).
Proof.
  intros Hb. unfold getConnIdentity. rewrite Hb.
  rewrite connCanFetchCerts_true_iff. unfold getConnIdentity_notwindows, Creds_UserID. simpl.
  split.
  - intros [Hu (creds & Hc & Hid)]. split; [assumption|].
    destruct (peercred_Get c) as [cr|]; [|discriminate].
    injection Hc as ->. exists creds. split; [reflexivity|].
    injection Hid as Hid Hk. split; [|assumption].
    intros He. rewrite He in Hk. discriminate.
  - intros [Hu (creds & Hc & Hne & Hid)]. split; [assumption|].
    exists creds. rewrite Hc. split; [reflexivity|].
    rewrite <- Hid. f_equal. apply negb_true_iff, String.eqb_neq, Hne.
Qed.

End MoreResolverFacts.

Lemma windows_identity_cannot_fetch_certs_witness :
  @build_windows windows = true
  /\ @connCanFetchCerts windows alice_ci = false.
Proof.
  split; [reflexivity|].
  apply (@windows_identity_cannot_fetch_certs windows alice_ci);
    [reflexivity | exists (pipe 100); reflexivity].
Defined.

Lemma notwindows_cert_fetch_of_conn_witness :
  @build_windows (linux "1000") = false
  /\ @connCanFetchCerts (linux "1000") (fst (@getConnIdentity (linux "1000") (unixConn 0))) = true.
Proof.
  split; [reflexivity|].
  apply (@notwindows_cert_fetch_of_conn (linux "1000") (unixConn 0)); [reflexivity|].
  split; [reflexivity|]. eexists. split; [reflexivity|]. split; [discriminate|reflexivity].
Defined.

Section MorePermissionFacts.

Context `{Host} {LB : Type} `{LocalBackend LB}.

Lemma localAPIPermissions_eq (pick : nat) (ci : ConnIdentity) (w : World LB) :
  localAPIPermissions pick ci w =
    if String.eqb GOOS "windows" then
      match conflicting pick ci (srv w) with
      | Some active =>
          match User active with
          | None => (Panic "runtime error: invalid memory address or nil pointer dereference",
                     with_events w [EvLock; EvUnlock])
          | Some _ => (Ok (false, false), with_events w [EvLock; EvUnlock])
          end
      | None =>
          match lb (srv w) with
          | None => (Panic "unexpected: call to mustBackend in path where SetLocalBackend should've been called",
                     with_events w [EvLock; EvUnlock])
          | Some p =>
              (match lb_CheckIPNConnectionAllowed (heap w p) ci with
               | None => Ok (true, true)
               | Some _ => Ok (false, false)
               end,
               with_events w [EvLock; EvCall p (CheckIPNConnectionAllowed ci); EvUnlock])
          end
      end
    else if String.eqb GOOS "js" then (Ok (true, true), w)
    else if IsUnixSock ci then
      match lb (srv w) with
      | None => (Panic "unexpected: call to mustBackend in path where SetLocalBackend should've been called", w)
      | Some p => (Ok (true, negb (IsReadonlyConn ci (lb_OperatorUserID (heap w p)))),
                   with_events w [EvCall p OperatorUserID])
      end
    else (Ok (false, false), w).
Proof.
  unfold localAPIPermissions.
  destruct (String.eqb GOOS "windows").
  - unfold defer. cbv beta iota delta [bind mu_Lock mu_Unlock emit].
    fold (with_events w [EvLock]). rewrite checkConnIdentityLocked_eq. simpl.
    destruct (conflicting pick ci (srv w)) as [active|].
    + destruct (User active); simpl; unfold with_events; simpl;
        rewrite <- app_assoc; reflexivity.
    + destruct (lb (srv w)) as [p|]; simpl.
      * destruct (lb_CheckIPNConnectionAllowed (heap w p) ci); simpl;
          unfold with_events; simpl; rewrite <- !app_assoc; reflexivity.
      * unfold with_events; simpl; rewrite <- !app_assoc; reflexivity.
  - destruct (String.eqb GOOS "js"); [reflexivity|].
    destruct (IsUnixSock ci); [|reflexivity].
    msimpl. destruct (lb (srv w)); reflexivity.
Qed.

(** X4. Whatever the platform and the state, [localAPIPermissions] never
    grants write without read; on Windows and on js it grants both or
    neither. *)
Theorem localAPIPermissions_write_implies_read (pick : nat) (ci : ConnIdentity)
    (w : World LB) (rd wr : bool) :
  fst (localAPIPermissions pick ci w) = Ok (rd, wr) ->
  (wr = true -> rd = true)
  /\ (GOOS = "windows" \/ GOOS = "js" -> rd = wr).
Proof.
  rewrite localAPIPermissions_eq.
  destruct (String.eqb_spec GOOS "windows") as [Hw|Hw].
  - destruct (conflicting pick ci (srv w)) as [active|].
    + destruct (User active); simpl; [|discriminate]. intros [= <- <-]. done.
    + destruct (lb (srv w)) as [p|]; simpl; [|discriminate].
      destruct (lb_CheckIPNConnectionAllowed (heap w p) ci); intros [= <- <-]; done.
  - destruct (String.eqb_spec GOOS "js") as [Hj|Hj].
    + intros [= <- <-]. done.
    + destruct (IsUnixSock ci).
      * destruct (lb (srv w)); simpl; [|discriminate]. intros [= <- <-].
        split; [reflexivity|]. intros [?|?]; contradiction.
      * intros [= <- <-]. split; [discriminate|]. intros [?|?]; contradiction.
Qed.

(** X5. On every platform and every path, a panic included,
    [localAPIPermissions] leaves the server fields and the backend as they
    were; all it does is lock, unlock and ask the backend, and it returns
    with [s.mu] released. Off Windows it does not touch [s.mu]. *)
Theorem localAPIPermissions_read_only (pick : nat) (ci : ConnIdentity) (w : World LB) :
  exists tr,
    snd (localAPIPermissions pick ci w) = mkWorld (srv w) (heap w) (trace w ++ tr)
    /\ Forall read_only_event tr
    /\ mu_held false tr = false
    /\ (GOOS <> "windows" -> ~ In EvLock tr).
Proof.
  rewrite localAPIPermissions_eq. unfold with_events, read_only_event.
  destruct (String.eqb_spec GOOS "windows") as [Hw|Hw].
  - destruct (conflicting pick ci (srv w)) as [active|];
      [destruct (User active)|destruct (lb (srv w)) as [p|]]; simpl;
      (eexists; split; [reflexivity|]; split;
       [repeat (apply List.Forall_cons; [eauto 8|]); apply List.Forall_nil
       | split; [reflexivity | contradiction]]).
  - destruct (String.eqb GOOS "js");
      [|destruct (IsUnixSock ci); [destruct (lb (srv w)) as [p|]|]]; simpl;
      first [ exists []; rewrite app_nil_r; split; [destruct w; reflexivity|];
              split; [apply List.Forall_nil|]; split; [reflexivity|]; intros _ []
            | eexists; split; [reflexivity|]; split;
              [repeat (apply List.Forall_cons; [eauto 8|]); apply List.Forall_nil|];
              split; [reflexivity|]; intros _ [|[]]; discriminate ].
Qed.

End MorePermissionFacts.

Lemma localAPIPermissions_write_implies_read_witness :
  @GOOS windows = "windows"
  /\ exists rd wr,
       fst (@localAPIPermissions windows _ _ 0 alice_ci alice_session) = Ok (rd, wr)
       /\ wr = true /\ rd = true /\ rd = wr.
Proof.
  split; [reflexivity|]. exists true, true. split; [reflexivity|]. split; [reflexivity|].
  destruct (@localAPIPermissions_write_implies_read windows _ _ 0 alice_ci alice_session
              true true) as [Hread Hboth]; [reflexivity|].
  split; [apply Hread; reflexivity | apply Hboth; left; reflexivity].
Defined.

(** ** Further properties of the session tracker *)

Section MoreRunFacts.

Context `{Host} {LB : Type} `{LocalBackend LB}.

(** X6. In every reachable state the requests in flight all carry
    identities the resolver produced, all under one user id; if that id is
    not empty it is the recorded last user id; and requests are in flight
    only on a server with a backend. *)
Theorem session_invariant (w : World LB) :
  reachable w ->
  (forall r a, activeReqs (srv w) !! r = Some a -> resolved a)
  /\ (forall r1 a1 r2 a2,
        activeReqs (srv w) !! r1 = Some a1 -> activeReqs (srv w) !! r2 = Some a2 ->
        WindowsUserID a1 = WindowsUserID a2)
  /\ (forall r a,
        activeReqs (srv w) !! r = Some a -> WindowsUserID a <> "" ->
        lastUserID (srv w) = WindowsUserID a)
  /\ (activeReqs (srv w) <> ∅ -> is_Some (lb (srv w))).
Proof.
  intros Hw. destruct (reachable_inv w Hw) as [Hres Hsame Hlast Hbound].
  do 3 (split; [assumption|]).
  intros Hne. apply map_choose in Hne as (r & a & Hr). eauto.
Qed.

(** In a reachable state the identity comparison never reaches the nil
    user record of an entry. *)
Lemma verdict_not_NilUser (w : World LB) (pick : nat) (ci active : ConnIdentity) :
  reachable w -> resolved ci -> verdict pick ci w <> NilUser active.
Proof.
  intros Hw Hci. pose proof (reachable_inv w Hw) as Hinv. unfold verdict.
  destruct (lb (srv w)); [|discriminate].
  destruct (conflicting pick ci (srv w)) as [a|] eqn:Hc;
    [|destruct (lb_CheckIPNConnectionAllowed _ _); discriminate].
  destruct (User a) eqn:Hu; [discriminate|].
  exfalso. apply conflicting_Some in Hc as [[r Hr] Hne].
  destruct resolved_uniform as [Hall|Hall].
  - destruct (Hall a) as [u Hu']; [eapply inv_resolved; eassumption|]. congruence.
  - apply Hne. rewrite (Hall ci Hci). symmetry. apply Hall.
    eapply inv_resolved; eassumption.
Qed.

Lemma addActiveHTTPRequest_returns (w : World LB) (pick : nat) (req : Req)
    (ci : option ConnIdentity) :
  reachable w -> is_Some (lb (srv w)) ->
  match ci with Some c => resolved c | None => True end ->
  exists res, fst (addActiveHTTPRequest pick req ci w) = Ok res.
Proof.
  intros Hw [p Hp] Hci. destruct ci as [ci|]; [|eexists; reflexivity].
  rewrite addActiveHTTPRequest_verdict.
  destruct (verdict pick ci w) as [|active|active u|q e|q] eqn:Hv;
    try (eexists; reflexivity).
  - unfold verdict in Hv. rewrite Hp in Hv.
    destruct (conflicting pick ci (srv w)) as [a|];
      [destruct (User a)|destruct (lb_CheckIPNConnectionAllowed _ _)]; discriminate.
  - exfalso. eapply verdict_not_NilUser; eassumption.
Qed.

(** X7. In a reachable state with a backend bound, [addActiveHTTPRequest]
    returns for every identity the resolver produced, and for nil: neither
    [mustBackend] nor the dereference of [active.User()] panics. *)
Theorem addActiveHTTPRequest_never_panics (w : World LB) (pick : nat) (req : Req)
    (ci : option ConnIdentity) :
  reachable w -> is_Some (lb (srv w)) ->
  match ci with Some c => resolved c | None => True end ->
  exists res, fst (addActiveHTTPRequest pick req ci w) = Ok res.
Proof. apply addActiveHTTPRequest_returns. Qed.

(** X8. Registration and completion are inverse on the active map: when
    [addActiveHTTPRequest] accepts a request that was not registered, the
    request is in the map under its identity, and calling the returned
    [onDone] returns and puts the map back as it was - in any state. *)
Theorem register_then_done_round_trip (w w1 : World LB) (pick : nat) (req : Req)
    (ci : ConnIdentity) (od : M LB unit) :
  addActiveHTTPRequest pick req (Some ci) w = (Ok (Some od, None), w1) ->
  activeReqs (srv w) !! req = None ->
  activeReqs (srv w1) = <[req := ci]> (activeReqs (srv w))
  /\ activeReqs (srv w1) !! req = Some ci
  /\ fst (od w1) = Ok tt
  /\ activeReqs (srv (snd (od w1))) = activeReqs (srv w).
Proof.
  rewrite addActiveHTTPRequest_verdict.
  destruct (verdict pick ci w) as [|active|active u|p e|p]; try discriminate.
  intros [= <- <-] Hfresh. rewrite onDone_eq, srv_reset_if. unfold at_unlock. cbn [fst snd srv].
  destruct (register_fields req ci (srv (with_events w
              [EvLock; EvCall p (CheckIPNConnectionAllowed ci)]))) as (-> & _).
  cbn [srv with_events activeReqs set_activeReqs].
  split; [reflexivity|]. split; [apply lookup_insert_eq|]. split; [reflexivity|].
  rewrite delete_insert_eq. apply delete_id. assumption.
Qed.

End MoreRunFacts.

Section MoreSessionFacts.

Context `{Host} {LB : Type} `{LocalBackend LB}.

Lemma insert_size_other (m : gmap nat ConnIdentity) (req r : nat) (ci a : ConnIdentity) :
  m !! r = Some a -> r <> req -> (size (<[req := ci]> m) =? 1)%nat = false.
Proof.
  intros Hr Hne. apply Nat.eqb_neq.
  rewrite <- insert_delete_eq, map_size_insert_None by apply lookup_delete_eq.
  assert (Hpos : (0 < size (delete req m))%nat).
  { apply (lookup_size_pos _ r a). apply lookup_delete_Some. split; [auto|assumption]. }
  lia.
Qed.

Lemma same_user_no_conflict (pick : nat) (ci : ConnIdentity) (s : Server) :
  session_inv s ->
  (forall r a, activeReqs s !! r = Some a -> WindowsUserID ci = WindowsUserID a) ->
  conflicting pick ci s = None.
Proof.
  intros Hinv Hsame. destruct (conflicting pick ci s) as [active|] eqn:Hc; [|reflexivity].
  apply conflicting_Some in Hc as [[r Hr] Hne]. exfalso. eauto.
Qed.

(** X9. While a request of a user is in flight, a further request of the
    same user that the backend allows is accepted without telling the
    backend anything: no [SetCurrentUserID], no reset, the last user id and
    the backend unchanged; the call only locks, asks the backend's policy
    and unlocks. *)
Theorem same_user_joins_quietly (w : World LB) (pick : nat) (req r : Req)
    (ci a : ConnIdentity) (p : LBptr) :
  reachable w ->
  activeReqs (srv w) !! r = Some a -> r <> req ->
  WindowsUserID ci = WindowsUserID a ->
  lb (srv w) = Some p ->
  lb_CheckIPNConnectionAllowed (heap w p) ci = None ->
  addActiveHTTPRequest pick req (Some ci) w =
    (Ok (Some (onDone p req), None),
     mkWorld (set_activeReqs (<[req := ci]> (activeReqs (srv w))) (srv w))
             (heap w)
             (trace w ++ [EvLock; EvCall p (CheckIPNConnectionAllowed ci); EvUnlock])).
Proof.
  intros Hw Hr Hne Hsame Hp Hallow.
  pose proof (reachable_inv w Hw) as Hinv.
  assert (Hc : conflicting pick ci (srv w) = None).
  { apply same_user_no_conflict; [assumption|]. intros r' a' Hr'. rewrite Hsame.
    eapply inv_same_user; eassumption. }
  rewrite addActiveHTTPRequest_verdict. unfold verdict. rewrite Hp, Hc, Hallow.
  unfold reset_if, at_unlock, user_switch, user_changed, register, user_changed, first_request.
  cbn [srv with_events heap trace].
  rewrite (insert_size_other _ req r ci a Hr Hne), !andb_false_r. cbn.
  rewrite <- app_assoc. reflexivity.
Qed.

(** On a build that is not Windows the last user id stays empty. *)
Lemma notwindows_lastUserID (w : World LB) :
  build_windows = false -> reachable w -> lastUserID (srv w) = "".
Proof.
  intros Hb. induction 1 as [h|w op Hw IH Hop]; [reflexivity|].
  destruct (exec_session op w) as [(_ & Hl & _)|[(pick & req & ci & p & -> & _ & ->)|(p & req & _ & ->)]].
  - congruence.
  - destruct (register_fields req ci (srv w)) as (_ & _ & _ & _ & _ & ->).
    unfold user_changed, first_request.
    destruct Hop as [c Hc]. unfold getConnIdentity in Hc. rewrite Hb in Hc.
    rewrite (getConnIdentity_notwindows_UserID c ci Hc). simpl. assumption.
  - assumption.
Qed.

(** X10. On a build that is not Windows the single-user check never refuses
    anyone: in a reachable state with a backend bound, a registration is
    decided by the backend's policy alone, it never calls
    [SetCurrentUserID] or resets, and the last user id stays empty. *)
Theorem notwindows_registration_is_policy_only (w : World LB) (pick : nat) (req : Req)
    (ci : ConnIdentity) (p : LBptr) :
  build_windows = false -> reachable w -> resolved ci -> lb (srv w) = Some p ->
  lastUserID (srv w) = ""
  /\ addActiveHTTPRequest pick req (Some ci) w =
       match lb_CheckIPNConnectionAllowed (heap w p) ci with
       | Some e =>
           (Ok (None, Some (inUseOtherUserError e)),
            mkWorld (srv w) (heap w)
                    (trace w ++ [EvLock; EvCall p (CheckIPNConnectionAllowed ci); EvUnlock]))
       | None =>
           (Ok (Some (onDone p req), None),
            mkWorld (set_activeReqs (<[req := ci]> (activeReqs (srv w))) (srv w)) (heap w)
                    (trace w ++ [EvLock; EvCall p (CheckIPNConnectionAllowed ci); EvUnlock]))
       end.
Proof.
  intros Hb Hw Hci Hp. split; [apply notwindows_lastUserID; assumption|].
  pose proof (reachable_inv w Hw) as Hinv.
  assert (Huid : forall c, resolved c -> WindowsUserID c = "").
  { intros c [k Hk]. unfold getConnIdentity in Hk. rewrite Hb in Hk.
    eapply getConnIdentity_notwindows_UserID; eassumption. }
  assert (Hc : conflicting pick ci (srv w) = None).
  { apply same_user_no_conflict; [assumption|]. intros r a Hr.
    rewrite (Huid ci Hci). symmetry. apply Huid. eapply inv_resolved; eassumption. }
  rewrite addActiveHTTPRequest_verdict. unfold verdict. rewrite Hp, Hc.
  destruct (lb_CheckIPNConnectionAllowed (heap w p) ci); [reflexivity|].
  unfold reset_if, at_unlock, user_switch, user_changed, register, user_changed, first_request.
  cbn [srv with_events heap trace]. rewrite (Huid ci Hci). cbn.
  rewrite <- app_assoc. reflexivity.
Qed.

(** X11. Every error of [checkConnIdentityLocked] is an
    [inUseOtherUserError], as its comment promises, and so is every error of
    [addActiveHTTPRequest] for a non-nil identity. The error wraps either the
    backend's own error, unchanged, or the message naming the user in the
    way; its text is the text of what it wraps. For a nil identity the error
    is the plain internal error. *)
Theorem registration_errors (w w' : World LB) (pick : nat) (req : Req)
    (ci : option ConnIdentity) (od : option (M LB unit)) (e : error) :
  addActiveHTTPRequest pick req ci w = (Ok (od, Some e), w') ->
  match ci with
  | None => e = errorString "internal error: nil connIdentity"
  | Some c =>
      exists inner,
        e = inUseOtherUserError inner
        /\ is_inUseOtherUserError e = true
        /\ Unwrap e = Some inner
        /\ Error e = Error inner
        /\ ((exists p, lb (srv w) = Some p
                       /\ lb_CheckIPNConnectionAllowed (heap w p) c = Some inner)
            \/ (exists r active u,
                  activeReqs (srv w) !! r = Some active
                  /\ User active = Some u
                  /\ WindowsUserID c <> WindowsUserID active
                  /\ inner = errorString (inUseMessage (Username u) (Pid active))))
  end
  /\ forall c e', fst (checkConnIdentityLocked pick c w) = Ok (Some e') ->
                  is_inUseOtherUserError e' = true.
Proof.
  intros Hadd. split.
  - destruct ci as [c|]; [|injection Hadd as _ <- _; reflexivity].
    rewrite addActiveHTTPRequest_verdict in Hadd. unfold verdict in Hadd.
    destruct (lb (srv w)) as [p|] eqn:Hp; [|discriminate].
    destruct (conflicting pick c (srv w)) as [active|] eqn:Hc.
    + destruct (User active) as [u|] eqn:Hu; [|discriminate].
      injection Hadd as _ <- _. eexists. do 4 (split; [reflexivity|]). right.
      apply conflicting_Some in Hc as [[r Hr] Hne]. exists r, active, u. done.
    + destruct (lb_CheckIPNConnectionAllowed (heap w p) c) as [err|] eqn:Ha; [|discriminate].
      injection Hadd as _ <- _. eexists. do 4 (split; [reflexivity|]). left. eauto.
  - intros c e'. rewrite checkConnIdentityLocked_eq.
    destruct (conflicting pick c (srv w)) as [active|].
    + destruct (User active); [|discriminate]. intros [= <-]. reflexivity.
    + destruct (lb (srv w)) as [p|]; [|discriminate]. simpl.
      destruct (lb_CheckIPNConnectionAllowed (heap w p) c); [|discriminate].
      intros [= <-]. reflexivity.
Qed.

End MoreSessionFacts.

Section MoreLifecycleFacts.

Context `{Host} {LB : Type} `{LocalBackend LB}.

(** No step changes [resetOnZero], and none clears [runCalled]. *)
Lemma exec_static (op : Op LB) (w : World LB) :
  resetOnZero (srv (exec op w)) = resetOnZero (srv w)
  /\ (runCalled (srv w) = true -> runCalled (srv (exec op w)) = true).
Proof.
  destruct op as [q| | |pick req [ci|]|p req|pick ci|p f]; cbn [exec].
  - rewrite SetLocalBackend_eq. destruct q as [q|]; [|frame_done].
    destruct (lb (srv w)) eqn:Hlb; [frame_done|].
    rewrite startBackendIfNeeded_eq. simpl.
    destruct (runCalled (srv w)) eqn:Hr; [|frame_done].
    destruct (starts_backend _ _); frame_done.
  - rewrite Run_prologue_eq, startBackendIfNeeded_eq. simpl.
    destruct (lb (srv w)) eqn:Hlb; [|frame_done].
    destruct (starts_backend _ _); frame_done.
  - rewrite Run_deferred_eq. simpl. destruct (lb (srv w)) eqn:Hlb; frame_done.
  - rewrite addActiveHTTPRequest_verdict.
    destruct (verdict pick ci w) eqn:Hv; simpl; try frame_done.
    rewrite srv_reset_if. unfold at_unlock. cbn [srv with_events].
    destruct (register_fields req ci (srv w)) as (_ & _ & _ & -> & -> & _). done.
  - frame_done.
  - rewrite onDone_eq. frame_done.
  - destruct (localAPIPermissions_frame pick ci w) as (tr & -> & _). frame_done.
  - frame_done.
Qed.

Lemma reachable_resetOnZero (w : World LB) :
  reachable w -> resetOnZero (srv w) = String.eqb GOOS "windows".
Proof.
  induction 1 as [h|w op Hw IH Hop]; [reflexivity|].
  destruct (exec_static op w) as [-> _]. assumption.
Qed.

(** X12. The reset on going idle is for Windows only. In every reachable
    state [resetOnZero] is what [New] set it to, and off Windows [onDone]
    only removes the request: it asks the backend nothing and resets
    nothing, even when the last request ends. *)
Theorem idle_reset_only_on_windows (w : World LB) (p : LBptr) (req : Req) :
  reachable w -> GOOS <> "windows" ->
  resetOnZero (srv w) = false
  /\ onDone p req w =
       (Ok tt,
        mkWorld (set_activeReqs (delete req (activeReqs (srv w))) (srv w)) (heap w)
                (trace w ++ [EvLock; EvUnlock])).
Proof.
  intros Hw Hg.
  assert (Hz : resetOnZero (srv w) = false).
  { rewrite (reachable_resetOnZero w Hw). apply String.eqb_neq. assumption. }
  split; [assumption|].
  rewrite onDone_eq. unfold idle_reset. rewrite Hz, !andb_false_r. reflexivity.
Qed.

(** X13. Lock discipline. Whatever a step is and wherever it starts, it
    returns with [s.mu] released - also when it panics - and the only
    backend methods it calls while holding [s.mu] are
    [CheckIPNConnectionAllowed] and [SetCurrentUserID]: resets, [Start],
    [Shutdown] and the other queries all happen with the lock released. *)
Theorem lock_discipline (op : Op LB) (w : World LB) :
  lock_disciplined (new_events w (exec op w)).
Proof.
  destruct op as [q| | |pick req [ci|]|p req|pick ci|p f]; cbn [exec].
  - rewrite SetLocalBackend_eq. destruct q as [q|].
    2:{ erewrite new_events_app by (symmetry; apply app_nil_r). disciplined. }
    destruct (lb (srv w)) eqn:Hlb.
    { erewrite new_events_app by (symmetry; apply app_nil_r). disciplined. }
    rewrite startBackendIfNeeded_eq. cbn [snd srv lb set_lb heap trace runCalled].
    destruct (runCalled (srv w)).
    2:{ erewrite new_events_app by (symmetry; apply app_nil_r). disciplined. }
    destruct (starts_backend _ _);
      (erewrite new_events_app by reflexivity; disciplined).
  - rewrite Run_prologue_eq, startBackendIfNeeded_eq.
    cbn [snd srv lb runCalled set_runCalled heap trace with_events].
    destruct (lb (srv w)) eqn:Hlb; cbn [lb set_runCalled].
    2:{ erewrite new_events_app by reflexivity. disciplined. }
    destruct (starts_backend _ _);
      (erewrite new_events_app by (simpl; rewrite <- ?app_assoc; reflexivity); disciplined).
  - rewrite Run_deferred_eq. cbn [snd].
    destruct (lb (srv w));
      [erewrite new_events_app by reflexivity
      |erewrite new_events_app by (symmetry; apply app_nil_r)]; disciplined.
  - rewrite addActiveHTTPRequest_verdict.
    destruct (verdict pick ci w) as [|active|active u|p e|p]; cbn [snd].
    + erewrite new_events_app by (symmetry; apply app_nil_r). disciplined.
    + erewrite new_events_app by reflexivity. disciplined.
    + erewrite new_events_app by reflexivity. disciplined.
    + erewrite new_events_app by reflexivity. disciplined.
    + unfold reset_if, at_unlock. cbn [srv with_events trace].
      destruct (user_switch req ci (srv w)), (first_request req ci (srv w));
        (erewrite new_events_app by (simpl; rewrite <- ?app_assoc; reflexivity); disciplined).
  - erewrite new_events_app by (symmetry; apply app_nil_r). disciplined.
  - rewrite onDone_eq. cbn [snd trace].
    destruct (size (delete req (activeReqs (srv w))) =? 0)%nat; simpl;
      [destruct (resetOnZero (srv w)); simpl;
         [destruct (lb_InServerMode (heap w p)); simpl|]|];
      (erewrite new_events_app by reflexivity; disciplined).
  - rewrite localAPIPermissions_eq.
    destruct (String.eqb GOOS "windows").
    + destruct (conflicting pick ci (srv w)) as [active|];
        [destruct (User active)|destruct (lb (srv w)) as [p|]]; cbn [snd];
        (erewrite new_events_app by reflexivity; disciplined).
    + destruct (String.eqb GOOS "js");
        [|destruct (IsUnixSock ci); [destruct (lb (srv w)) as [p|]|]]; cbn [snd];
        first [ erewrite new_events_app by reflexivity; disciplined
              | erewrite new_events_app by (symmetry; apply app_nil_r); disciplined ].
  - erewrite new_events_app by (symmetry; apply app_nil_r). disciplined.
Qed.

Lemma reachable_started (w : World LB) :
  reachable w -> startBackendOnce (srv w) = true ->
  is_Some (lb (srv w)) /\ runCalled (srv w) = true.
Proof.
  induction 1 as [h|w op Hw IH Hop]; [discriminate|].
  destruct (exec_starts op w) as (_ & _ & _ & ->).
  destruct (op_starts op w) eqn:Hs.
  - intros _. apply op_starts_true in Hs as (_ & p & Hp & Hrun & _). rewrite Hp. eauto.
  - rewrite orb_false_r. intros Ho. destruct (IH Ho) as [[p Hp] Hrun].
    rewrite (exec_lb_stable op w p Hp). split; [eauto|].
    apply exec_static. assumption.
Qed.

(** X14. [Start] is never called before the backend is bound and [Run] has
    begun: in every reachable state in which [Start] has been called, the
    server has a backend and [runCalled] is set. *)
Theorem start_requires_bind_and_run (w : World LB) :
  reachable w -> (0 < count_calls Start (trace w))%nat ->
  is_Some (lb (srv w)) /\ runCalled (srv w) = true.
Proof.
  intros Hw Hc. apply reachable_started; [assumption|].
  rewrite (reachable_start_inv w Hw) in Hc.
  destruct (startBackendOnce (srv w)); [reflexivity|lia].
Qed.

End MoreLifecycleFacts.

(** ** Concrete runs for the further properties *)

Lemma resolved_scenarioA : @resolved (linux "") scenarioA_ci.
Proof. exists (unixConn 0). reflexivity. Qed.

Lemma reachable_linux_session : @reachable (linux "") _ _ linux_session.
Proof.
  apply reachable_exec_all; [apply reachable_New|].
  repeat (apply List.Forall_cons; [first [exact I | exact resolved_scenarioA]|]).
  apply List.Forall_nil.
Qed.

Lemma session_invariant_witness :
  lastUserID (srv alice_session) = WindowsUserID alice_ci
  /\ is_Some (lb (srv alice_session)).
Proof.
  destruct (@session_invariant windows _ _ alice_session reachable_alice_session)
    as (_ & _ & Hlast & Hbound).
  split.
  - apply (Hlast 1%nat alice_ci); [reflexivity | discriminate].
  - apply Hbound. intros He.
    assert (Hl : activeReqs (srv alice_session) !! 1%nat = Some alice_ci) by reflexivity.
    rewrite He in Hl. discriminate.
Defined.

Lemma addActiveHTTPRequest_never_panics_witness :
  exists res, fst (addActiveHTTPRequest 0 2%nat (Some bob_ci) alice_session) = Ok res.
Proof.
  apply (@addActiveHTTPRequest_never_panics windows _ _ alice_session 0 2%nat (Some bob_ci)).
  - exact reachable_alice_session.
  - exists 7%nat. reflexivity.
  - exact resolved_bob.
Defined.

Lemma register_then_done_round_trip_witness :
  activeReqs (srv windows_running) !! 1%nat = None
  /\ activeReqs (srv alice_session) !! 1%nat = Some alice_ci
  /\ activeReqs (srv (snd (onDone 7%nat 1%nat alice_session)))
     = activeReqs (srv windows_running).
Proof.
  split; [reflexivity|].
  destruct (@register_then_done_round_trip _ _ windows_running alice_session
              0 1%nat alice_ci (onDone 7%nat 1%nat))
    as (_ & Hin & _ & Hback); [reflexivity | reflexivity |].
  split; assumption.
Defined.

Lemma same_user_joins_quietly_witness :
  activeReqs (srv alice_session) !! 1%nat = Some alice_ci
  /\ addActiveHTTPRequest 0 2%nat (Some alice_ci) alice_session =
       (Ok (Some (onDone 7%nat 2%nat), None),
        mkWorld (set_activeReqs (<[2%nat := alice_ci]> (activeReqs (srv alice_session)))
                                (srv alice_session))
                (heap alice_session)
                (trace alice_session
                   ++ [EvLock; EvCall 7%nat (CheckIPNConnectionAllowed alice_ci); EvUnlock])).
Proof.
  split; [reflexivity|].
  apply (@same_user_joins_quietly windows _ _ alice_session 0 2%nat 1%nat alice_ci alice_ci 7%nat).
  - exact reachable_alice_session.
  - reflexivity.
  - discriminate.
  - reflexivity.
  - reflexivity.
  - reflexivity.
Defined.

Lemma notwindows_registration_is_policy_only_witness :
  @build_windows (linux "") = false
  /\ lastUserID (srv linux_session) = ""
  /\ fst (addActiveHTTPRequest 0 2%nat (Some scenarioA_ci) linux_session)
     = Ok (Some (onDone 7%nat 2%nat), None).
Proof.
  split; [reflexivity|].
  destruct (@notwindows_registration_is_policy_only (linux "") _ _ linux_session 0 2%nat
              scenarioA_ci 7%nat) as [Hlast Hadd].
  - reflexivity.
  - exact reachable_linux_session.
  - exact resolved_scenarioA.
  - reflexivity.
  - split; [assumption|]. rewrite Hadd. reflexivity.
Defined.

Lemma registration_errors_witness :
  exists inner,
    inUseOtherUserError (errorString "Tailscale already in use by alice, pid 100")
      = inUseOtherUserError inner
    /\ Error (inUseOtherUserError (errorString "Tailscale already in use by alice, pid 100"))
       = Error inner.
Proof.
  destruct (@registration_errors _ _ alice_session
              (with_events alice_session [EvLock; EvUnlock]) 0 2%nat (Some bob_ci) None
              (inUseOtherUserError (errorString "Tailscale already in use by alice, pid 100")))
    as [(inner & He & _ & _ & Herr & _) _]; [reflexivity|].
  exists inner. split; assumption.
Defined.

Lemma idle_reset_only_on_windows_witness :
  @GOOS (linux "") <> "windows"
  /\ resetOnZero (srv linux_session) = false
  /\ count_calls ResetForClientDisconnect
       (trace (snd (onDone 7%nat 1%nat linux_session)))
     = count_calls ResetForClientDisconnect (trace linux_session).
Proof.
  split; [discriminate|].
  destruct (@idle_reset_only_on_windows (linux "") _ _ linux_session 7%nat 1%nat)
    as [Hz Hdone]; [exact reachable_linux_session | discriminate |].
  split; [assumption|]. rewrite Hdone. reflexivity.
Defined.

Lemma start_requires_bind_and_run_witness :
  (0 < count_calls Start (trace alice_session))%nat
  /\ is_Some (lb (srv alice_session))
  /\ runCalled (srv alice_session) = true.
Proof.
  assert (Hc : (0 < count_calls Start (trace alice_session))%nat) by (vm_compute; lia).
  split; [assumption|].
  apply (@start_requires_bind_and_run windows _ _ alice_session);
    [exact reachable_alice_session | assumption].
Defined.

(** ** The HTTP handler *)

Section HTTPFacts.

Context `{Host} {LB : Type} `{LocalBackend LB} `{Handlers LB}.

Lemma registered_fields (p : LBptr) (req : Req) (ci : ConnIdentity) (w : World LB) :
  activeReqs (srv (registered p req ci w)) = <[req := ci]> (activeReqs (srv w))
  /\ lb (srv (registered p req ci w)) = lb (srv w)
  /\ startBackendOnce (srv (registered p req ci w)) = startBackendOnce (srv w)
  /\ runCalled (srv (registered p req ci w)) = runCalled (srv w)
  /\ resetOnZero (srv (registered p req ci w)) = resetOnZero (srv w).
Proof.
  unfold registered. rewrite srv_reset_if. unfold at_unlock. cbn [srv with_events].
  destruct (register_fields req ci (srv w)) as (-> & -> & -> & -> & -> & _). done.
Qed.

Lemma registered_exec (pick : nat) (p : LBptr) (req : Req) (ci : ConnIdentity) (w : World LB) :
  verdict pick ci w = Accepted p ->
  exec (OpAdd pick req (Some ci)) w = registered p req ci w.
Proof. intros Hv. cbn [exec]. rewrite addActiveHTTPRequest_verdict, Hv. reflexivity. Qed.

(** [serveHTTP], case by case. *)
Lemma serveHTTP_eq (pick pick' : nat) (r : http_Request) (w : World LB) :
  serveHTTP pick pick' r w =
    if String.eqb (Method r) "CONNECT" then
      if String.eqb GOOS "windows" then
        match handleProxyConnectConn r w with
        | (Ok _, w1) => (Ok ProxyConnect, w1)
        | (Panic msg, w1) => (Panic msg, w1)
        end
      else (Ok (http_Error "bad method for platform" StatusMethodNotAllowed), w)
    else
      match lb (srv w) with
      | None => (Ok (http_Error "no backend" StatusServiceUnavailable), w)
      | Some p =>
          match ctx_connIdentity r with
          | CtxError v => (Ok (http_Error (Error v) StatusUnauthorized), w)
          | CtxNil => (Ok (http_Error "internal error: no connIdentityContextKey"
                                      StatusInternalServerError), w)
          | CtxConnIdentity (Some ci) =>
              match verdict pick ci w with
              | NoBackend =>
                  (Panic "unexpected: call to mustBackend in path where SetLocalBackend should've been called", w)
              | NilUser _ =>
                  (Panic "runtime error: invalid memory address or nil pointer dereference",
                   with_events w [EvLock; EvUnlock])
              | Conflict active u =>
                  (Ok (http_Error (inUseMessage (Username u) (Pid active)) StatusUnauthorized),
                   with_events w [EvLock; EvUnlock])
              | Denied q e =>
                  (Ok (http_Error (Error e) StatusUnauthorized),
                   with_events w [EvLock; EvCall q (CheckIPNConnectionAllowed ci); EvUnlock])
              | Accepted q =>
                  (fst (serveHTTP_registered p pick' r ci (registered q (req_ptr r) ci w)),
                   snd (onDone q (req_ptr r)
                          (snd (serveHTTP_registered p pick' r ci
                                  (registered q (req_ptr r) ci w)))))
              end
          | _ => (Ok (http_Error "internal error: nil connIdentity" StatusUnauthorized), w)
          end
      end.
Proof.
  unfold serveHTTP.
  destruct (String.eqb (Method r) "CONNECT").
  { destruct (String.eqb GOOS "windows"); [|reflexivity].
    unfold bind, ret. destruct (handleProxyConnectConn r w) as [[[]|msg] w1]; reflexivity. }
  cbv beta iota delta [bind get_srv].
  destruct (lb (srv w)) as [p|]; [|reflexivity].
  destruct (ctx_connIdentity r) as [[ci|]|v| |]; try reflexivity.
  rewrite addActiveHTTPRequest_verdict.
  destruct (verdict pick ci w) as [|active|active u|q e|q]; try reflexivity.
  cbv beta iota delta [snd fst defer]. fold (registered q (req_ptr r) ci w).
  destruct (serveHTTP_registered p pick' r ci (registered q (req_ptr r) ci w)) as [res w2].
  cbv beta iota delta [snd fst].
  destruct (onDone q (req_ptr r) w2) as [u w3]. reflexivity.
Qed.

Lemma on_backend_frame (p : LBptr) (h : LB -> Result unit * LB) (w : World LB) :
  srv (snd (on_backend p h w)) = srv w
  /\ trace (snd (on_backend p h w)) = trace w
  /\ fst (on_backend p h w) = fst (h (heap w p)).
Proof. unfold on_backend. destruct (h (heap w p)). done. Qed.

(** What [ServeHTMLStatus] does, case by case. *)
Lemma ServeHTMLStatus_eq (r : http_Request) (w : World LB) :
  ServeHTMLStatus r w =
    match lb (srv w) with
    | None => (Ok (http_Error "no LocalBackend" StatusServiceUnavailable), w)
    | Some p =>
        if negb (String.prefix "localhost:" (req_Host r)) && host_has_letter (req_Host r)
        then (Ok (http_Error "invalid host" StatusForbidden), w)
        else
          (match fst (Status_WriteHTML r (heap w p)) with
           | Ok _ =>
               Ok (HTMLStatus
                     [("Content-Security-Policy",
                       "default-src 'none'; frame-ancestors 'none'; script-src 'none'; script-src-elem 'none'; script-src-attr 'none'");
                      ("X-Frame-Options", "DENY");
                      ("X-Content-Type-Options", "nosniff");
                      ("Content-Type", "text/html; charset=utf-8")])
           | Panic msg => Panic msg
           end,
           snd (on_backend p (Status_WriteHTML r) w))
    end.
Proof.
  unfold ServeHTMLStatus. cbv beta iota delta [bind get_srv ret].
  destruct (lb (srv w)) as [p|]; [|reflexivity].
  destruct (negb _ && _); [reflexivity|].
  unfold on_backend. destruct (Status_WriteHTML r (heap w p)) as [[[]|msg] b]; reflexivity.
Qed.

(** The served part of [serveHTTP] leaves the server fields alone. *)
Lemma serveHTTP_registered_srv (p : LBptr) (pick : nat) (r : http_Request) (ci : ConnIdentity)
    (w : World LB) :
  srv (snd (serveHTTP_registered p pick r ci w)) = srv w.
Proof.
  unfold serveHTTP_registered.
  destruct (String.prefix "/localapi/" (URL_Path r)).
  - cbv beta iota delta [bind ret].
    destruct (localAPIPermissions_frame pick ci w) as (tr & Hw & _).
    destruct (localAPIPermissions pick ci w) as [[perms|msg] w1]; simpl in Hw; subst w1;
      [|reflexivity].
    destruct (on_backend_frame p (localapi_ServeHTTP (fst perms) (snd perms)
                (connCanFetchCerts ci) r) (with_events w tr)) as (Hs & _ & _).
    destruct (on_backend _ _ _) as [[[]|msg] w2]; simpl in *; assumption.
  - destruct (negb _); [reflexivity|].
    destruct (String.eqb GOOS "windows"); [|reflexivity].
    rewrite ServeHTMLStatus_eq. destruct (lb (srv w)) as [q|]; [|reflexivity].
    destruct (negb _ && _); [reflexivity|]. apply on_backend_frame.
Qed.

(** An error response of the served part is the 404 of [http.NotFound] or
    a refusal of the status page; the served part has then changed
    nothing. *)
Lemma serveHTTP_registered_error (p : LBptr) (pick : nat) (r : http_Request)
    (ci : ConnIdentity) (w : World LB) (msg : string) (code : nat) :
  fst (serveHTTP_registered p pick r ci w) = Ok (http_Error msg code) ->
  snd (serveHTTP_registered p pick r ci w) = w
  /\ String.prefix "/localapi/" (URL_Path r) = false
  /\ ((code = StatusNotFound /\ msg = "404 page not found" /\ URL_Path r <> "/")
      \/ (GOOS = "windows" /\ URL_Path r = "/"
          /\ ((code = StatusServiceUnavailable /\ lb (srv w) = None)
              \/ (code = StatusForbidden /\ msg = "invalid host"
                  /\ String.prefix "localhost:" (req_Host r) = false
                  /\ host_has_letter (req_Host r) = true)))).
Proof.
  unfold serveHTTP_registered.
  destruct (String.prefix "/localapi/" (URL_Path r)).
  { cbv beta iota delta [bind ret].
    destruct (localAPIPermissions pick ci w) as [[perms|m] w1]; [|discriminate].
    destruct (on_backend _ _ _) as [[[]|m] w2]; discriminate. }
  destruct (String.eqb_spec (URL_Path r) "/") as [Hp|Hp]; simpl.
  2:{ intros [= <- <-]. do 2 (split; [reflexivity|]). left. done. }
  destruct (String.eqb_spec GOOS "windows") as [Hg|Hg]; [|discriminate].
  rewrite ServeHTMLStatus_eq. destruct (lb (srv w)) as [q|].
  - destruct (String.prefix "localhost:" (req_Host r)); simpl.
    { destruct (fst (Status_WriteHTML r (heap w q))); discriminate. }
    destruct (host_has_letter (req_Host r)); simpl.
    + intros [= <- <-]. do 2 (split; [reflexivity|]). right. do 2 (split; [assumption|]).
      right. done.
    + destruct (fst (Status_WriteHTML r (heap w q))); discriminate.
  - intros [= <- <-]. do 2 (split; [reflexivity|]). right. do 2 (split; [assumption|]).
    left. done.
Qed.

Lemma read_only_lock_check_unlock (q : LBptr) (ci : ConnIdentity) :
  Forall read_only_event [EvLock; EvCall q (CheckIPNConnectionAllowed ci); EvUnlock].
Proof.
  unfold read_only_event.
  repeat (apply List.Forall_cons; [eauto 8|]). apply List.Forall_nil.
Qed.

Lemma read_only_lock_unlock : Forall read_only_event [EvLock; EvUnlock].
Proof.
  unfold read_only_event.
  repeat (apply List.Forall_cons; [eauto 8|]). apply List.Forall_nil.
Qed.

(** X15. The error responses of [serveHTTP], by status code. The codes
    405, 503, 500 and 401 are sent before the request is registered and
    leave the server fields and the backend as they were; at most the lock
    is taken and the backend's policy asked. Each tells its cause: 405 for
    CONNECT off Windows, 503 for a server without backend, 500 for a request
    without identity value, 401 for an identity error or a refused
    registration, with the error's text as the message. Every other error
    response is a 403 or a 404, and is sent only after the request's
    identity was accepted: the request was registered and deregistered, the
    final state is the one [onDone] leaves from the registered one, so the
    last user id may have changed and the backend may have been reset. The
    404 is the one of [http.NotFound], for a path that is neither under
    [/localapi/] nor [/]. *)
Theorem serveHTTP_refusals (pick pick' : nat) (r : http_Request) (w : World LB)
    (msg : string) (code : nat) :
  fst (serveHTTP pick pick' r w) = Ok (http_Error msg code) ->
  (code <> StatusForbidden /\ code <> StatusNotFound
   /\ srv (snd (serveHTTP pick pick' r w)) = srv w
   /\ heap (snd (serveHTTP pick pick' r w)) = heap w
   /\ (exists tr, trace (snd (serveHTTP pick pick' r w)) = trace w ++ tr
                  /\ Forall read_only_event tr)
   /\ ((code = StatusMethodNotAllowed /\ Method r = "CONNECT" /\ GOOS <> "windows")
       \/ (code = StatusServiceUnavailable /\ Method r <> "CONNECT" /\ lb (srv w) = None)
       \/ (code = StatusInternalServerError /\ ctx_connIdentity r = CtxNil)
       \/ (code = StatusUnauthorized
           /\ ((exists e, ctx_connIdentity r = CtxError e /\ msg = Error e)
               \/ (exists ci od e w1,
                     (ctx_connIdentity r = CtxConnIdentity ci
                      \/ (ctx_connIdentity r = CtxOther /\ ci = None))
                     /\ addActiveHTTPRequest pick (req_ptr r) ci w = (Ok (od, Some e), w1)
                     /\ msg = Error e)))))
  \/ ((code = StatusForbidden \/ code = StatusNotFound)
      /\ Method r <> "CONNECT"
      /\ (code = StatusNotFound ->
          msg = "404 page not found" /\ URL_Path r <> "/"
          /\ String.prefix "/localapi/" (URL_Path r) = false)
      /\ exists ci p,
           ctx_connIdentity r = CtxConnIdentity (Some ci)
           /\ verdict pick ci w = Accepted p
           /\ activeReqs (srv (registered p (req_ptr r) ci w)) !! req_ptr r = Some ci
           /\ snd (serveHTTP pick pick' r w)
              = snd (onDone p (req_ptr r) (registered p (req_ptr r) ci w))).
Proof.
  assert (Hnil : forall tr : list Event, tr = [] -> trace w = trace w ++ tr /\ Forall read_only_event tr).
  { intros tr ->. rewrite app_nil_r. split; [reflexivity | apply List.Forall_nil]. }
  assert (H401 : StatusUnauthorized <> StatusForbidden /\ StatusUnauthorized <> StatusNotFound)
    by (split; discriminate).
  rewrite serveHTTP_eq.
  destruct (String.eqb_spec (Method r) "CONNECT") as [Hm|Hm].
  { destruct (String.eqb_spec GOOS "windows") as [Hg|Hg].
    - destruct (handleProxyConnectConn r w) as [[[]|m] w1]; discriminate.
    - intros [= <- <-]. left. do 2 (split; [discriminate|]).
      do 2 (split; [reflexivity|]). split; [eauto|]. left. done. }
  destruct (lb (srv w)) as [p|] eqn:Hp.
  2:{ intros [= <- <-]. left. do 2 (split; [discriminate|]).
      do 2 (split; [reflexivity|]). split; [eauto|]. right. left. done. }
  destruct (ctx_connIdentity r) as [[ci|]|v| |] eqn:Hctx.
  - pose proof (addActiveHTTPRequest_verdict pick (req_ptr r) ci w) as Hadd.
    destruct (verdict pick ci w) as [|active|active u|q e|q] eqn:Hv; try discriminate.
    + intros [= <- <-]. left. destruct H401. do 2 (split; [assumption|]).
      do 2 (split; [reflexivity|]).
      split; [exists [EvLock; EvUnlock]; split; [reflexivity | apply read_only_lock_unlock]|].
      do 3 right. split; [reflexivity|]. right.
      exists (Some ci), None, (inUseOtherUserError (errorString (inUseMessage (Username u) (Pid active)))),
        (with_events w [EvLock; EvUnlock]). split; [eauto|]. split; [assumption | reflexivity].
    + intros [= <- <-]. left. destruct H401. do 2 (split; [assumption|]).
      do 2 (split; [reflexivity|]).
      split; [eexists; split; [reflexivity | apply read_only_lock_check_unlock]|].
      do 3 right. split; [reflexivity|]. right.
      exists (Some ci), None, (inUseOtherUserError e),
        (with_events w [EvLock; EvCall q (CheckIPNConnectionAllowed ci); EvUnlock]).
      split; [eauto|]. split; [assumption | reflexivity].
    + cbn [fst snd]. intros Hres. right.
      destruct (registered_fields q (req_ptr r) ci w) as (Ha & Hlb & _).
      apply serveHTTP_registered_error in Hres
        as (Hsame & Hpre & [(-> & -> & Hpath)|(_ & _ & [[_ Hnone]|(-> & _)])]).
      * split; [right; reflexivity|]. split; [assumption|]. split; [done|].
        exists ci, q. rewrite Hsame, Ha. do 2 (split; [first [reflexivity | assumption]|]).
        split; [apply lookup_insert_eq | reflexivity].
      * congruence.
      * split; [left; reflexivity|]. split; [assumption|]. split; [discriminate|].
        exists ci, q. rewrite Hsame, Ha. do 2 (split; [first [reflexivity | assumption]|]).
        split; [apply lookup_insert_eq | reflexivity].
  - intros [= <- <-]. left. destruct H401. do 2 (split; [assumption|]).
    do 2 (split; [reflexivity|]). split; [eauto|].
    do 3 right. split; [reflexivity|]. right.
    exists None, None, (errorString "internal error: nil connIdentity"), w.
    split; [eauto|]. split; reflexivity.
  - intros [= <- <-]. left. destruct H401. do 2 (split; [assumption|]).
    do 2 (split; [reflexivity|]). split; [eauto|].
    do 3 right. split; [reflexivity|]. left. eauto.
  - intros [= <- <-]. left. do 2 (split; [discriminate|]).
    do 2 (split; [reflexivity|]). split; [eauto|].
    right. right. left. done.
  - intros [= <- <-]. left. destruct H401. do 2 (split; [assumption|]).
    do 2 (split; [reflexivity|]). split; [eauto|].
    do 3 right. split; [reflexivity|]. right.
    exists None, None, (errorString "internal error: nil connIdentity"), w.
    split; [eauto|]. split; reflexivity.
Qed.

(** X16. [serveHTTP] registers and deregisters in pairs: for a request that
    is not CONNECT and not yet in the active map, the active map and every
    server field but the last user id are after the call what they were
    before it, whatever the response - also when the LocalAPI handler or the
    status page panics, since [onDone] is deferred. *)
Theorem serveHTTP_balanced (pick pick' : nat) (r : http_Request) (w : World LB) :
  Method r <> "CONNECT" ->
  activeReqs (srv w) !! req_ptr r = None ->
  activeReqs (srv (snd (serveHTTP pick pick' r w))) = activeReqs (srv w)
  /\ lb (srv (snd (serveHTTP pick pick' r w))) = lb (srv w)
  /\ startBackendOnce (srv (snd (serveHTTP pick pick' r w))) = startBackendOnce (srv w)
  /\ runCalled (srv (snd (serveHTTP pick pick' r w))) = runCalled (srv w)
  /\ resetOnZero (srv (snd (serveHTTP pick pick' r w))) = resetOnZero (srv w).
Proof.
  intros Hm Hfresh. rewrite serveHTTP_eq.
  destruct (String.eqb_spec (Method r) "CONNECT") as [|_]; [contradiction|].
  destruct (lb (srv w)) as [p|] eqn:Hp; [|done].
  destruct (ctx_connIdentity r) as [[ci|]|v| |]; try done.
  destruct (verdict pick ci w) as [|active|active u|q e|q]; try done.
  cbn [snd]. rewrite onDone_eq. cbn [snd srv].
  rewrite serveHTTP_registered_srv.
  destruct (registered_fields q (req_ptr r) ci w) as (Ha & Hlb & Hs & Hr & Hz).
  cbn [activeReqs lb startBackendOnce runCalled resetOnZero set_activeReqs].
  rewrite Ha, Hlb, Hs, Hr, Hz, Hp.
  repeat split. rewrite delete_insert_eq. apply delete_id. assumption.
Qed.

(** On a registered request the identity comparison of the second check
    finds nothing to object to. *)
Lemma registered_no_conflict (pick pick' : nat) (p : LBptr) (req : Req) (ci : ConnIdentity)
    (w : World LB) :
  reachable w -> resolved ci -> verdict pick ci w = Accepted p ->
  reachable (registered p req ci w)
  /\ lb (srv (registered p req ci w)) = Some p
  /\ conflicting pick' ci (srv (registered p req ci w)) = None.
Proof.
  intros Hw Hci Hv.
  assert (Hw1 : reachable (registered p req ci w)).
  { rewrite <- (registered_exec pick p req ci w Hv). apply reachable_step; assumption. }
  destruct (registered_fields p req ci w) as (Ha & Hlb & _).
  apply verdict_Accepted in Hv as (Hp & _ & _).
  split; [assumption|]. split; [congruence|].
  pose proof (reachable_inv _ Hw1) as Hinv.
  apply same_user_no_conflict; [assumption|]. intros r' a Hr'.
  eapply inv_same_user; [eassumption| |eassumption].
  rewrite Ha. apply lookup_insert_eq.
Qed.

(** X17. The server's own code does not panic while serving: in a reachable
    state, a request that is not CONNECT and whose identity value is the one
    [ConnContext] attached to its connection gets a response, unless the
    LocalAPI handler or the status page panics - then [serveHTTP] panics
    with that very message. [mustBackend], the nil [onDone] and the nil
    identity are never reached. *)
Theorem serveHTTP_panics_only_in_handlers (pick pick' : nat) (r : http_Request)
    (c : net_Conn) (w : World LB) :
  reachable w -> Method r <> "CONNECT" -> ctx_connIdentity r = ConnContext c ->
  (exists resp, fst (serveHTTP pick pick' r w) = Ok resp)
  \/ (exists msg,
        fst (serveHTTP pick pick' r w) = Panic msg
        /\ ((exists rd wr cert b, fst (localapi_ServeHTTP rd wr cert r b) = Panic msg)
            \/ (exists b, fst (Status_WriteHTML r b) = Panic msg))).
Proof.
  intros Hw Hm Hctx. rewrite serveHTTP_eq.
  destruct (String.eqb_spec (Method r) "CONNECT") as [|_]; [contradiction|].
  destruct (lb (srv w)) as [p|] eqn:Hp; [|eauto].
  rewrite Hctx. unfold ConnContext.
  destruct (getConnIdentity c) as [ci [e|]] eqn:Hc; [eauto|].
  assert (Hci : resolved ci) by (exists c; assumption).
  destruct (verdict pick ci w) as [|active|active u|q e|q] eqn:Hv; eauto.
  { unfold verdict in Hv. rewrite Hp in Hv.
    destruct (conflicting pick ci (srv w)) as [a|];
      [destruct (User a)|destruct (lb_CheckIPNConnectionAllowed _ _)]; discriminate. }
  { exfalso. eapply verdict_not_NilUser; eassumption. }
  cbn [fst].
  destruct (registered_no_conflict pick pick' q (req_ptr r) ci w Hw Hci Hv) as (_ & Hlb & Hnc).
  apply verdict_Accepted in Hv as (Hq & _ & _).
  assert (q = p) by congruence. subst q.
  set (w1 := registered p (req_ptr r) ci w) in *.
  unfold serveHTTP_registered.
  destruct (String.prefix "/localapi/" (URL_Path r)).
  - cbv beta iota delta [bind ret].
    assert (Hperm : exists perms tr, localAPIPermissions pick' ci w1 = (Ok perms, with_events w1 tr)).
    { rewrite localAPIPermissions_eq, Hnc, Hlb.
      destruct (String.eqb GOOS "windows");
        [destruct (lb_CheckIPNConnectionAllowed (heap w1 p) ci); eexists _, _; reflexivity|].
      destruct (String.eqb GOOS "js");
        [exists (true, true), []; unfold with_events; rewrite app_nil_r; destruct w1; reflexivity|].
      destruct (IsUnixSock ci); [eexists _, _; reflexivity|].
      exists (false, false), []. unfold with_events. rewrite app_nil_r. destruct w1; reflexivity. }
    destruct Hperm as (perms & tr & ->).
    destruct (on_backend_frame p (localapi_ServeHTTP (fst perms) (snd perms)
                (connCanFetchCerts ci) r) (with_events w1 tr)) as (_ & _ & Hf).
    destruct (on_backend _ _ _) as [[[]|msg] w2]; [eauto|].
    right. exists msg. split; [reflexivity|]. left. simpl in Hf. eauto 6.
  - destruct (negb _); [eauto|].
    destruct (String.eqb GOOS "windows"); [|eauto].
    rewrite ServeHTMLStatus_eq, Hlb.
    destruct (negb _ && _); [eauto|]. cbn [fst].
    destruct (fst (Status_WriteHTML r (heap w1 p))) as [[]|msg] eqn:Hs; [eauto|].
    right. exists msg. split; [reflexivity|]. right. eauto.
Qed.

(** X18. The permissions the LocalAPI handler is given. For a request of a
    connection, in a reachable state: the handler runs only for an identity
    the resolver produced, on a server with a backend, after the request was
    accepted; it never gets write without read, and on a Windows build
    never the certificate permission. Under the Windows GOOS the second
    check never fails on the identity comparison - the request itself is in
    flight - so read and write are both granted exactly when the backend's
    policy, asked again after the registration, still allows the
    connection. *)
Theorem serveHTTP_localapi_permissions (pick pick' : nat) (r : http_Request)
    (c : net_Conn) (w : World LB) (rd wr cert : bool) :
  reachable w -> ctx_connIdentity r = ConnContext c ->
  fst (serveHTTP pick pick' r w) = Ok (LocalAPI rd wr cert) ->
  exists ci p,
    getConnIdentity c = (ci, None)
    /\ verdict pick ci w = Accepted p
    /\ String.prefix "/localapi/" (URL_Path r) = true
    /\ cert = connCanFetchCerts ci
    /\ (wr = true -> rd = true)
    /\ (build_windows = true -> cert = false)
    /\ (GOOS = "windows" ->
        rd = wr
        /\ (rd = true <->
            lb_CheckIPNConnectionAllowed (heap (registered p (req_ptr r) ci w) p) ci = None)).
Proof.
  intros Hw Hctx. rewrite serveHTTP_eq.
  destruct (String.eqb (Method r) "CONNECT").
  { destruct (String.eqb GOOS "windows"); [|discriminate].
    destruct (handleProxyConnectConn r w) as [[[]|m] w1]; discriminate. }
  destruct (lb (srv w)) as [p|] eqn:Hp; [|discriminate].
  rewrite Hctx. unfold ConnContext.
  destruct (getConnIdentity c) as [ci [e|]] eqn:Hc; [discriminate|].
  assert (Hci : resolved ci) by (exists c; assumption).
  destruct (verdict pick ci w) as [|active|active u|q e|q] eqn:Hv; try discriminate.
  cbn [fst].
  destruct (registered_no_conflict pick pick' q (req_ptr r) ci w Hw Hci Hv) as (_ & Hlb & Hnc).
  pose proof (verdict_Accepted _ _ _ _ Hv) as (Hq & _ & _).
  assert (q = p) by congruence. subst q.
  set (w1 := registered p (req_ptr r) ci w) in *.
  unfold serveHTTP_registered.
  destruct (String.prefix "/localapi/" (URL_Path r)).
  2:{ destruct (negb _); [discriminate|].
      destruct (String.eqb GOOS "windows"); [|discriminate].
      rewrite ServeHTMLStatus_eq, Hlb.
      destruct (negb _ && _); [discriminate|]. cbn [fst].
      destruct (fst (Status_WriteHTML r (heap w1 p))); discriminate. }
  cbv beta iota delta [bind ret].
  pose proof (localAPIPermissions_eq pick' ci w1) as Hperm. rewrite Hnc, Hlb in Hperm.
  destruct (localAPIPermissions pick' ci w1) as [[[rd' wr']|msg] w2]; [|discriminate].
  destruct (on_backend _ _ _) as [[[]|msg] w3]; [|discriminate].
  cbn [fst snd]. intros [= <- <- <-].
  exists ci, p. fold w1. do 4 (split; [first [reflexivity | assumption]|]).
  assert (Hwin : build_windows = true -> connCanFetchCerts ci = false).
  { intros Hb. unfold getConnIdentity in Hc. rewrite Hb in Hc.
    unfold getConnIdentity_windows, getNamedPipeClientProcessId in Hc.
    destruct (conn_handle c) as [h|]; [|discriminate].
    destruct (procGetNamedPipeClientProcessId h) as [[r1 pid] e].
    destruct (0 <? r1)%N; [|discriminate]. simpl in Hc.
    destruct (OwnerOfPID pid) as [uid [e'|]]; [discriminate|].
    destruct (lookupUserFromID uid) as [u|e']; [|discriminate].
    injection Hc as <-. reflexivity. }
  destruct (String.eqb_spec GOOS "windows") as [Hg|Hg].
  - destruct (lb_CheckIPNConnectionAllowed (heap w1 p) ci) as [e|];
      injection Hperm as -> -> _;
      (split; [done|]; split; [assumption|]; intros _; split; [reflexivity|]; split; done).
  - destruct (String.eqb GOOS "js"); [|destruct (IsUnixSock ci)];
      injection Hperm as -> -> _;
      (split; [done|]; split; [assumption|]; intros; contradiction).
Qed.

(** X19. Requests of connections never see the internal errors, and off
    Windows only the backend's policy refuses them. For a request whose
    identity value is the one [ConnContext] attached, in a reachable state:
    an error response is never 500; and on a build that is not Windows a
    401 means that the backend's [CheckIPNConnectionAllowed] refused the
    connection's identity, and the message is the text of its error. *)
Theorem connection_request_errors (pick pick' : nat) (r : http_Request)
    (c : net_Conn) (w : World LB) (msg : string) (code : nat) :
  reachable w -> ctx_connIdentity r = ConnContext c ->
  fst (serveHTTP pick pick' r w) = Ok (http_Error msg code) ->
  code <> StatusInternalServerError
  /\ (build_windows = false -> code = StatusUnauthorized ->
      exists p e,
        lb (srv w) = Some p
        /\ lb_CheckIPNConnectionAllowed (heap w p) (fst (getConnIdentity c)) = Some e
        /\ msg = Error e).
Proof.
  intros Hw Hctx. rewrite serveHTTP_eq.
  destruct (String.eqb (Method r) "CONNECT").
  { destruct (String.eqb GOOS "windows").
    - destruct (handleProxyConnectConn r w) as [[[]|m] w1]; discriminate.
    - intros [= <- <-]. split; discriminate. }
  destruct (lb (srv w)) as [p|] eqn:Hp; [|intros [= <- <-]; split; discriminate].
  rewrite Hctx. unfold ConnContext.
  destruct (getConnIdentity c) as [ci [e|]] eqn:Hc.
  { intros [= <- <-]. split; [discriminate|]. intros Hb _. exfalso.
    unfold getConnIdentity in Hc. rewrite Hb in Hc. discriminate. }
  assert (Hci : resolved ci) by (exists c; assumption).
  pose proof (reachable_inv w Hw) as Hinv.
  destruct (verdict pick ci w) as [|active|active u|q e|q] eqn:Hv; try discriminate.
  - intros [= <- <-]. split; [discriminate|]. intros Hb _. exfalso.
    unfold verdict in Hv. rewrite Hp in Hv.
    destruct (conflicting pick ci (srv w)) as [a|] eqn:Hconf;
      [|destruct (lb_CheckIPNConnectionAllowed _ _); discriminate].
    apply conflicting_Some in Hconf as [[r' Hr'] Hne]. apply Hne.
    assert (Huid : forall a', resolved a' -> WindowsUserID a' = "").
    { intros a' [k Hk]. unfold getConnIdentity in Hk. rewrite Hb in Hk.
      eapply getConnIdentity_notwindows_UserID; eassumption. }
    rewrite (Huid ci Hci). symmetry. apply Huid. eapply inv_resolved; eassumption.
  - intros [= <- <-]. split; [discriminate|]. intros _ _.
    unfold verdict in Hv. rewrite Hp in Hv.
    destruct (conflicting pick ci (srv w)) as [a|]; [destruct (User a); discriminate|].
    destruct (lb_CheckIPNConnectionAllowed (heap w p) ci) as [e'|] eqn:Ha; [|discriminate].
    injection Hv as -> ->. exists q, e. done.
  - cbn [fst]. intros Hres.
    apply serveHTTP_registered_error in Hres
      as (_ & _ & [(-> & _)|(_ & _ & [[_ Hnone]|[-> _]])]).
    + split; discriminate.
    + destruct (registered_fields q (req_ptr r) ci w) as (_ & Hlb & _). congruence.
    + split; discriminate.
Qed.

(** X20. A request for the status page under a DNS name is refused only
    after it was registered. A 403 of [serveHTTP] means: the GOOS is
    windows, the path is [/], the Host header does not start with
    [localhost:] and contains a letter, and the request's identity was
    accepted. The status page was not rendered, but the registration and
    the deferred [onDone] took place: the world is the one [onDone] leaves
    from the registered one. *)
Theorem status_page_forbidden_host (pick pick' : nat) (r : http_Request) (w : World LB)
    (msg : string) :
  fst (serveHTTP pick pick' r w) = Ok (http_Error msg StatusForbidden) ->
  GOOS = "windows" /\ URL_Path r = "/" /\ msg = "invalid host"
  /\ String.prefix "localhost:" (req_Host r) = false
  /\ host_has_letter (req_Host r) = true
  /\ exists ci p,
       ctx_connIdentity r = CtxConnIdentity (Some ci)
       /\ verdict pick ci w = Accepted p
       /\ snd (serveHTTP pick pick' r w)
          = snd (onDone p (req_ptr r) (registered p (req_ptr r) ci w)).
Proof.
  rewrite serveHTTP_eq.
  destruct (String.eqb (Method r) "CONNECT").
  { destruct (String.eqb GOOS "windows"); [|discriminate].
    destruct (handleProxyConnectConn r w) as [[[]|m] w1]; discriminate. }
  destruct (lb (srv w)) as [p|] eqn:Hp; [|discriminate].
  destruct (ctx_connIdentity r) as [[ci|]|v| |]; try discriminate.
  destruct (verdict pick ci w) as [|active|active u|q e|q] eqn:Hv; try discriminate.
  cbn [fst snd]. intros Hres.
  apply serveHTTP_registered_error in Hres
    as (Hsame & _ & [(Hc & _)|(Hg & Hpath & [[Hc _]|(_ & -> & Hpre & Hlet)])]);
    [discriminate|discriminate|].
  do 5 (split; [first [assumption | reflexivity]|]).
  exists ci, q. rewrite Hsame. done.
Qed.

End HTTPFacts.

(** ** [Run] *)

Section RunResultFacts.

Context `{Host} {LB : Type} `{LocalBackend LB}.

Lemma Run_eq (serve : M LB (option error)) (ctxErr : option error) (w : World LB) :
  Run serve ctxErr w =
    (match fst (serve (snd (Run_prologue w))) with
     | Ok (Some _) => Ok ctxErr
     | Ok None => Ok None
     | Panic msg => Panic msg
     end,
     snd (Run_deferred (snd (serve (snd (Run_prologue w)))))).
Proof.
  unfold Run, defer. cbv beta iota delta [bind].
  rewrite Run_prologue_eq. cbn [snd].
  destruct (serve _) as [[[e|]|msg] w2]; cbn [fst snd]; unfold ret.
  - destruct ctxErr; destruct (Run_deferred w2); reflexivity.
  - destruct (Run_deferred w2); reflexivity.
  - destruct (Run_deferred w2); reflexivity.
Qed.

(** X21. [Run] never returns the error of [hs.Serve]. It returns a non-nil
    error exactly when serving ended with an error and the context is done,
    and the error is then the context's; a serving error with a live
    context is dropped and [Run] returns nil. *)
Theorem Run_returns_context_error (serve : M LB (option error)) (ctxErr : option error)
    (w : World LB) (e : error) :
  fst (Run serve ctxErr w) = Ok (Some e) <->
  ctxErr = Some e /\ exists e', fst (serve (snd (Run_prologue w))) = Ok (Some e').
Proof.
  rewrite Run_eq. cbn [fst]. split.
  - destruct (fst (serve (snd (Run_prologue w)))) as [[e'|]|msg]; try discriminate.
    intros [= ->]. eauto.
  - intros [-> [e' ->]]. reflexivity.
Qed.

(** X22. [Run] marks the server as running before it serves, and it ends by
    shutting down the backend that is bound when serving ends - whether
    serving returned or panicked, and also when the backend was bound only
    while serving. With no backend bound it ends without calling anything.
    The shutdown is the last event and changes no server field. *)
Theorem Run_shuts_down_backend (serve : M LB (option error)) (ctxErr : option error)
    (w : World LB) :
  runCalled (srv (snd (Run_prologue w))) = true
  /\ srv (snd (Run serve ctxErr w)) = srv (snd (serve (snd (Run_prologue w))))
  /\ new_events (snd (serve (snd (Run_prologue w)))) (snd (Run serve ctxErr w))
     = match lb (srv (snd (serve (snd (Run_prologue w))))) with
       | Some p => [EvCall p Shutdown]
       | None => []
       end
  /\ heap (snd (Run serve ctxErr w))
     = match lb (srv (snd (serve (snd (Run_prologue w))))) with
       | Some p => heap_update p lb_Shutdown (heap (snd (serve (snd (Run_prologue w)))))
       | None => heap (snd (serve (snd (Run_prologue w))))
       end.
Proof.
  split.
  { rewrite Run_prologue_eq, startBackendIfNeeded_eq. cbn [snd srv with_events lb runCalled set_runCalled].
    destruct (lb (srv w)) as [p|]; [|reflexivity]. cbn.
    repeat match goal with |- context [if ?b then _ else _] => destruct b end; reflexivity. }
  rewrite Run_eq. cbn [snd]. rewrite Run_deferred_eq. cbn [snd].
  destruct (lb (srv (snd (serve (snd (Run_prologue w)))))) as [p|].
  - split; [reflexivity|]. split; [apply new_events_app; reflexivity | reflexivity].
  - split; [reflexivity|]. split; [|reflexivity].
    apply new_events_app. symmetry. apply app_nil_r.
Qed.

End RunResultFacts.

(** ** Concrete requests *)

Lemma reachable_linux_session_refused : @reachable (linux "") _ _ linux_session_refused.
Proof.
  apply reachable_exec_all; [apply reachable_linux_session|].
  apply List.Forall_cons; [exact I | apply List.Forall_nil].
Qed.

Lemma reachable_windows_running : @reachable windows _ _ windows_running.
Proof.
  apply reachable_exec_all; [apply reachable_New|].
  repeat (apply List.Forall_cons; [exact I|]). apply List.Forall_nil.
Qed.

Lemma serveHTTP_refusals_witness :
  (fst (@serveHTTP windows _ _ _ 0 0 (localapi_request 2%nat (pipe 300)) alice_session)
     = Ok (http_Error "Tailscale already in use by alice, pid 100" StatusUnauthorized)
   /\ srv (snd (@serveHTTP windows _ _ _ 0 0 (localapi_request 2%nat (pipe 300)) alice_session))
      = srv alice_session
   /\ heap (snd (@serveHTTP windows _ _ _ 0 0 (localapi_request 2%nat (pipe 300)) alice_session))
      = heap alice_session)
  /\ (fst (@serveHTTP windows _ _ _ 0 0 (favicon_request 2%nat (pipe 300)) after_alice)
        = Ok (http_Error "404 page not found" StatusNotFound)
      /\ lastUserID (srv (snd (@serveHTTP windows _ _ _ 0 0 (favicon_request 2%nat (pipe 300))
                                 after_alice)))
         <> lastUserID (srv after_alice)
      /\ exists ci p,
           verdict 0 ci after_alice = Accepted p
           /\ snd (@serveHTTP windows _ _ _ 0 0 (favicon_request 2%nat (pipe 300)) after_alice)
              = snd (onDone p 2%nat (registered p 2%nat ci after_alice))).
Proof.
  split.
  - split; [reflexivity|].
    destruct (@serveHTTP_refusals windows _ _ _ 0 0 (localapi_request 2%nat (pipe 300))
                alice_session "Tailscale already in use by alice, pid 100" StatusUnauthorized)
      as [(_ & _ & Hs & Hh & _)|([Hc|Hc] & _)];
      [reflexivity | split; assumption | discriminate Hc | discriminate Hc].
  - split; [reflexivity|]. split; [discriminate|].
    destruct (@serveHTTP_refusals windows _ _ _ 0 0 (favicon_request 2%nat (pipe 300))
                after_alice "404 page not found" StatusNotFound)
      as [(_ & Hne & _)|(_ & _ & _ & ci & p & _ & Hv & _ & Hw)]; [reflexivity | |].
    + exfalso. apply Hne. reflexivity.
    + exists ci, p. split; assumption.
Defined.

Lemma serveHTTP_balanced_witness :
  Method (localapi_request 2%nat (pipe 100)) <> "CONNECT"
  /\ activeReqs (srv alice_session) !! 2%nat = None
  /\ activeReqs (srv (snd (@serveHTTP windows _ _ _ 0 0 (localapi_request 2%nat (pipe 100))
                             alice_session)))
     = activeReqs (srv alice_session).
Proof.
  split; [discriminate|]. split; [reflexivity|].
  destruct (@serveHTTP_balanced windows _ _ _ 0 0 (localapi_request 2%nat (pipe 100))
              alice_session) as (Ha & _); [discriminate | reflexivity |].
  assumption.
Defined.

Lemma serveHTTP_panics_only_in_handlers_witness :
  (exists resp,
     fst (@serveHTTP windows _ _ _ 0 0 (localapi_request 2%nat (pipe 100)) alice_session)
     = Ok resp)
  \/ (exists msg,
        fst (@serveHTTP windows _ _ _ 0 0 (localapi_request 2%nat (pipe 100)) alice_session)
        = Panic msg
        /\ ((exists rd wr cert b,
               fst (localapi_ServeHTTP rd wr cert (localapi_request 2%nat (pipe 100)) b)
               = Panic msg)
            \/ (exists b, fst (Status_WriteHTML (localapi_request 2%nat (pipe 100)) b)
                          = Panic msg))).
Proof.
  apply (@serveHTTP_panics_only_in_handlers windows _ _ _ 0 0
           (localapi_request 2%nat (pipe 100)) (pipe 100) alice_session).
  - exact reachable_alice_session.
  - discriminate.
  - reflexivity.
Defined.

Lemma serveHTTP_localapi_permissions_witness :
  fst (@serveHTTP windows _ _ _ 0 0 (localapi_request 2%nat (pipe 100)) alice_session)
    = Ok (LocalAPI true true false)
  /\ exists ci p,
       @getConnIdentity windows (pipe 100) = (ci, None)
       /\ verdict 0 ci alice_session = Accepted p.
Proof.
  split; [reflexivity|].
  destruct (@serveHTTP_localapi_permissions windows _ _ _ 0 0
              (localapi_request 2%nat (pipe 100)) (pipe 100) alice_session true true false)
    as (ci & p & Hc & Hv & _);
    [exact reachable_alice_session | reflexivity | reflexivity |].
  exists ci, p. split; assumption.
Defined.

Lemma connection_request_errors_witness :
  fst (@serveHTTP (linux "") _ _ _ 0 0 (linux_request 2%nat 0) linux_session_refused)
    = Ok (http_Error "access denied" StatusUnauthorized)
  /\ exists p e,
       lb (srv linux_session_refused) = Some p
       /\ lb_CheckIPNConnectionAllowed (heap linux_session_refused p)
            (fst (@getConnIdentity (linux "") (unixConn 0))) = Some e
       /\ "access denied" = Error e.
Proof.
  split; [reflexivity|].
  destruct (@connection_request_errors (linux "") _ _ _ 0 0 (linux_request 2%nat 0)
              (unixConn 0) linux_session_refused "access denied" StatusUnauthorized)
    as [_ Hpolicy];
    [exact reachable_linux_session_refused | reflexivity | reflexivity |].
  apply Hpolicy; reflexivity.
Defined.

Lemma status_page_forbidden_host_witness :
  fst (@serveHTTP windows _ _ _ 0 0
         (status_page_request 1%nat (pipe 100) "tailscale.example.com:41112") windows_running)
    = Ok (http_Error "invalid host" StatusForbidden)
  /\ exists ci p,
       verdict 0 ci windows_running = Accepted p
       /\ snd (@serveHTTP windows _ _ _ 0 0
                 (status_page_request 1%nat (pipe 100) "tailscale.example.com:41112")
                 windows_running)
          = snd (onDone p 1%nat (registered p 1%nat ci windows_running)).
Proof.
  split; [reflexivity|].
  destruct (@status_page_forbidden_host windows _ _ _ 0 0
              (status_page_request 1%nat (pipe 100) "tailscale.example.com:41112")
              windows_running "invalid host")
    as (_ & _ & _ & _ & _ & ci & p & _ & Hv & Hw); [reflexivity|].
  exists ci, p. split; assumption.
Defined.

(** ** The order of the map iteration, and what the server remembers *)

Section MoreOrderFacts.

Context `{Host} {LB : Type} `{LocalBackend LB}.

(** Two iterations of the active map lead to the same verdict, up to the
    entry a conflict names. *)
Lemma verdict_pick (w : World LB) (pick1 pick2 : nat) (ci : ConnIdentity) :
  reachable w -> resolved ci ->
  verdict pick1 ci w = verdict pick2 ci w
  \/ exists r1 a1 u1 r2 a2 u2,
       activeReqs (srv w) !! r1 = Some a1 /\ activeReqs (srv w) !! r2 = Some a2
       /\ WindowsUserID a1 = WindowsUserID a2
       /\ WindowsUserID ci <> WindowsUserID a1
       /\ verdict pick1 ci w = Conflict a1 u1 /\ verdict pick2 ci w = Conflict a2 u2.
Proof.
  intros Hw Hci. pose proof (reachable_inv w Hw) as Hinv. unfold verdict.
  destruct (lb (srv w)) as [p|]; [|left; reflexivity].
  destruct (conflicting pick1 ci (srv w)) as [a1|] eqn:H1;
    destruct (conflicting pick2 ci (srv w)) as [a2|] eqn:H2.
  - apply conflicting_Some in H1 as [[r1 Hr1] Hne1].
    apply conflicting_Some in H2 as [[r2 Hr2] Hne2].
    assert (Huser : forall r a, activeReqs (srv w) !! r = Some a -> is_Some (User a)).
    { intros r a Hr. destruct resolved_uniform as [Hall|Hall].
      - apply Hall. eapply inv_resolved; eassumption.
      - exfalso. apply Hne1. rewrite (Hall ci Hci). symmetry. apply Hall.
        eapply inv_resolved; eassumption. }
    destruct (Huser r1 a1 Hr1) as [u1 ->]. destruct (Huser r2 a2 Hr2) as [u2 ->].
    right. exists r1, a1, u1, r2, a2, u2. do 2 (split; [assumption|]).
    split; [eapply inv_same_user; eassumption|]. split; [assumption|]. split; reflexivity.
  - exfalso. apply conflicting_Some in H1 as [[r1 Hr1] Hne1]. apply Hne1.
    eapply conflicting_None; eassumption.
  - exfalso. apply conflicting_Some in H2 as [[r2 Hr2] Hne2]. apply Hne2.
    eapply conflicting_None; eassumption.
  - left. reflexivity.
Qed.

(** X23. The order in which Go iterates over the active map decides nothing
    but which request in flight the refusal names. In a reachable state, for
    a resolved identity, two runs of [addActiveHTTPRequest] that differ only
    in the entry the iteration yields end in the same state, and they return
    the same results - or both refuse with the in-use message, each naming
    the username and the pid of the entry it happened to see; the two
    entries are in flight under one user id, which is not the caller's. *)
Theorem map_order_only_changes_named_entry (w : World LB) (pick1 pick2 : nat) (req : Req)
    (ci : ConnIdentity) :
  reachable w -> resolved ci ->
  snd (addActiveHTTPRequest pick1 req (Some ci) w)
  = snd (addActiveHTTPRequest pick2 req (Some ci) w)
  /\ (fst (addActiveHTTPRequest pick1 req (Some ci) w)
      = fst (addActiveHTTPRequest pick2 req (Some ci) w)
      \/ exists r1 a1 u1 r2 a2 u2,
           activeReqs (srv w) !! r1 = Some a1 /\ User a1 = Some u1
           /\ activeReqs (srv w) !! r2 = Some a2 /\ User a2 = Some u2
           /\ WindowsUserID a1 = WindowsUserID a2
           /\ WindowsUserID ci <> WindowsUserID a1
           /\ fst (addActiveHTTPRequest pick1 req (Some ci) w)
              = Ok (None, Some (inUseOtherUserError
                                  (errorString ("Tailscale already in use by "
                                                +:+ Username u1 +:+ ", pid "
                                                +:+ pretty (Pid a1)))))
           /\ fst (addActiveHTTPRequest pick2 req (Some ci) w)
              = Ok (None, Some (inUseOtherUserError
                                  (errorString ("Tailscale already in use by "
                                                +:+ Username u2 +:+ ", pid "
                                                +:+ pretty (Pid a2)))))).
Proof.
  intros Hw Hci. rewrite !addActiveHTTPRequest_verdict.
  destruct (verdict_pick w pick1 pick2 ci Hw Hci)
    as [->|(r1 & a1 & u1 & r2 & a2 & u2 & Hr1 & Hr2 & Hsame & Hne & Hv1 & Hv2)].
  - split; [reflexivity | left; reflexivity].
  - assert (Hu1 : User a1 = Some u1).
    { unfold verdict in Hv1. destruct (lb (srv w)); [|discriminate].
      destruct (conflicting pick1 ci (srv w)) as [a|];
        [|destruct (lb_CheckIPNConnectionAllowed _ _); discriminate].
      destruct (User a) eqn:Hu; [|discriminate]. injection Hv1 as -> ->. assumption. }
    assert (Hu2 : User a2 = Some u2).
    { unfold verdict in Hv2. destruct (lb (srv w)); [|discriminate].
      destruct (conflicting pick2 ci (srv w)) as [a|];
        [|destruct (lb_CheckIPNConnectionAllowed _ _); discriminate].
      destruct (User a) eqn:Hu; [|discriminate]. injection Hv2 as -> ->. assumption. }
    rewrite Hv1, Hv2. split; [reflexivity|]. right.
    exists r1, a1, u1, r2, a2, u2. do 6 (split; [assumption|]). split; reflexivity.
Qed.

(** A step leaves the last user id alone, unless it is the accepted
    registration of a first request with a user id. *)
Lemma exec_lastUserID (op : Op LB) (w : World LB) :
  lastUserID (srv (exec op w)) = lastUserID (srv w)
  \/ exists pick req ci p,
       op = OpAdd pick req (Some ci)
       /\ verdict pick ci w = Accepted p
       /\ WindowsUserID ci <> ""
       /\ size (<[req := ci]> (activeReqs (srv w))) = 1%nat
       /\ lastUserID (srv w) <> WindowsUserID ci
       /\ lastUserID (srv (exec op w)) = WindowsUserID ci.
Proof.
  destruct (exec_session op w)
    as [(_ & Hl & _)|[(pick & req & ci & p & Hop & Hv & Hs)|(p & req & _ & Hs)]].
  - left. assumption.
  - rewrite Hs. destruct (register_fields req ci (srv w)) as (_ & _ & _ & _ & _ & ->).
    unfold user_changed, first_request.
    destruct (String.eqb_spec (WindowsUserID ci) "") as [|Hne]; simpl; [left; reflexivity|].
    destruct (Nat.eqb_spec (size (<[req := ci]> (activeReqs (srv w)))) 1) as [Hsz|];
      simpl; [|left; reflexivity].
    destruct (String.eqb_spec (lastUserID (srv w)) (WindowsUserID ci)) as [|Hl]; simpl;
      [left; reflexivity|].
    right. exists pick, req, ci, p. done.
  - left. rewrite Hs. reflexivity.
Qed.

(** X24. The server never forgets that it had a user. A step changes
    [lastUserID] only if it is a registration that is accepted for an
    identity with a non-empty user id which is then the only request in
    flight, and [lastUserID] becomes that user id. So once [lastUserID] is
    not empty it stays not empty under every sequence of steps, completions
    and the idle reset included. *)
Theorem lastUserID_never_cleared (ops : list (Op LB)) (op : Op LB) (w : World LB) :
  (lastUserID (srv (exec op w)) = lastUserID (srv w)
   \/ exists pick req ci p,
        op = OpAdd pick req (Some ci)
        /\ verdict pick ci w = Accepted p
        /\ WindowsUserID ci <> ""
        /\ size (<[req := ci]> (activeReqs (srv w))) = 1%nat
        /\ lastUserID (srv w) <> WindowsUserID ci
        /\ lastUserID (srv (exec op w)) = WindowsUserID ci)
  /\ (lastUserID (srv w) <> "" -> lastUserID (srv (exec_all ops w)) <> "").
Proof.
  split; [apply exec_lastUserID|].
  clear op. revert w. induction ops as [|op ops IH]; intros w Hl; [assumption|].
  simpl. apply IH.
  destruct (exec_lastUserID op w) as [->|(_ & _ & ci & _ & _ & _ & Hne & _ & _ & ->)];
    assumption.
Qed.

End MoreOrderFacts.

(** ** Serving keeps the server within the reachable states *)

Section ServingFacts.

Context `{Host} {LB : Type} `{LocalBackend LB} `{Handlers LB}.

Lemma on_backend_exec (p : LBptr) (h : LB -> Result unit * LB) (w : World LB) :
  snd (on_backend p h w) = exec (OpBackend p (fun _ => snd (h (heap w p)))) w.
Proof. unfold on_backend. cbn [exec]. destruct (h (heap w p)). reflexivity. Qed.

Lemma serveHTTP_registered_reachable (p : LBptr) (pick : nat) (r : http_Request)
    (ci : ConnIdentity) (w : World LB) :
  reachable w -> reachable (snd (serveHTTP_registered p pick r ci w)).
Proof.
  intros Hw. unfold serveHTTP_registered.
  destruct (String.prefix "/localapi/" (URL_Path r)).
  - cbv beta iota delta [bind ret].
    assert (Hw1 : reachable (snd (localAPIPermissions pick ci w))).
    { apply (reachable_step w (OpPermissions pick ci)); [assumption | exact I]. }
    destruct (localAPIPermissions pick ci w) as [[perms|msg] w1]; [|assumption]. cbn [snd] in Hw1.
    pose proof (on_backend_exec p (localapi_ServeHTTP (fst perms) (snd perms)
                  (connCanFetchCerts ci) r) w1) as Hb.
    destruct (on_backend _ _ _) as [[[]|msg] w2]; cbn [snd] in *; rewrite Hb;
      (apply reachable_step; [assumption | exact I]).
  - destruct (negb _); [assumption|].
    destruct (String.eqb GOOS "windows"); [|assumption].
    rewrite ServeHTMLStatus_eq. destruct (lb (srv w)) as [q|]; [|assumption].
    destruct (negb _ && _); [assumption|]. cbn [snd].
    rewrite on_backend_exec. apply reachable_step; [assumption | exact I].
Qed.

(** X25. Serving a request keeps the server within the reachable states: in
    a reachable state, after [serveHTTP] for a request that is not CONNECT
    and whose identity value is the one [ConnContext] attached to its
    connection, the state is again reachable - on every path, refusals and
    panicking handlers included. What [serveHTTP] does is a registration, a
    permission check, a handler working on the backend, and the completion;
    so the single-user invariant, the reset rules and the start-once rule
    hold across any sequence of served requests. *)
Theorem serveHTTP_preserves_reachability (pick pick' : nat) (r : http_Request)
    (c : net_Conn) (w : World LB) :
  reachable w -> Method r <> "CONNECT" -> ctx_connIdentity r = ConnContext c ->
  reachable (snd (serveHTTP pick pick' r w)).
Proof.
  intros Hw Hm Hctx. rewrite serveHTTP_eq.
  destruct (String.eqb_spec (Method r) "CONNECT") as [|_]; [contradiction|].
  destruct (lb (srv w)) as [p|] eqn:Hp; [|assumption].
  rewrite Hctx. unfold ConnContext.
  destruct (getConnIdentity c) as [ci [e|]] eqn:Hc; [assumption|].
  assert (Hci : resolved ci) by (exists c; assumption).
  assert (Hadd : reachable (snd (addActiveHTTPRequest pick (req_ptr r) (Some ci) w))).
  { apply (reachable_step w (OpAdd pick (req_ptr r) (Some ci))); assumption. }
  rewrite addActiveHTTPRequest_verdict in Hadd.
  destruct (verdict pick ci w) as [|active|active u|q e|q]; try assumption.
  cbn [snd] in *. fold (registered q (req_ptr r) ci w) in Hadd.
  apply (reachable_step _ (OpDone q (req_ptr r))); [|exact I].
  apply serveHTTP_registered_reachable. assumption.
Qed.

End ServingFacts.

Lemma reachable_alice_two_requests : @reachable windows _ _ alice_two_requests.
Proof.
  apply reachable_exec_all; [apply reachable_alice_session|].
  apply List.Forall_cons; [exists (pipe 150); reflexivity | apply List.Forall_nil].
Qed.

Lemma map_order_only_changes_named_entry_witness :
  size (activeReqs (srv alice_two_requests)) = 2%nat
  /\ fst (addActiveHTTPRequest 0 2%nat (Some bob_ci) alice_two_requests)
     = Ok (None, Some (inUseOtherUserError
                         (errorString "Tailscale already in use by alice, pid 150")))
  /\ fst (addActiveHTTPRequest 1 2%nat (Some bob_ci) alice_two_requests)
     = Ok (None, Some (inUseOtherUserError
                         (errorString "Tailscale already in use by alice, pid 100")))
  /\ snd (addActiveHTTPRequest 0 2%nat (Some bob_ci) alice_two_requests)
     = snd (addActiveHTTPRequest 1 2%nat (Some bob_ci) alice_two_requests)
  /\ exists r1 a1 u1 r2 a2 u2,
       activeReqs (srv alice_two_requests) !! r1 = Some a1 /\ User a1 = Some u1
       /\ activeReqs (srv alice_two_requests) !! r2 = Some a2 /\ User a2 = Some u2
       /\ WindowsUserID a1 = WindowsUserID a2
       /\ WindowsUserID bob_ci <> WindowsUserID a1.
Proof.
  split; [reflexivity|]. split; [reflexivity|]. split; [reflexivity|].
  destruct (@map_order_only_changes_named_entry windows _ _ alice_two_requests 0 1 2%nat bob_ci
              reachable_alice_two_requests resolved_bob)
    as [Hsame [Heq|(r1 & a1 & u1 & r2 & a2 & u2 & Hr1 & Hu1 & Hr2 & Hu2 & Huid & Hne & _)]].
  - discriminate Heq.
  - split; [exact Hsame|]. exists r1, a1, u1, r2, a2, u2. repeat split; assumption.
Defined.

Lemma lastUserID_never_cleared_witness :
  lastUserID (srv alice_session) <> ""
  /\ lastUserID (srv after_alice) <> ""
  /\ lastUserID (srv (@exec windows _ _ (OpAdd 0 2%nat (Some bob_ci)) after_alice))
     = WindowsUserID bob_ci.
Proof.
  assert (Hl : lastUserID (srv alice_session) <> "") by discriminate.
  split; [assumption|].
  split.
  - apply (@lastUserID_never_cleared windows _ _ [OpDone 7%nat 1%nat]
             (OpDone 7%nat 1%nat) alice_session). assumption.
  - destruct (@lastUserID_never_cleared windows _ _ [] (OpAdd 0 2%nat (Some bob_ci)) after_alice)
      as [[Heq|(pick & req & ci & p & Hop & _ & _ & _ & _ & Hnew)] _].
    + discriminate Heq.
    + injection Hop as _ _ <-. exact Hnew.
Defined.

Lemma serveHTTP_preserves_reachability_witness :
  Method (localapi_request 2%nat (pipe 300)) <> "CONNECT"
  /\ @reachable windows _ _
       (snd (@serveHTTP windows _ _ _ 0 0 (localapi_request 2%nat (pipe 300)) alice_session)).
Proof.
  split; [discriminate|].
  apply (@serveHTTP_preserves_reachability windows _ _ _ 0 0
           (localapi_request 2%nat (pipe 300)) (pipe 300) alice_session).
  - exact reachable_alice_session.
  - discriminate.
  - reflexivity.
Defined.
